(** * journy: the request/response mediation layer (src/api.js) and the
      command actions that call it (src/index.js)

    A shallow embedding.  JavaScript values are an inductive type, objects are
    association lists in insertion order, exceptions and [process.exit] are
    two of the three outcomes of a small state-and-error monad (a conversion
    to a string is one of the steps that may throw), and what lies
    outside src/ (the configuration module config.js, the axios client,
    [JSON.parse]) is a field of an environment record.  The state that is
    threaded through is what a run can be observed by: the requests handed to
    axios and the lines written.

    Embedded from src/api.js: every function.  From src/index.js: the
    helpers [printSuccess], [printError], [printJson], [printTable],
    [withSpinner], [requireAuth] and [parseProperties], and the actions of the
    commands user upsert, user delete, account upsert, account delete,
    account add-users, account remove-users, event track, event list,
    properties users, properties accounts, segments users, segments accounts,
    link, validate and config show.  Not embedded: the snippet command, whose
    [console.log] of a value that is no string prints the engine's own
    rendering of it, and config set, whose effect is inside config.js. *)

From Stdlib Require Import String Ascii List ZArith Bool Lia DecimalString.
Import ListNotations.
Open Scope string_scope.

Set Warnings "-register-all".

(** ** JavaScript values *)

Module JS.

(** A finite Number, held as the decimal [num_mantissa * 10 ^ num_exponent];
    rounding to binary64 is not represented.  The program observes a number
    only through truthiness and through its conversion to a string. *)
Record number := { num_mantissa : Z; num_exponent : Z }.

(** The values that reach this program: command-line strings, parsed JSON and
    the objects built from them.  A string is a byte string.  An object lists
    its own properties in the order they were added (the engine moves
    integer-like keys to the front, which no key of this program is). *)
Inductive value :=
| JUndefined
| JNull
| JBool (b : bool)
| JNum (n : number)
| JStr (s : string)
| JArr (items : list value)
| JObj (props : list (string * value)).

(** ToBoolean: what [if (v)] and [!v] test. *)
Definition truthy (v : value) : bool :=
  match v with
  | JUndefined | JNull => false
  | JBool b => b
  | JNum n => negb (num_mantissa n =? 0)%Z
  | JStr s => negb (s =? "")
  | JArr _ | JObj _ => true
  end.

Definition nullish (v : value) : bool :=
  match v with
  | JUndefined | JNull => true
  | _ => false
  end.

(** A default parameter [p = d] takes [d] only when the argument is
    [undefined]. *)
Definition default_arg (v d : value) : value :=
  match v with
  | JUndefined => d
  | _ => v
  end.

(** Own properties of an object, in insertion order. *)
Fixpoint lookup (k : string) (props : list (string * value)) : option value :=
  match props with
  | [] => None
  | (k', v) :: rest => if k =? k' then Some v else lookup k rest
  end.

(** [o[k] = v]: an existing key keeps its place, a new key goes last. *)
Fixpoint assign (k : string) (v : value) (props : list (string * value))
  : list (string * value) :=
  match props with
  | [] => [(k, v)]
  | (k', v') :: rest =>
      if k =? k' then (k, v) :: rest else (k', v') :: assign k v rest
  end.

(** [o.k] on a value that is neither [null] nor [undefined].  None of the
    names this program reads (message, data, meta, requestId, ...) is
    inherited from a built-in prototype, so only own properties count; an
    array or a string has own properties under its indices and [length]
    alone, and a number or a boolean has none. *)
Definition get (o : value) (k : string) : value :=
  match o with
  | JObj props => match lookup k props with Some v => v | None => JUndefined end
  | _ => JUndefined
  end.

(** [o?.k] *)
Definition get_opt (o : value) (k : string) : value :=
  if nullish o then JUndefined else get o k.

(** [o.k = v] on an object. *)
Definition set (o : value) (k : string) (v : value) : value :=
  match o with
  | JObj props => JObj (assign k v props)
  | _ => o
  end.

Definition string_of_nat (n : nat) : string :=
  NilEmpty.string_of_uint (Nat.to_uint n).

Definition indices (n : nat) : list string := map string_of_nat (seq 0 n).

(** [Object.keys(v)]; [None] is the TypeError raised on [null] and
    [undefined]. *)
Definition Object_keys (v : value) : option (list string) :=
  match v with
  | JUndefined | JNull => None
  | JBool _ | JNum _ => Some []
  | JStr s => Some (indices (String.length s))
  | JArr items => Some (indices (List.length items))
  | JObj props => Some (map fst props)
  end.

End JS.
Import JS.

(** ** Conversion to a string: what a template literal applies to its holes *)

Module JSString.

Definition digits (z : Z) : string := string_of_nat (Z.to_nat z).

Definition zeros (n : nat) : string := String.concat "" (repeat "0" n).

(** Drop the trailing zeros of the mantissa, so that it has as few digits as
    possible. *)
Fixpoint normalize (fuel : nat) (m e : Z) : Z * Z :=
  match fuel with
  | O => (m, e)
  | S fuel' =>
      if (m mod 10 =? 0)%Z then normalize fuel' (m / 10)%Z (e + 1)%Z else (m, e)
  end.

(** Number::toString of ECMAScript for a positive decimal: [s] are the digits,
    [k] their count and [n] the position of the decimal point. *)
Definition positive_to_string (m e : Z) : string :=
  let '(m, e) := normalize (String.length (digits m)) m e in
  let s := digits m in
  let k := Z.of_nat (String.length s) in
  let n := (k + e)%Z in
  if ((k <=? n) && (n <=? 21))%Z then s ++ zeros (Z.to_nat (n - k))
  else if ((0 <? n) && (n <=? 21))%Z then
    substring 0 (Z.to_nat n) s ++ "." ++ substring (Z.to_nat n) (Z.to_nat (k - n)) s
  else if ((-6 <? n) && (n <=? 0))%Z then "0." ++ zeros (Z.to_nat (- n)) ++ s
  else
    let x := (n - 1)%Z in
    let exponent := (if (x <? 0)%Z then "-" else "+") ++ digits (Z.abs x) in
    if (k =? 1)%Z then s ++ "e" ++ exponent
    else substring 0 1 s ++ "." ++ substring 1 (Z.to_nat (k - 1)) s ++ "e" ++ exponent.

Definition Number_toString (x : number) : string :=
  let m := num_mantissa x in
  let e := num_exponent x in
  if (m =? 0)%Z then "0"
  else if (m <? 0)%Z then "-" ++ positive_to_string (- m) e
  else positive_to_string m e.

(** The elements of a list of options, if none of them is missing. *)
Fixpoint all_some {A} (l : list (option A)) : option (list A) :=
  match l with
  | [] => Some []
  | Some a :: rest =>
      match all_some rest with
      | Some rest' => Some (a :: rest')
      | None => None
      end
  | None :: _ => None
  end.

(** ToString, as a template literal and [String(v)] apply it: [None] is the
    TypeError [Cannot convert object to primitive value].  A string is
    itself.  An array is its elements joined by commas ([null] and
    [undefined] elements are empty), and has no string form when one of its
    elements has none.  A plain object is [[object Object]], which
    [Object.prototype.toString] returns, unless it has an own property
    [toString]: no value here is a function, so that property cannot be
    called, the inherited [valueOf] returns the object itself, and the
    conversion throws. *)
Fixpoint ToString (v : value) : option string :=
  match v with
  | JUndefined => Some "undefined"
  | JNull => Some "null"
  | JBool true => Some "true"
  | JBool false => Some "false"
  | JNum n => Some (Number_toString n)
  | JStr s => Some s
  | JArr items =>
      match all_some (map (fun x => if nullish x then Some "" else ToString x) items) with
      | Some texts => Some (String.concat "," texts)
      | None => None
      end
  | JObj props =>
      match lookup "toString" props with
      | Some _ => None
      | None => Some "[object Object]"
      end
  end.

End JSString.
Import JSString.

(** ** The world outside src/: errors, responses, the network, the
       configuration module *)

(** An HTTP response as axios hands it over: [response.status] and
    [response.data]. *)
Record Response := { resp_status : Z; resp_data : value }.

(** A thrown value.  Every value thrown in this program is an [Error]: it has
    a [message], and an error raised by axios for an answered request also has
    a [response]. *)
Record JsError := { err_message : string; err_response : option Response }.

(** [new Error(message)] *)
Definition Error (message : string) : JsError :=
  {| err_message := message; err_response := None |}.

(** The request object handed to [axios(config)]: [config.data] is present
    only when it was assigned. *)
Record AxiosConfig := {
  req_method : string;
  req_url : string;
  req_headers : value;
  req_data : option value
}.

(** What the promise returned by [axios(config)] settles to.  With the
    default settings, which src/api.js keeps, axios rejects when the status of
    the answer is outside 2xx ([error.response] is then the answer) and when
    no answer arrives ([error.response] is then undefined). *)
Inductive AxiosOutcome :=
| Resolved (response : Response)
| Rejected (error : JsError).

(** What the process writes.  Styling (chalk) is not represented; [LogJson v]
    is [console.log(JSON.stringify(v, null, 2))]. *)
Inductive Output :=
| Log (text : string)
| LogJson (v : value)
| ErrorLine (text : string)
| SpinnerStart (text : string)
| SpinnerStop.

(** The parts of the program that are not under src/ and the platform it runs
    on: the exports of config.js ([getConfig] and [isConfigured]), the axios
    client and [JSON.parse] ([None] is its SyntaxError). *)
Record Env := {
  getConfig : string -> value;
  isConfigured : bool;
  axios : AxiosConfig -> AxiosOutcome;
  JSON_parse : string -> option value
}.

(** The observable state of one run: the requests handed to axios so far and
    the lines written so far, oldest first. *)
Record World := { dispatched : list AxiosConfig; console : list Output }.

Definition initial : World := {| dispatched := []; console := [] |}.

(** ** Computations: state passing with exceptions and process exit *)

Inductive Result (A : Type) :=
| Return (a : A)
| Throw (e : JsError)
| Exit (code : Z).

Arguments Return {A} a.
Arguments Throw {A} e.
Arguments Exit {A} code.

Definition M (A : Type) : Type := World -> Result A * World.

Definition ret {A} (a : A) : M A := fun w => (Return a, w).

Definition throw {A} (e : JsError) : M A := fun w => (Throw e, w).

(** [process.exit(code)] *)
Definition exit {A} (code : Z) : M A := fun w => (Exit code, w).

Definition bind {A B} (m : M A) (k : A -> M B) : M B :=
  fun w =>
    match m w with
    | (Return a, w') => k a w'
    | (Throw e, w') => (Throw e, w')
    | (Exit c, w') => (Exit c, w')
    end.

(** [try { m } catch (error) { handler error }]: only a thrown value is
    caught, a process exit is not. *)
Definition try_catch {A} (m : M A) (handler : JsError -> M A) : M A :=
  fun w =>
    match m w with
    | (Throw e, w') => handler e w'
    | r => r
    end.

Definition emit (o : Output) : M unit :=
  fun w => (Return tt, {| dispatched := dispatched w; console := console w ++ [o] |}).

Declare Scope js_scope.
Delimit Scope js_scope with js.
Notation "x <- m ;; k" := (bind m (fun x => k))
  (at level 61, m at next level, right associativity) : js_scope.
Notation "m ;;; k" := (bind m (fun _ => k))
  (at level 61, right associativity) : js_scope.
Open Scope js_scope.

(** [Object.keys(v)] with its TypeError. *)
Definition keys_of (v : value) : M (list string) :=
  match Object_keys v with
  | Some ks => ret ks
  | None => throw (Error "Cannot convert undefined or null to object")
  end.

(** The TypeError of a conversion to a string that finds no primitive. *)
Definition not_primitive : JsError := Error "Cannot convert object to primitive value".

(** [String(v)] and a hole [${v}] of a template literal, with the TypeError. *)
Definition to_string (v : value) : M string :=
  match ToString v with
  | Some text => ret text
  | None => throw not_primitive
  end.

(** ** src/api.js *)

Definition BASE_URL : string := "https://api.journy.io".

Section Api.

Variable env : Env.

(** [await axios(config)]: the request is handed to the client, and the
    promise either resolves to a response or rejects with an error. *)
Definition axios_call (config : AxiosConfig) : M Response :=
  fun w =>
    let w' := {| dispatched := dispatched w ++ [config]; console := console w |} in
    match axios env config with
    | Resolved response => (Return response, w')
    | Rejected error => (Throw error, w')
    end.

Definition getHeaders : M value :=
  let apiKey := getConfig env "apiKey" in
  if negb (truthy apiKey) then
    throw (Error "API key not configured. Run: journy config set --api-key YOUR_KEY")
  else
    ret (JObj [("X-Api-Key", apiKey); ("Content-Type", JStr "application/json")]).

(** [error.response?.data?.message] *)
Definition response_message (error : JsError) : value :=
  match err_response error with
  | None => JUndefined
  | Some response => get_opt (resp_data response) "message"
  end.

(** [error.response?.status === code] *)
Definition response_status_is (error : JsError) (code : Z) : bool :=
  match err_response error with
  | None => false
  | Some response => (resp_status response =? code)%Z
  end.

Definition request (method endpoint : string) (data : value) : M value :=
  let data := default_arg data JNull in
  try_catch
    (headers <- getHeaders ;;
     let config :=
       {| req_method := method;
          req_url := BASE_URL ++ endpoint;
          req_headers := headers;
          req_data := if truthy data then Some data else None |} in
     response <- axios_call config ;;
     ret (resp_data response))
    (fun error =>
       if truthy (response_message error) then
         message <- to_string (response_message error) ;;
         throw (Error ("API Error: " ++ message))
       else if response_status_is error 401 then
         throw (Error "Unauthorized: Invalid API key")
       else if response_status_is error 429 then
         throw (Error "Rate limit exceeded (1800 requests/min)")
       else
         throw (Error ("Request failed: " ++ err_message error))).

(** *** Users *)

Definition upsertUser (userId email properties : value) : M value :=
  let properties := default_arg properties (JObj []) in
  let data := JObj [("identification", JObj [("userId", userId)])] in
  let data :=
    if truthy email
    then set data "identification" (set (get data "identification") "email" email)
    else data in
  ks <- keys_of properties ;;
  let data :=
    if (0 <? List.length ks)%nat then set data "properties" properties else data in
  request "POST" "/users/upsert" data.

Definition deleteUser (userId email : value) : M value :=
  let identification := JObj [] in
  let identification :=
    if truthy userId then set identification "userId" userId else identification in
  let identification :=
    if truthy email then set identification "email" email else identification in
  request "DELETE" "/users" (JObj [("identification", identification)]).

(** *** Accounts *)

Definition upsertAccount (accountId domain properties : value) : M value :=
  let properties := default_arg properties (JObj []) in
  let data := JObj [("identification", JObj [("accountId", accountId)])] in
  let data :=
    if truthy domain
    then set data "identification" (set (get data "identification") "domain" domain)
    else data in
  ks <- keys_of properties ;;
  let data :=
    if (0 <? List.length ks)%nat then set data "properties" properties else data in
  request "POST" "/accounts/upsert" data.

Definition deleteAccount (accountId domain : value) : M value :=
  let identification := JObj [] in
  let identification :=
    if truthy accountId then set identification "accountId" accountId else identification in
  let identification :=
    if truthy domain then set identification "domain" domain else identification in
  request "DELETE" "/accounts" (JObj [("identification", identification)]).

(** [userId => ({ identification: { userId } })] *)
Definition wrap_user (userId : value) : value :=
  JObj [("identification", JObj [("userId", userId)])].

Definition addUsersToAccount (accountId : value) (userIds : list value) : M value :=
  let data :=
    JObj [("identification", JObj [("accountId", accountId)]);
          ("users", JArr (map wrap_user userIds))] in
  request "POST" "/accounts/users/add" data.

Definition removeUsersFromAccount (accountId : value) (userIds : list value) : M value :=
  let data :=
    JObj [("identification", JObj [("accountId", accountId)]);
          ("users", JArr (map wrap_user userIds))] in
  request "POST" "/accounts/users/remove" data.

(** *** Events *)

Definition trackEvent (eventName userId accountId metadata : value) : M value :=
  let metadata := default_arg metadata (JObj []) in
  let data := JObj [("name", eventName)] in
  let data := if truthy userId then set data "userId" userId else data in
  let data := if truthy accountId then set data "accountId" accountId else data in
  ks <- keys_of metadata ;;
  let data :=
    if (0 <? List.length ks)%nat then set data "metadata" metadata else data in
  request "POST" "/track" data.

Definition getEvents : M value := request "GET" "/events" JUndefined.

(** *** Properties *)

Definition getUserProperties : M value := request "GET" "/properties/users" JUndefined.

Definition getAccountProperties : M value :=
  request "GET" "/properties/accounts" JUndefined.

(** *** Segments *)

Definition getUserSegments : M value := request "GET" "/segments/users" JUndefined.

Definition getAccountSegments : M value := request "GET" "/segments/accounts" JUndefined.

(** *** Link *)

Definition linkUserToAccount (userId accountId : value) : M value :=
  let data :=
    JObj [("user", JObj [("identification", JObj [("userId", userId)])]);
          ("account", JObj [("identification", JObj [("accountId", accountId)])])] in
  request "POST" "/link" data.

(** *** Validation and tracking snippet *)

Definition validateApiKey : M value := request "GET" "/validate" JUndefined.

Definition getTrackingSnippet : M value := request "GET" "/tracking/snippet" JUndefined.

(** *** Every exported operation, with its arguments *)

Inductive Operation :=
| UpsertUser (userId email properties : value)
| DeleteUser (userId email : value)
| UpsertAccount (accountId domain properties : value)
| DeleteAccount (accountId domain : value)
| AddUsersToAccount (accountId : value) (userIds : list value)
| RemoveUsersFromAccount (accountId : value) (userIds : list value)
| TrackEvent (eventName userId accountId metadata : value)
| GetEvents
| GetUserProperties
| GetAccountProperties
| GetUserSegments
| GetAccountSegments
| LinkUserToAccount (userId accountId : value)
| ValidateApiKey
| GetTrackingSnippet.

Definition invoke (op : Operation) : M value :=
  match op with
  | UpsertUser userId email properties => upsertUser userId email properties
  | DeleteUser userId email => deleteUser userId email
  | UpsertAccount accountId domain properties => upsertAccount accountId domain properties
  | DeleteAccount accountId domain => deleteAccount accountId domain
  | AddUsersToAccount accountId userIds => addUsersToAccount accountId userIds
  | RemoveUsersFromAccount accountId userIds => removeUsersFromAccount accountId userIds
  | TrackEvent eventName userId accountId metadata =>
      trackEvent eventName userId accountId metadata
  | GetEvents => getEvents
  | GetUserProperties => getUserProperties
  | GetAccountProperties => getAccountProperties
  | GetUserSegments => getUserSegments
  | GetAccountSegments => getAccountSegments
  | LinkUserToAccount userId accountId => linkUserToAccount userId accountId
  | ValidateApiKey => validateApiKey
  | GetTrackingSnippet => getTrackingSnippet
  end.

End Api.

(** ** src/index.js: helpers and command actions *)

(** The double quote and the line feed, for the messages that contain them. *)
Definition dq : string := String (ascii_of_nat 34) EmptyString.
Definition nl : string := String (ascii_of_nat 10) EmptyString.

Section Cli.

Variable env : Env.

Definition printSuccess (message : string) : M unit := emit (Log ("✓ " ++ message)).

Definition printError (message : string) : M unit := emit (ErrorLine ("✗ " ++ message)).

Definition printJson (data : value) : M unit := emit (LogJson data).

Definition withSpinner {A} (message : string) (fn : M A) : M A :=
  emit (SpinnerStart message) ;;;
  try_catch
    (result <- fn ;; emit SpinnerStop ;;; ret result)
    (fun error => emit SpinnerStop ;;; throw error).

Definition requireAuth : M unit :=
  if negb (isConfigured env) then
    printError "API key not configured." ;;;
    emit (Log (nl ++ "Run the following to configure:")) ;;;
    emit (Log "  journy config set --api-key YOUR_API_KEY") ;;;
    emit (Log (nl ++ "Get your API key at: https://system.journy.io")) ;;;
    exit 1
  else ret tt.

Definition parseProperties_message : string :=
  "Properties must be valid JSON. Example: '{" ++ dq ++ "name" ++ dq ++ ":" ++ dq
  ++ "John" ++ dq ++ "," ++ dq ++ "plan" ++ dq ++ ":" ++ dq ++ "Pro" ++ dq ++ "}'".

(** [JSON.parse] converts its argument to a string first.  Whatever is
    thrown inside the [try], the TypeError of that conversion or the
    SyntaxError of the parser, is replaced by the same Error. *)
Definition parseProperties (propertiesStr : value) : M value :=
  if negb (truthy propertiesStr) then ret (JObj [])
  else
    match ToString propertiesStr with
    | Some text =>
        match JSON_parse env text with
        | Some v => ret v
        | None => throw (Error parseProperties_message)
        end
    | None => throw (Error parseProperties_message)
    end.

(** How V8 names [null] and [undefined] in the TypeError of a property read. *)
Definition nullish_name (o : value) : string :=
  match o with
  | JNull => "null"
  | _ => "undefined"
  end.

(** [o.k] where [o] may be [null] or [undefined]: the TypeError of V8. *)
Definition member (o : value) (k : string) : M value :=
  if nullish o then
    throw (Error ("Cannot read properties of " ++ nullish_name o
                  ++ " (reading '" ++ k ++ "')"))
  else ret (get o k).

(** [console.log(chalk.dim(`Request ID: ${data.meta?.requestId}`))]: the
    template literal is evaluated, and may throw, before anything is
    written. *)
Definition printRequestId (data : value) : M unit :=
  meta <- member data "meta" ;;
  id <- to_string (get_opt meta "requestId") ;;
  emit (Log ("Request ID: " ++ id)).

(** [catch (error) { printError(error.message); process.exit(1); }] *)
Definition fail {A} (error : JsError) : M A :=
  printError (err_message error) ;;; exit 1.

(** *** user upsert <userId> and user delete <userId> *)

Definition user_upsert (userId : string) (options : value) : M unit :=
  requireAuth ;;;
  try_catch
    (properties <- parseProperties (get options "properties") ;;
     data <- withSpinner ("Upserting user " ++ userId ++ "...")
               (upsertUser env (JStr userId) (get options "email") properties) ;;
     if truthy (get options "json") then printJson data
     else
       printSuccess ("User " ++ userId ++ " upserted successfully") ;;;
       printRequestId data ;;;
       emit (Log ""))
    fail.

Definition user_delete (userId : string) (options : value) : M unit :=
  requireAuth ;;;
  try_catch
    (data <- withSpinner ("Deleting user " ++ userId ++ "...")
               (deleteUser env (JStr userId) (get options "email")) ;;
     if truthy (get options "json") then printJson data
     else
       printSuccess ("User " ++ userId ++ " deleted successfully") ;;;
       emit (Log ""))
    fail.

(** *** account upsert, delete, add-users and remove-users *)

Definition account_upsert (accountId : string) (options : value) : M unit :=
  requireAuth ;;;
  try_catch
    (properties <- parseProperties (get options "properties") ;;
     data <- withSpinner ("Upserting account " ++ accountId ++ "...")
               (upsertAccount env (JStr accountId) (get options "domain") properties) ;;
     if truthy (get options "json") then printJson data
     else
       printSuccess ("Account " ++ accountId ++ " upserted successfully") ;;;
       printRequestId data ;;;
       emit (Log ""))
    fail.

Definition account_delete (accountId : string) (options : value) : M unit :=
  requireAuth ;;;
  try_catch
    (data <- withSpinner ("Deleting account " ++ accountId ++ "...")
               (deleteAccount env (JStr accountId) (get options "domain")) ;;
     if truthy (get options "json") then printJson data
     else
       printSuccess ("Account " ++ accountId ++ " deleted successfully") ;;;
       emit (Log ""))
    fail.

Definition account_add_users (accountId : string) (userIds : list string) (options : value)
  : M unit :=
  requireAuth ;;;
  (if (100 <? List.length userIds)%nat then
     printError "Maximum 100 users can be added at once" ;;; exit 1
   else ret tt) ;;;
  try_catch
    (data <- withSpinner
               ("Adding " ++ string_of_nat (List.length userIds) ++ " user(s) to account "
                ++ accountId ++ "...")
               (addUsersToAccount env (JStr accountId) (map JStr userIds)) ;;
     if truthy (get options "json") then printJson data
     else
       printSuccess ("Added " ++ string_of_nat (List.length userIds)
                     ++ " user(s) to account " ++ accountId) ;;;
       emit (Log ""))
    fail.

Definition account_remove_users (accountId : string) (userIds : list string)
  (options : value) : M unit :=
  requireAuth ;;;
  (if (100 <? List.length userIds)%nat then
     printError "Maximum 100 users can be removed at once" ;;; exit 1
   else ret tt) ;;;
  try_catch
    (data <- withSpinner
               ("Removing " ++ string_of_nat (List.length userIds)
                ++ " user(s) from account " ++ accountId ++ "...")
               (removeUsersFromAccount env (JStr accountId) (map JStr userIds)) ;;
     if truthy (get options "json") then printJson data
     else
       printSuccess ("Removed " ++ string_of_nat (List.length userIds)
                     ++ " user(s) from account " ++ accountId) ;;;
       emit (Log ""))
    fail.

(** *** event track <eventName> *)

Definition event_track (eventName : string) (options : value) : M unit :=
  requireAuth ;;;
  (if negb (truthy (get options "userId")) && negb (truthy (get options "accountId")) then
     printError "Either --user-id or --account-id (or both) must be provided" ;;; exit 1
   else ret tt) ;;;
  try_catch
    (metadata <- parseProperties (get options "metadata") ;;
     data <- withSpinner ("Tracking event " ++ dq ++ eventName ++ dq ++ "...")
               (trackEvent env (JStr eventName) (get options "userId")
                  (get options "accountId") metadata) ;;
     if truthy (get options "json") then printJson data
     else
       printSuccess ("Event " ++ dq ++ eventName ++ dq ++ " tracked successfully") ;;;
       printRequestId data ;;;
       emit (Log ""))
    fail.

(** *** link <userId> <accountId> and validate *)

Definition link (userId accountId : string) (options : value) : M unit :=
  requireAuth ;;;
  try_catch
    (data <- withSpinner ("Linking user " ++ userId ++ " to account " ++ accountId ++ "...")
               (linkUserToAccount env (JStr userId) (JStr accountId)) ;;
     if truthy (get options "json") then printJson data
     else
       printSuccess ("User " ++ userId ++ " linked to account " ++ accountId) ;;;
       emit (Log ""))
    fail.

Definition validate (options : value) : M unit :=
  requireAuth ;;;
  try_catch
    (data <- withSpinner "Validating API key..." (validateApiKey env) ;;
     if truthy (get options "json") then printJson data
     else
       printSuccess "API key is valid" ;;;
       printRequestId data ;;;
       emit (Log ""))
    fail.

(** *** The actions above, with their arguments *)

Inductive Command :=
| UserUpsert (userId : string) (options : value)
| UserDelete (userId : string) (options : value)
| AccountUpsert (accountId : string) (options : value)
| AccountDelete (accountId : string) (options : value)
| AccountAddUsers (accountId : string) (userIds : list string) (options : value)
| AccountRemoveUsers (accountId : string) (userIds : list string) (options : value)
| EventTrack (eventName : string) (options : value)
| Link (userId accountId : string) (options : value)
| Validate (options : value).

Definition run_command (command : Command) : M unit :=
  match command with
  | UserUpsert userId options => user_upsert userId options
  | UserDelete userId options => user_delete userId options
  | AccountUpsert accountId options => account_upsert accountId options
  | AccountDelete accountId options => account_delete accountId options
  | AccountAddUsers accountId userIds options => account_add_users accountId userIds options
  | AccountRemoveUsers accountId userIds options =>
      account_remove_users accountId userIds options
  | EventTrack eventName options => event_track eventName options
  | Link userId accountId options => link userId accountId options
  | Validate options => validate options
  end.

End Cli.

(** ** A reference [JSON.parse]

    The theorems below hold for every [JSON_parse] an environment may carry.
    This parser of the JSON grammar (ECMA-404) is the one the concrete
    environments use.  Strings are byte strings: input bytes above 127 pass
    through, and a [\u] escape is written out in UTF-8.  An object lists its
    keys as the engine does, array indices first in ascending order and then
    the other keys in the order of the text, a repeated key keeping its first
    place and its last value.  A number is kept as the decimal it is written
    as, which is the number of the engine when the decimal has at most 15
    significant digits and lies in the range of the normal numbers of
    binary64; the engine rounds the others, and this parser does not. *)

Module JSON.

Open Scope char_scope.

Definition is_ws (c : ascii) : bool :=
  match c with
  | " " => true
  | "009" | "010" | "013" => true
  | _ => false
  end.

Fixpoint skip_ws (s : list ascii) : list ascii :=
  match s with
  | c :: rest => if is_ws c then skip_ws rest else s
  | [] => []
  end.

Definition digit_value (c : ascii) : option Z :=
  let n := nat_of_ascii c in
  if ((48 <=? n) && (n <=? 57))%nat then Some (Z.of_nat (n - 48)) else None.

Definition hex_value (c : ascii) : option Z :=
  let n := nat_of_ascii c in
  if ((48 <=? n) && (n <=? 57))%nat then Some (Z.of_nat (n - 48))
  else if ((65 <=? n) && (n <=? 70))%nat then Some (Z.of_nat (n - 55))
  else if ((97 <=? n) && (n <=? 102))%nat then Some (Z.of_nat (n - 87))
  else None.

Definition hex4 (a b c d : ascii) : option Z :=
  match hex_value a, hex_value b, hex_value c, hex_value d with
  | Some x, Some y, Some z, Some t => Some (((x * 16 + y) * 16 + z) * 16 + t)%Z
  | _, _, _, _ => None
  end.

Definition byte (z : Z) : ascii := ascii_of_nat (Z.to_nat z).

(** The UTF-8 bytes of a code point. *)
Definition utf8 (cp : Z) : list ascii :=
  if (cp <? 128)%Z then [byte cp]
  else if (cp <? 2048)%Z then [byte (192 + cp / 64); byte (128 + cp mod 64)]
  else if (cp <? 65536)%Z then
    [byte (224 + cp / 4096); byte (128 + (cp / 64) mod 64); byte (128 + cp mod 64)]
  else
    [byte (240 + cp / 262144); byte (128 + (cp / 4096) mod 64);
     byte (128 + (cp / 64) mod 64); byte (128 + cp mod 64)].

Definition is_high_surrogate (u : Z) : bool := ((55296 <=? u) && (u <=? 56319))%Z.
Definition is_low_surrogate (u : Z) : bool := ((56320 <=? u) && (u <=? 57343))%Z.

Definition simple_escape (c : ascii) : option ascii :=
  match c with
  | "034" => Some "034"
  | "\" => Some "\"
  | "/" => Some "/"
  | "b" => Some "008"
  | "f" => Some "012"
  | "n" => Some "010"
  | "r" => Some "013"
  | "t" => Some "009"
  | _ => None
  end.

(** The characters of a string after its opening quote, up to and including
    the closing quote; [acc] holds the decoded bytes in reverse. *)
Fixpoint parse_chars (s : list ascii) (acc : list ascii) : option (string * list ascii) :=
  match s with
  | [] => None
  | "034" :: rest => Some (string_of_list_ascii (rev acc), rest)
  | "\" :: "u" :: a :: b :: c :: d :: rest =>
      match hex4 a b c d with
      | None => None
      | Some hi =>
          match rest with
          | "\" :: "u" :: a' :: b' :: c' :: d' :: rest' =>
              match hex4 a' b' c' d' with
              | Some lo =>
                  if is_high_surrogate hi && is_low_surrogate lo then
                    parse_chars rest'
                      (rev (utf8 (65536 + (hi - 55296) * 1024 + (lo - 56320))) ++ acc)
                  else parse_chars rest (rev (utf8 hi) ++ acc)
              | None => parse_chars rest (rev (utf8 hi) ++ acc)
              end
          | _ => parse_chars rest (rev (utf8 hi) ++ acc)
          end
      end
  | "\" :: e :: rest =>
      match simple_escape e with
      | Some c => parse_chars rest (c :: acc)
      | None => None
      end
  | "\" :: [] => None
  | c :: rest => if (nat_of_ascii c <? 32)%nat then None else parse_chars rest (c :: acc)
  end.

(** A run of digits: their value, their count and the rest. *)
Fixpoint parse_digits (s : list ascii) (acc : Z) (count : Z) : Z * Z * list ascii :=
  match s with
  | c :: rest =>
      match digit_value c with
      | Some d => parse_digits rest (acc * 10 + d)%Z (count + 1)%Z
      | None => (acc, count, s)
      end
  | [] => (acc, count, s)
  end.

(** int: a single 0, or a non-empty run of digits that does not start with 0. *)
Definition parse_int (s : list ascii) : option (Z * list ascii) :=
  match s with
  | "0" :: rest => Some (0%Z, rest)
  | _ =>
      let '(v, count, rest) := parse_digits s 0 0 in
      if (count =? 0)%Z then None else Some (v, rest)
  end.

(** frac: nothing, or a point and a non-empty run of digits.  The digits are
    appended to the mantissa [m]. *)
Definition parse_frac (m : Z) (s : list ascii) : option (Z * Z * list ascii) :=
  match s with
  | "." :: rest =>
      let '(v, count, rest') := parse_digits rest m 0 in
      if (count =? 0)%Z then None else Some (v, count, rest')
  | _ => Some (m, 0%Z, s)
  end.

(** exp: nothing, or e or E, an optional sign and a non-empty run of digits. *)
Definition parse_exp (s : list ascii) : option (Z * list ascii) :=
  let signed (sign : Z) (rest : list ascii) :=
    let '(v, count, rest') := parse_digits rest 0 0 in
    if (count =? 0)%Z then None else Some ((sign * v)%Z, rest') in
  let after_e (rest : list ascii) :=
    match rest with
    | "+" :: rest' => signed 1%Z rest'
    | "-" :: rest' => signed (-1)%Z rest'
    | _ => signed 1%Z rest
    end in
  match s with
  | "e" :: rest => after_e rest
  | "E" :: rest => after_e rest
  | _ => Some (0%Z, s)
  end.

Definition parse_number (s : list ascii) : option (value * list ascii) :=
  let '(sign, s1) :=
    match s with
    | "-" :: rest => ((-1)%Z, rest)
    | _ => (1%Z, s)
    end in
  match parse_int s1 with
  | None => None
  | Some (i, s2) =>
      match parse_frac i s2 with
      | None => None
      | Some (m, fdigits, s3) =>
          match parse_exp s3 with
          | None => None
          | Some (e, s4) =>
              Some (JNum {| num_mantissa := sign * m; num_exponent := e - fdigits |}, s4)
          end
      end
  end.

(** The number a key stands for when the key is an array index: a decimal
    numeral without a leading zero, below 2^32 - 1. *)
Definition array_index (k : string) : option Z :=
  match list_ascii_of_string k with
  | [] => None
  | "0" :: [] => Some 0%Z
  | "0" :: _ => None
  | s =>
      match parse_digits s 0 0 with
      | (v, _, []) => if (v <? 4294967295)%Z then Some v else None
      | _ => None
      end
  end.

Fixpoint insert_index (i : Z) (p : string * value) (l : list (Z * (string * value)))
  : list (Z * (string * value)) :=
  match l with
  | [] => [(i, p)]
  | (j, q) :: rest =>
      if (i <? j)%Z then (i, p) :: l else (j, q) :: insert_index i p rest
  end.

(** The own properties in the order the engine lists them. *)
Definition own_property_order (props : list (string * value)) : list (string * value) :=
  let indexed :=
    fold_left
      (fun acc p =>
         match array_index (fst p) with
         | Some i => insert_index i p acc
         | None => acc
         end)
      props [] in
  let named :=
    filter (fun p => match array_index (fst p) with Some _ => false | None => true end)
      props in
  (map snd indexed ++ named)%list.

(** [fuel] bounds the nesting and the number of elements; [parse] gives
    enough of it for the whole input. *)
Fixpoint parse_value (fuel : nat) (s : list ascii) {struct fuel}
  : option (value * list ascii) :=
  match fuel with
  | O => None
  | S fuel' =>
      match skip_ws s with
      | "{" :: rest =>
          match skip_ws rest with
          | "}" :: rest' => Some (JObj [], rest')
          | _ => parse_members fuel' [] rest
          end
      | "[" :: rest =>
          match skip_ws rest with
          | "]" :: rest' => Some (JArr [], rest')
          | _ => parse_elements fuel' [] rest
          end
      | "034" :: rest =>
          match parse_chars rest [] with
          | Some (str, rest') => Some (JStr str, rest')
          | None => None
          end
      | "t" :: "r" :: "u" :: "e" :: rest => Some (JBool true, rest)
      | "f" :: "a" :: "l" :: "s" :: "e" :: rest => Some (JBool false, rest)
      | "n" :: "u" :: "l" :: "l" :: rest => Some (JNull, rest)
      | s' => parse_number s'
      end
  end
with parse_elements (fuel : nat) (acc : list value) (s : list ascii) {struct fuel}
  : option (value * list ascii) :=
  match fuel with
  | O => None
  | S fuel' =>
      match parse_value fuel' s with
      | None => None
      | Some (v, rest) =>
          match skip_ws rest with
          | "," :: rest' => parse_elements fuel' (acc ++ [v]) rest'
          | "]" :: rest' => Some (JArr (acc ++ [v]), rest')
          | _ => None
          end
      end
  end
with parse_members (fuel : nat) (acc : list (string * value)) (s : list ascii) {struct fuel}
  : option (value * list ascii) :=
  match fuel with
  | O => None
  | S fuel' =>
      match skip_ws s with
      | "034" :: rest =>
          match parse_chars rest [] with
          | None => None
          | Some (k, rest1) =>
              match skip_ws rest1 with
              | ":" :: rest2 =>
                  match parse_value fuel' rest2 with
                  | None => None
                  | Some (v, rest3) =>
                      match skip_ws rest3 with
                      | "," :: rest4 => parse_members fuel' (assign k v acc) rest4
                      | "}" :: rest4 =>
                          Some (JObj (own_property_order (assign k v acc)), rest4)
                      | _ => None
                      end
                  end
              | _ => None
              end
          end
      | _ => None
      end
  end.

Definition parse (text : string) : option value :=
  let s := list_ascii_of_string text in
  match parse_value (2 * List.length s + 2) s with
  | Some (v, rest) =>
      match skip_ws rest with
      | [] => Some v
      | _ => None
      end
  | None => None
  end.

End JSON.

(** ** Vocabulary of the specification *)

(** The result of a computation and the requests handed to axios by the end
    of it. *)
Definition result_of {A} (m : M A) (w : World) : Result A := fst (m w).
Definition sent {A} (m : M A) (w : World) : list AxiosConfig := dispatched (snd (m w)).

(** The Credential is present when [getConfig('apiKey')] is truthy. *)
Definition has_credential (env : Env) : bool := truthy (getConfig env "apiKey").

(** The error classes of the specification, and the [Error] that
    src/api.js throws for each. *)
Inductive ErrorKind :=
| UnauthorizedError
| RateLimitedError
| ApiError (message : string)
| RequestFailedError (cause : string).

Definition render (k : ErrorKind) : JsError :=
  Error
    match k with
    | UnauthorizedError => "Unauthorized: Invalid API key"
    | RateLimitedError => "Rate limit exceeded (1800 requests/min)"
    | ApiError message => "API Error: " ++ message
    | RequestFailedError cause => "Request failed: " ++ cause
    end.

(** The two local failures of src/api.js: the one of [getHeaders] as
    [request] rethrows it, and the TypeError of [Object.keys(null)]. *)
Definition missing_credential : JsError :=
  render (RequestFailedError
            "API key not configured. Run: journy config set --api-key YOUR_KEY").

Definition keys_of_null : JsError := Error "Cannot convert undefined or null to object".

(** The request that [request(method, endpoint, data)] hands to axios. *)
Definition request_config (env : Env) (method endpoint : string) (data : value)
  : AxiosConfig :=
  {| req_method := method;
     req_url := BASE_URL ++ endpoint;
     req_headers :=
       JObj [("X-Api-Key", getConfig env "apiKey");
             ("Content-Type", JStr "application/json")];
     req_data := if truthy data then Some data else None |}.

(** The class of a truthy [message] of the body: the ApiError that wraps its
    string form, and none when it has no string form. *)
Definition api_error (message : value) : option ErrorKind :=
  match ToString message with
  | Some text => Some (ApiError text)
  | None => None
  end.

(** The class of a rejected request, in the order src/api.js tests it: a
    truthy [message] in the body first, then the status.  A message that has
    no string form leaves the rejection without a class. *)
Definition classify (error : JsError) : option ErrorKind :=
  let message := response_message error in
  if truthy message then api_error message
  else if response_status_is error 401 then Some UnauthorizedError
  else if response_status_is error 429 then Some RateLimitedError
  else Some (RequestFailedError (err_message error)).

(** The same in the order the specification states: 401 and 429 first, then
    a message in the body. *)
Definition classify_as_specified (error : JsError) : option ErrorKind :=
  if response_status_is error 401 then Some UnauthorizedError
  else if response_status_is error 429 then Some RateLimitedError
  else if truthy (response_message error) then api_error (response_message error)
  else Some (RequestFailedError (err_message error)).

(** What [request] throws when axios rejects: the Error of the class, or the
    TypeError of the conversion when the rejection has none. *)
Definition rejection (error : JsError) : JsError :=
  match classify error with
  | Some kind => render kind
  | None => not_primitive
  end.

(** What an operation returns once axios has settled. *)
Definition settle (outcome : AxiosOutcome) : Result value :=
  match outcome with
  | Resolved response => Return (resp_data response)
  | Rejected error => Throw (rejection error)
  end.

Definition record_request (config : AxiosConfig) (w : World) : World :=
  {| dispatched := dispatched w ++ [config]; console := console w |}.

(** The static table of operations and endpoints (README, API Reference). *)
Inductive OperationClass := Read | Submit | Delete.

Definition class_of (op : Operation) : OperationClass :=
  match op with
  | GetEvents | GetUserProperties | GetAccountProperties | GetUserSegments
  | GetAccountSegments | GetTrackingSnippet | ValidateApiKey => Read
  | UpsertUser _ _ _ | UpsertAccount _ _ _ | TrackEvent _ _ _ _
  | LinkUserToAccount _ _ | AddUsersToAccount _ _ | RemoveUsersFromAccount _ _ => Submit
  | DeleteUser _ _ | DeleteAccount _ _ => Delete
  end.

Definition verb (c : OperationClass) : string :=
  match c with
  | Read => "GET"
  | Submit => "POST"
  | Delete => "DELETE"
  end.

Definition path_of (op : Operation) : string :=
  match op with
  | UpsertUser _ _ _ => "/users/upsert"
  | DeleteUser _ _ => "/users"
  | UpsertAccount _ _ _ => "/accounts/upsert"
  | DeleteAccount _ _ => "/accounts"
  | AddUsersToAccount _ _ => "/accounts/users/add"
  | RemoveUsersFromAccount _ _ => "/accounts/users/remove"
  | TrackEvent _ _ _ _ => "/track"
  | GetEvents => "/events"
  | GetUserProperties => "/properties/users"
  | GetAccountProperties => "/properties/accounts"
  | GetUserSegments => "/segments/users"
  | GetAccountSegments => "/segments/accounts"
  | LinkUserToAccount _ _ => "/link"
  | ValidateApiKey => "/validate"
  | GetTrackingSnippet => "/tracking/snippet"
  end.

(** The operations that take a property bag, with the bag they were given. *)
Definition bag_of (op : Operation) : option value :=
  match op with
  | UpsertUser _ _ properties => Some properties
  | UpsertAccount _ _ properties => Some properties
  | TrackEvent _ _ _ metadata => Some metadata
  | _ => None
  end.

(** [null] as a property bag: the default [{}] does not replace it, and
    [Object.keys] raises on it. *)
Definition null_bag (op : Operation) : bool :=
  match bag_of op with
  | Some JNull => true
  | _ => false
  end.

(** The optional arguments of the mutating operations, each with the key it
    is written under. *)
Definition optional_arguments (op : Operation) : list (value * string) :=
  match op with
  | UpsertUser _ email properties => [(email, "email"); (properties, "properties")]
  | DeleteUser userId email => [(userId, "userId"); (email, "email")]
  | UpsertAccount _ domain properties => [(domain, "domain"); (properties, "properties")]
  | DeleteAccount accountId domain => [(accountId, "accountId"); (domain, "domain")]
  | TrackEvent _ userId accountId metadata =>
      [(userId, "userId"); (accountId, "accountId"); (metadata, "metadata")]
  | _ => []
  end.

Definition keys (v : value) : list string :=
  match v with
  | JObj props => map fst props
  | _ => []
  end.

(** The keys of a request body: its own and those of its [identification]. *)
Definition body_keys (body : value) : list string :=
  keys body ++ keys (get body "identification").

Definition body_of (config : AxiosConfig) : value :=
  match req_data config with
  | Some body => body
  | None => JUndefined
  end.

(** The body of adding and removing users. *)
Definition users_body (accountId : value) (userIds : list value) : value :=
  JObj [("identification", JObj [("accountId", accountId)]);
        ("users", JArr (map wrap_user userIds))].

(** What [requireAuth] writes before it ends the process. *)
Definition not_configured_lines : list Output :=
  [ErrorLine "✗ API key not configured.";
   Log (nl ++ "Run the following to configure:");
   Log "  journy config set --api-key YOUR_API_KEY";
   Log (nl ++ "Get your API key at: https://system.journy.io")].

(** The world after more lines were written and nothing was sent. *)
Definition after_lines (w : World) (lines : list Output) : World :=
  {| dispatched := dispatched w; console := console w ++ lines |}.

(** A computation is [quiet] when it hands nothing to axios and ends the
    process with no status but 1. *)
Definition quiet {A} (m : M A) : Prop :=
  forall w,
    dispatched (snd (m w)) = dispatched w
    /\ match fst (m w) with
       | Exit code => code = 1%Z
       | _ => True
       end.

Definition never_returns {A} (m : M A) : Prop :=
  forall w, match fst (m w) with Return _ => False | _ => True end.

Definition never_throws {A} (m : M A) : Prop :=
  forall w, match fst (m w) with Throw _ => False | _ => True end.

(** ** Concrete environments *)

(** Modelled from the spec: config.js is not under src/.  The
    Configuration Store is a plain key-value record that holds the Credential
    under [apiKey] (or nothing, for [undefined]), and [isConfigured] says
    whether the Credential is there.  The network behaves as [net], and
    [JSON.parse] is the reference parser. *)
Definition sample_env (apiKey : value) (net : AxiosConfig -> AxiosOutcome) : Env :=
  {| getConfig := fun k => if k =? "apiKey" then apiKey else JUndefined;
     isConfigured := truthy apiKey;
     axios := net;
     JSON_parse := JSON.parse |}.

(** A network that answers every request with 200 and a request identifier. *)
Definition accepting (_ : AxiosConfig) : AxiosOutcome :=
  Resolved
    {| resp_status := 200;
       resp_data := JObj [("meta", JObj [("requestId", JStr "r-1")])] |}.

(** A network that answers every request with the given status and body;
    axios rejects the promise for a status outside 2xx. *)
Definition refusing (status : Z) (body : value) (_ : AxiosConfig) : AxiosOutcome :=
  Rejected
    {| err_message :=
         "Request failed with status code " ++ digits status;
       err_response := Some {| resp_status := status; resp_data := body |} |}.

Definition users (n : nat) : list string :=
  map (fun i => "user-" ++ string_of_nat i) (seq 1 n).

(** A value that has no string form: the object that the JSON text
    [{"toString":1}] parses to. *)
Definition no_text : value :=
  JObj [("toString", JNum {| num_mantissa := 1; num_exponent := 0 |})].

(** ** The body of each operation in closed form *)

(** [if (arg) o[key] = arg] *)
Definition with_optional (key : string) (arg : value) (o : value) : value :=
  if truthy arg then set o key arg else o.

(** Whether [Object.keys(v)] has an element. *)
Definition has_own_keys (v : value) : bool :=
  match Object_keys v with
  | Some (_ :: _) => true
  | _ => false
  end.

(** [if (Object.keys(bag).length > 0) o[key] = bag], after the default [{}]. *)
Definition with_bag (key : string) (bag : value) (o : value) : value :=
  if has_own_keys (default_arg bag (JObj []))
  then set o key (default_arg bag (JObj []))
  else o.

(** The [data] an operation passes to [request]; [undefined] for the reads. *)
Definition body (op : Operation) : value :=
  match op with
  | UpsertUser userId email properties =>
      with_bag "properties" properties
        (JObj [("identification", with_optional "email" email (JObj [("userId", userId)]))])
  | DeleteUser userId email =>
      JObj [("identification",
             with_optional "email" email (with_optional "userId" userId (JObj [])))]
  | UpsertAccount accountId domain properties =>
      with_bag "properties" properties
        (JObj [("identification",
                with_optional "domain" domain (JObj [("accountId", accountId)]))])
  | DeleteAccount accountId domain =>
      JObj [("identification",
             with_optional "domain" domain (with_optional "accountId" accountId (JObj [])))]
  | AddUsersToAccount accountId userIds => users_body accountId userIds
  | RemoveUsersFromAccount accountId userIds => users_body accountId userIds
  | TrackEvent eventName userId accountId metadata =>
      with_bag "metadata" metadata
        (with_optional "accountId" accountId
           (with_optional "userId" userId (JObj [("name", eventName)])))
  | LinkUserToAccount userId accountId =>
      JObj [("user", JObj [("identification", JObj [("userId", userId)])]);
            ("account", JObj [("identification", JObj [("accountId", accountId)])])]
  | _ => JUndefined
  end.

(** The own property [key] of [v], if [v] is an object that has it. *)
Definition own (key : string) (v : value) : option value :=
  match v with
  | JObj props => lookup key props
  | _ => None
  end.

(** Where an operation writes its identifying arguments: at the top of the
    body for [trackEvent], under [identification] for the others. *)
Definition identity_place (op : Operation) (b : value) : value :=
  match op with
  | TrackEvent _ _ _ _ => b
  | _ => get b "identification"
  end.

(** The optional identifying arguments of the mutating operations. *)
Definition identity_arguments (op : Operation) : list (value * string) :=
  match op with
  | UpsertUser _ email _ => [(email, "email")]
  | DeleteUser userId email => [(userId, "userId"); (email, "email")]
  | UpsertAccount _ domain _ => [(domain, "domain")]
  | DeleteAccount accountId domain => [(accountId, "accountId"); (domain, "domain")]
  | TrackEvent _ userId accountId _ => [(userId, "userId"); (accountId, "accountId")]
  | _ => []
  end.

(** The key a property bag is written under. *)
Definition bag_key (op : Operation) : string :=
  match op with
  | TrackEvent _ _ _ _ => "metadata"
  | _ => "properties"
  end.

(** ** Strings as the engine measures them

    A string of the engine is a sequence of UTF-16 code units; here it is the
    byte string of its (generalized) UTF-8 encoding.  A character of one to
    three bytes is one code unit, a character of four bytes is a surrogate
    pair, two code units. *)

Module JSText.

(** The code units a byte stands for: those of its character if the byte
    starts one, none if it continues one. *)
Definition unit_weight (c : ascii) : nat :=
  let n := nat_of_ascii c in
  if (n <? 128)%nat then 1%nat
  else if (n <? 192)%nat then 0%nat
  else if (n <? 240)%nat then 1%nat
  else 2%nat.

(** [s.length] *)
Fixpoint js_length (s : string) : nat :=
  match s with
  | EmptyString => 0%nat
  | String c rest => (unit_weight c + js_length rest)%nat
  end.

Definition byte_at (s : string) (i : nat) : Z :=
  match String.get i s with
  | Some c => Z.of_nat (nat_of_ascii c)
  | None => 128%Z
  end.

(** The first code unit of a four-byte character, as a string of its own:
    the high surrogate of the pair. *)
Definition high_surrogate (lead : ascii) (rest : string) : string :=
  let cp :=
    ((Z.of_nat (nat_of_ascii lead) mod 8) * 262144 + (byte_at rest 0 mod 64) * 4096
     + (byte_at rest 1 mod 64) * 64 + byte_at rest 2 mod 64)%Z in
  string_of_list_ascii (JSON.utf8 (55296 + (cp - 65536) / 1024)).

(** [s.substring(0, n)]: the first [n] code units.  A continuation byte
    stays with the byte that starts its character; a surrogate pair that
    straddles the cut leaves its high surrogate. *)
Fixpoint js_take (n : nat) (s : string) : string :=
  match s with
  | EmptyString => EmptyString
  | String c rest =>
      match unit_weight c with
      | O => String c (js_take n rest)
      | S O =>
          match n with
          | O => EmptyString
          | S n' => String c (js_take n' rest)
          end
      | _ =>
          match n with
          | O => EmptyString
          | S O => high_surrogate c rest
          | S (S n') => String c (js_take n' rest)
          end
      end
  end.

Definition spaces (n : nat) : string := String.concat "" (repeat " " n).

(** [s.padEnd(n)] *)
Definition padEnd (s : string) (n : nat) : string :=
  s ++ spaces (n - js_length s).

(** [s.repeat(n)] *)
Definition js_repeat (s : string) (n : nat) : string := String.concat "" (repeat s n).

End JSText.
Import JSText.

(** ** src/index.js: the table and the listing commands *)

(** [array.forEach], [array.map] and a loop that carries a value, with a
    callback that may throw. *)
Fixpoint for_each {A} (f : A -> M unit) (l : list A) : M unit :=
  match l with
  | [] => ret tt
  | x :: rest => f x ;;; for_each f rest
  end.

Fixpoint map_m {A B} (f : A -> M B) (l : list A) : M (list B) :=
  match l with
  | [] => ret []
  | x :: rest => y <- f x ;; ys <- map_m f rest ;; ret (y :: ys)
  end.

Fixpoint fold_m {A S} (f : S -> A -> M S) (l : list A) (s : S) : M S :=
  match l with
  | [] => ret s
  | x :: rest => s' <- f s x ;; fold_m f rest s'
  end.

(** [v.length] of a truthy value. *)
Definition length_of (v : value) : value :=
  match v with
  | JArr items =>
      JNum {| num_mantissa := Z.of_nat (List.length items); num_exponent := 0 |}
  | JStr s => JNum {| num_mantissa := Z.of_nat (js_length s); num_exponent := 0 |}
  | JObj props => get v "length"
  | _ => JUndefined
  end.

(** [v === 0] *)
Definition is_zero (v : value) : bool :=
  match v with
  | JNum n => (num_mantissa n =? 0)%Z
  | _ => false
  end.

(** [data.data.map(callback)]: only an array has [map]. *)
Definition data_map (v : value) (callback : value -> M value) : M (list value) :=
  match v with
  | JArr items => map_m callback items
  | _ => throw (Error "data.data.map is not a function")
  end.

(** A column of a table: [{ key, label }], with [format] when it is given
    (no column of this program has one). *)
Record Column := {
  col_key : string;
  col_label : string;
  col_format : option (value -> value -> value)
}.

(** The [widths] object of [printTable]: a width under the key of each
    column. *)
Fixpoint widths_set (key : string) (n : nat) (widths : list (string * nat))
  : list (string * nat) :=
  match widths with
  | [] => [(key, n)]
  | (k, m) :: rest =>
      if key =? k then (key, n) :: rest else (k, m) :: widths_set key n rest
  end.

(** [widths[key]]; a missing width pads like 0. *)
Fixpoint widths_get (key : string) (widths : list (string * nat)) : nat :=
  match widths with
  | [] => 0%nat
  | (k, m) :: rest => if key =? k then m else widths_get key rest
  end.

Section Listing.

Variable env : Env.

(** [String(col.format ? col.format(row[col.key], row) : (row[col.key] ?? ''))].
    A row is one of the plain objects the listing commands build, and
    [row[col.key]] is its own property: this is the engine's answer for every
    key but the names of [Object_prototype], which a plain object inherits as
    built-in functions when it has no property of its own under them. *)
Definition cell (col : Column) (row : value) : M string :=
  v <- member row (col_key col) ;;
  to_string
    match col_format col with
    | Some format => format v row
    | None => if nullish v then JStr "" else v
    end.

(** The body of [columns.forEach] in [printTable]. *)
Definition measure (data : list value) (widths : list (string * nat)) (col : Column)
  : M (list (string * nat)) :=
  let widths := widths_set (col_key col) (js_length (col_label col)) widths in
  widths <- fold_m
              (fun widths row =>
                 val <- cell col row ;;
                 ret (if (widths_get (col_key col) widths <? js_length val)%nat
                      then widths_set (col_key col) (js_length val) widths
                      else widths))
              data widths ;;
  ret (widths_set (col_key col) (Nat.min (widths_get (col_key col) widths) 50) widths).

(** [data] is an array, as every caller passes one. *)
Definition printTable (data : list value) (columns : list Column) : M unit :=
  if (List.length data =? 0)%nat then emit (Log "No results found.")
  else
    widths <- fold_m (measure data) columns [] ;;
    let header :=
      String.concat "  "
        (map (fun col => padEnd (col_label col) (widths_get (col_key col) widths))
           columns) in
    emit (Log header) ;;;
    emit (Log (js_repeat "─" (js_length header))) ;;;
    for_each
      (fun row =>
         line <- map_m
                   (fun col =>
                      val <- cell col row ;;
                      ret (padEnd (js_take (widths_get (col_key col) widths) val)
                             (widths_get (col_key col) widths)))
                   columns ;;
         emit (Log (String.concat "  " line)))
      data ;;;
    emit (Log (nl ++ string_of_nat (List.length data) ++ " result(s)")).

(** [x || 'N/A'] *)
Definition or_NA (x : value) : value := if truthy x then x else JStr "N/A".

Definition column (key label : string) : Column :=
  {| col_key := key; col_label := label; col_format := None |}.

(** *** event list *)

Definition event_list (options : value) : M unit :=
  requireAuth env ;;;
  try_catch
    (data <- withSpinner "Fetching events..." (getEvents env) ;;
     if truthy (get options "json") then printJson data
     else
       items <- member data "data" ;;
       if negb (truthy items) || is_zero (length_of items) then
         emit (Log "No events found.")
       else
         emit (Log (nl ++ "Available Events" ++ nl)) ;;;
         tableData <- data_map items
                        (fun event =>
                           name <- member event "name" ;;
                           group <- member event "group" ;;
                           ret (JObj [("name", name); ("group", or_NA group)])) ;;
         printTable tableData [column "name" "Event Name"; column "group" "Group"])
    fail.

(** *** properties users and properties accounts *)

Definition properties_users (options : value) : M unit :=
  requireAuth env ;;;
  try_catch
    (data <- withSpinner "Fetching user properties..." (getUserProperties env) ;;
     if truthy (get options "json") then printJson data
     else
       items <- member data "data" ;;
       if negb (truthy items) || is_zero (length_of items) then
         emit (Log "No user properties found.")
       else
         emit (Log (nl ++ "User Properties" ++ nl)) ;;;
         tableData <- data_map items
                        (fun prop =>
                           name <- member prop "name" ;;
                           type <- member prop "type" ;;
                           ret (JObj [("name", name); ("type", or_NA type)])) ;;
         printTable tableData [column "name" "Property Name"; column "type" "Type"])
    fail.

Definition properties_accounts (options : value) : M unit :=
  requireAuth env ;;;
  try_catch
    (data <- withSpinner "Fetching account properties..." (getAccountProperties env) ;;
     if truthy (get options "json") then printJson data
     else
       items <- member data "data" ;;
       if negb (truthy items) || is_zero (length_of items) then
         emit (Log "No account properties found.")
       else
         emit (Log (nl ++ "Account Properties" ++ nl)) ;;;
         tableData <- data_map items
                        (fun prop =>
                           name <- member prop "name" ;;
                           type <- member prop "type" ;;
                           ret (JObj [("name", name); ("type", or_NA type)])) ;;
         printTable tableData [column "name" "Property Name"; column "type" "Type"])
    fail.

(** *** segments users and segments accounts *)

Definition segments_users (options : value) : M unit :=
  requireAuth env ;;;
  try_catch
    (data <- withSpinner "Fetching user segments..." (getUserSegments env) ;;
     if truthy (get options "json") then printJson data
     else
       items <- member data "data" ;;
       if negb (truthy items) || is_zero (length_of items) then
         emit (Log "No user segments found.")
       else
         emit (Log (nl ++ "User Segments" ++ nl)) ;;;
         tableData <- data_map items
                        (fun segment =>
                           id <- member segment "id" ;;
                           name <- member segment "name" ;;
                           ret (JObj [("id", id); ("name", or_NA name)])) ;;
         printTable tableData [column "id" "Segment ID"; column "name" "Name"])
    fail.

Definition segments_accounts (options : value) : M unit :=
  requireAuth env ;;;
  try_catch
    (data <- withSpinner "Fetching account segments..." (getAccountSegments env) ;;
     if truthy (get options "json") then printJson data
     else
       items <- member data "data" ;;
       if negb (truthy items) || is_zero (length_of items) then
         emit (Log "No account segments found.")
       else
         emit (Log (nl ++ "Account Segments" ++ nl)) ;;;
         tableData <- data_map items
                        (fun segment =>
                           id <- member segment "id" ;;
                           name <- member segment "name" ;;
                           ret (JObj [("id", id); ("name", or_NA name)])) ;;
         printTable tableData [column "id" "Segment ID"; column "name" "Name"])
    fail.

(** *** The listing commands *)

Inductive Listing := Events | UserProperties | AccountProperties | UserSegments
                   | AccountSegments.

Definition run_listing (l : Listing) (options : value) : M unit :=
  match l with
  | Events => event_list options
  | UserProperties => properties_users options
  | AccountProperties => properties_accounts options
  | UserSegments => segments_users options
  | AccountSegments => segments_accounts options
  end.

End Listing.

(** ** The table in closed form *)

(** Whether a value has a string form, and that form. *)
Definition has_text (v : value) : bool :=
  match ToString v with
  | Some _ => true
  | None => false
  end.

Definition text_of (v : value) : string :=
  match ToString v with
  | Some text => text
  | None => ""
  end.

(** The value that is converted for a cell of a row that is neither [null]
    nor [undefined], and the text of the cell when that value has one. *)
Definition cell_value (col : Column) (row : value) : value :=
  match col_format col with
  | Some format => format (get row (col_key col)) row
  | None => if nullish (get row (col_key col)) then JStr "" else get row (col_key col)
  end.

Definition cell_text (col : Column) (row : value) : string :=
  text_of (cell_value col row).

(** The rows and the columns for which [cell] reads what the engine reads: a
    row is a plain object, and no key of a column is a name that a plain
    object inherits from [Object.prototype]. *)
Definition plain_object (v : value) : bool :=
  match v with
  | JObj _ => true
  | _ => false
  end.

Definition Object_prototype : list string :=
  ["constructor"; "__defineGetter__"; "__defineSetter__"; "hasOwnProperty";
   "__lookupGetter__"; "__lookupSetter__"; "isPrototypeOf"; "propertyIsEnumerable";
   "toString"; "valueOf"; "__proto__"; "toLocaleString"].

Definition inherited (key : string) : bool :=
  existsb (String.eqb key) Object_prototype.

(** The rows of which every cell has a text. *)
Definition printable (columns : list Column) (row : value) : bool :=
  forallb (fun col => has_text (cell_value col row)) columns.

(** The width of a column: the longest of its label and its cells, 50 at
    most. *)
Definition width_of (data : list value) (col : Column) : nat :=
  Nat.min
    (fold_left (fun width row => Nat.max width (js_length (cell_text col row))) data
       (js_length (col_label col)))
    50.

Definition header_line (data : list value) (columns : list Column) : string :=
  String.concat "  "
    (map (fun col => padEnd (col_label col) (width_of data col)) columns).

Definition row_line (data : list value) (columns : list Column) (row : value) : string :=
  String.concat "  "
    (map (fun col =>
            padEnd (js_take (width_of data col) (cell_text col row)) (width_of data col))
       columns).

Definition table_lines (data : list value) (columns : list Column) : list Output :=
  (Log (header_line data columns)
   :: Log (js_repeat "─" (js_length (header_line data columns)))
   :: map (fun row => Log (row_line data columns row)) data
   ++ [Log (nl ++ string_of_nat (List.length data) ++ " result(s)")])%list.

(** The width of a whole line: the columns and two spaces between them. *)
Definition table_width (data : list value) (columns : list Column) : nat :=
  (list_sum (map (width_of data) columns) + 2 * (List.length columns - 1))%nat.

(** The loops of [printTable] over rows that are values: the inner loop of
    [measure] and the whole of it. *)
Definition widen (col : Column) (widths : list (string * nat)) (row : value)
  : list (string * nat) :=
  if (widths_get (col_key col) widths <? js_length (cell_text col row))%nat
  then widths_set (col_key col) (js_length (cell_text col row)) widths
  else widths.

Definition measured (data : list value) (widths : list (string * nat)) (col : Column)
  : list (string * nat) :=
  widths_set (col_key col)
    (Nat.min
       (widths_get (col_key col)
          (fold_left (widen col) data
             (widths_set (col_key col) (js_length (col_label col)) widths)))
       50)
    (fold_left (widen col) data
       (widths_set (col_key col) (js_length (col_label col)) widths)).

(** ** The listing commands in closed form *)

Definition listing_operation (l : Listing) : Operation :=
  match l with
  | Events => GetEvents
  | UserProperties => GetUserProperties
  | AccountProperties => GetAccountProperties
  | UserSegments => GetUserSegments
  | AccountSegments => GetAccountSegments
  end.

Definition listing_spinner (l : Listing) : string :=
  match l with
  | Events => "Fetching events..."
  | UserProperties => "Fetching user properties..."
  | AccountProperties => "Fetching account properties..."
  | UserSegments => "Fetching user segments..."
  | AccountSegments => "Fetching account segments..."
  end.

Definition listing_empty (l : Listing) : string :=
  match l with
  | Events => "No events found."
  | UserProperties => "No user properties found."
  | AccountProperties => "No account properties found."
  | UserSegments => "No user segments found."
  | AccountSegments => "No account segments found."
  end.

Definition listing_title (l : Listing) : string :=
  match l with
  | Events => nl ++ "Available Events" ++ nl
  | UserProperties => nl ++ "User Properties" ++ nl
  | AccountProperties => nl ++ "Account Properties" ++ nl
  | UserSegments => nl ++ "User Segments" ++ nl
  | AccountSegments => nl ++ "Account Segments" ++ nl
  end.

Definition listing_columns (l : Listing) : list Column :=
  match l with
  | Events => [column "name" "Event Name"; column "group" "Group"]
  | UserProperties | AccountProperties =>
      [column "name" "Property Name"; column "type" "Type"]
  | UserSegments | AccountSegments => [column "id" "Segment ID"; column "name" "Name"]
  end.

(** The row made of an item that is neither [null] nor [undefined]. *)
Definition listing_row (l : Listing) (item : value) : value :=
  match l with
  | Events => JObj [("name", get item "name"); ("group", or_NA (get item "group"))]
  | UserProperties | AccountProperties =>
      JObj [("name", get item "name"); ("type", or_NA (get item "type"))]
  | UserSegments | AccountSegments =>
      JObj [("id", get item "id"); ("name", or_NA (get item "name"))]
  end.

(** The fields of an item that a listing shows, in the order of the
    columns. *)
Definition listing_fields (l : Listing) : list string :=
  match l with
  | Events => ["name"; "group"]
  | UserProperties | AccountProperties => ["name"; "type"]
  | UserSegments | AccountSegments => ["id"; "name"]
  end.

(** The items of which every field shown has a string form. *)
Definition listable (l : Listing) (item : value) : bool :=
  forallb (fun field => has_text (get item field)) (listing_fields l).

(** The request of a listing. *)
Definition listing_request (env : Env) (l : Listing) : AxiosConfig :=
  request_config env "GET" (path_of (listing_operation l)) JUndefined.


(** The callback a listing maps over the items of the answer. *)
Definition listing_callback (l : Listing) (item : value) : M value :=
  match l with
  | Events =>
      name <- member item "name" ;;
      group <- member item "group" ;;
      ret (JObj [("name", name); ("group", or_NA group)])
  | UserProperties | AccountProperties =>
      name <- member item "name" ;;
      type <- member item "type" ;;
      ret (JObj [("name", name); ("type", or_NA type)])
  | UserSegments | AccountSegments =>
      id <- member item "id" ;;
      name <- member item "name" ;;
      ret (JObj [("id", id); ("name", or_NA name)])
  end.

(** What a listing does with the answer when --json was not asked for. *)
Definition show_listing (l : Listing) (data : value) : M unit :=
  items <- member data "data" ;;
  if negb (truthy items) || is_zero (length_of items) then emit (Log (listing_empty l))
  else
    emit (Log (listing_title l)) ;;;
    tableData <- data_map items (listing_callback l) ;;
    printTable tableData (listing_columns l).

(** The world once the answer of a listing is in hand. *)
Definition answered (env : Env) (l : Listing) (w : World) : World :=
  {| dispatched := dispatched w ++ [listing_request env l];
     console := console w ++ [SpinnerStart (listing_spinner l); SpinnerStop] |}.


(** ** The common shape of the actions *)

(** Every action of src/index.js that calls the Mediator goes the same way:
    [requireAuth], a check of the arguments that may end the process with a
    message, the parsing of the JSON argument if there is one, the operation
    under a spinner, and then the answer, as JSON if --json was given and
    through [show] otherwise; whatever is thrown on the way goes to [fail]. *)
Definition perform (env : Env) (options : value) (refusal : option string)
  (json : option value) (spinner : string) (op : value -> Operation)
  (show : value -> M unit) : M unit :=
  requireAuth env ;;;
  match refusal with
  | Some message => printError message ;;; exit 1
  | None => ret tt
  end ;;;
  try_catch
    (properties <- match json with
                   | Some text => parseProperties env text
                   | None => ret JUndefined
                   end ;;
     data <- withSpinner spinner (invoke env (op properties)) ;;
     if truthy (get options "json") then printJson data else show data)
    fail.

(** The success lines of the commands that change something. *)
Definition show_success (message : string) (request_id : bool) (data : value) : M unit :=
  printSuccess message ;;;
  (if request_id then printRequestId data else ret tt) ;;;
  emit (Log "").

(** A command line that reaches the Mediator. *)
Inductive Invocation :=
| Act (command : Command)
| List (l : Listing) (options : value).

Definition run (env : Env) (i : Invocation) : M unit :=
  match i with
  | Act command => run_command env command
  | List l options => run_listing env l options
  end.

(** The lines a computation has added to the console. *)
Definition adds {A} (m : M A) (w : World) (lines : list Output) : Prop :=
  console (snd (m w)) = (console w ++ lines)%list.


(** The options an action was given. *)
Definition command_options (command : Command) : value :=
  match command with
  | UserUpsert _ options | UserDelete _ options | AccountUpsert _ options
  | AccountDelete _ options | AccountAddUsers _ _ options
  | AccountRemoveUsers _ _ options | EventTrack _ options | Link _ _ options
  | Validate options => options
  end.

Definition options_of (i : Invocation) : value :=
  match i with
  | Act command => command_options command
  | List _ options => options
  end.

(** The commands that print the request identifier of the answer. *)
Definition prints_request_id (command : Command) : bool :=
  match command with
  | UserUpsert _ _ | AccountUpsert _ _ | EventTrack _ _ | Validate _ => true
  | _ => false
  end.

(** What the parsing of the JSON argument comes to: [None] when
    [parseProperties] throws. *)
Definition parsed (env : Env) (json : option value) : option value :=
  match json with
  | None => Some JUndefined
  | Some text =>
      if negb (truthy text) then Some (JObj [])
      else
        match ToString text with
        | Some text => JSON_parse env text
        | None => None
        end
  end.

(** The end of an action: the operation under its spinner, and the answer. *)
Definition finish (env : Env) (options : value) (spinner : string) (operation : Operation)
  (show : value -> M unit) : M unit :=
  try_catch
    (data <- withSpinner spinner (invoke env operation) ;;
     if truthy (get options "json") then printJson data else show data)
    fail.

(** The world once an operation has settled under its spinner. *)
Definition settled (config : AxiosConfig) (spinner : string) (w : World) : World :=
  {| dispatched := dispatched w ++ [config];
     console := console w ++ [SpinnerStart spinner; SpinnerStop] |}.

(** The request an operation makes. *)
Definition request_of (env : Env) (operation : Operation) : AxiosConfig :=
  request_config env (verb (class_of operation)) (path_of operation) (body operation).


(** ** More concrete environments *)

(** A network that answers every request with 200 and the given payload. *)
Definition answering (payload : value) (_ : AxiosConfig) : AxiosOutcome :=
  Resolved {| resp_status := 200; resp_data := payload |}.

(** Two events as the endpoint lists them, the second without a group. *)
Definition two_events : list value :=
  [JObj [("name", JStr "signed_in"); ("group", JStr "auth")];
   JObj [("name", JStr "paid")]].


(** ** src/index.js: config show *)

Module JSSlice.

(** The second code unit of a four-byte character, as a string of its own:
    the low surrogate of the pair. *)
Definition low_surrogate (lead : ascii) (rest : string) : string :=
  let cp :=
    ((Z.of_nat (nat_of_ascii lead) mod 8) * 262144 + (byte_at rest 0 mod 64) * 4096
     + (byte_at rest 1 mod 64) * 64 + byte_at rest 2 mod 64)%Z in
  string_of_list_ascii (JSON.utf8 (56320 + (cp - 65536) mod 1024)).

(** [s.substring(k)]: what is left without the first [k] code units.  The
    continuation bytes of a dropped character go with it; a surrogate pair
    that straddles the cut leaves its low surrogate. *)
Fixpoint js_drop (k : nat) (s : string) : string :=
  match s with
  | EmptyString => EmptyString
  | String c rest =>
      match unit_weight c with
      | O => js_drop k rest
      | S O =>
          match k with
          | O => s
          | S k' => js_drop k' rest
          end
      | _ =>
          match k with
          | O => s
          | S O => low_surrogate c rest ++ js_drop 0 rest
          | S (S k') => js_drop k' rest
          end
      end
  end.

(** [s.slice(-n)]: the last [n] code units, or all of [s] if it has no
    more. *)
Definition js_last (n : nat) (s : string) : string :=
  if (js_length s <=? n)%nat then s else js_drop (js_length s - n) s.

End JSSlice.
Import JSSlice.

Section Config.

Variable env : Env.

(** The action of config show.  [console.log] with two strings writes them
    with a space between; nothing catches the TypeError of a stored key that
    is not a string. *)
Definition config_show : M unit :=
  let apiKey := getConfig env "apiKey" in
  emit (Log (nl ++ "Journy.io CLI Configuration" ++ nl)) ;;;
  shown <- (if truthy apiKey then
              match apiKey with
              | JStr key => ret (js_take 8 key ++ "..." ++ js_last 4 key)
              | _ => throw (Error "apiKey.substring is not a function")
              end
            else ret "not set") ;;
  emit (Log ("API Key: " ++ " " ++ shown)) ;;;
  emit (Log "").

End Config.


(** ** From a command to its operation *)

(** The JSON argument of a command, if it takes one. *)
Definition json_argument (command : Command) : option value :=
  match command with
  | UserUpsert _ options | AccountUpsert _ options => Some (get options "properties")
  | EventTrack _ options => Some (get options "metadata")
  | _ => None
  end.

(** The operation a command asks of the Mediator, given what its JSON
    argument parsed to. *)
Definition operation_of (command : Command) (properties : value) : Operation :=
  match command with
  | UserUpsert userId options =>
      UpsertUser (JStr userId) (get options "email") properties
  | UserDelete userId options => DeleteUser (JStr userId) (get options "email")
  | AccountUpsert accountId options =>
      UpsertAccount (JStr accountId) (get options "domain") properties
  | AccountDelete accountId options =>
      DeleteAccount (JStr accountId) (get options "domain")
  | AccountAddUsers accountId userIds _ =>
      AddUsersToAccount (JStr accountId) (map JStr userIds)
  | AccountRemoveUsers accountId userIds _ =>
      RemoveUsersFromAccount (JStr accountId) (map JStr userIds)
  | EventTrack eventName options =>
      TrackEvent (JStr eventName) (get options "userId") (get options "accountId")
        properties
  | Link userId accountId _ => LinkUserToAccount (JStr userId) (JStr accountId)
  | Validate _ => ValidateApiKey
  end.

(** ** Proof automation *)

Arguments request : simpl never.

Ltac split_membership :=
  repeat match goal with
    | H : In _ (_ :: _) |- _ => destruct H
    | H : In _ [] |- _ => destruct H
    | H : (_, _) = (_, _) |- _ => inversion H; clear H; subst
    end.

Ltac decide_branches :=
  repeat match goal with
    | |- context [if ?b then _ else _] => destruct b eqn:?
    end.

(** No key of an omitted argument among the keys of the body built. *)
Ltac keys_absent :=
  let arg := fresh "arg" in
  let key := fresh "key" in
  let Hin := fresh "Hin" in
  let Harg := fresh "Harg" in
  intros arg key Hin Harg; split_membership; subst; try discriminate;
  cbn; decide_branches; try discriminate; cbn; intuition discriminate.

(** The body built by an operation and its closed form are the same. *)
Ltac same_body :=
  f_equal; unfold with_bag, with_optional, has_own_keys;
  cbn [default_arg Object_keys];
  repeat match goal with
    | |- context [truthy ?x] => destruct (truthy x)
    | |- context [(0 <? List.length ?l)%nat] =>
        lazymatch l with
        | nil => fail
        | cons _ _ => fail
        | _ => destruct l
        end
    end;
  reflexivity.

(** * Properties *)

(** ** The request function *)

Lemma truthy_default_null (data : value) :
  truthy (default_arg data JNull) = truthy data.
Proof. destruct data; reflexivity. Qed.

Lemma data_default_null (data : value) :
  (if truthy (default_arg data JNull) then Some (default_arg data JNull) else None)
  = (if truthy data then Some data else None).
Proof. destruct data; reflexivity. Qed.

(** Without a Credential [request] fails before axios is called. *)
Lemma request_without_credential env method endpoint data w :
  has_credential env = false ->
  request env method endpoint data w = (Throw missing_credential, w).
Proof.
  unfold has_credential. intros Hkey.
  unfold request, try_catch, bind, getHeaders.
  rewrite Hkey. reflexivity.
Qed.

(** With a Credential [request] hands exactly one request to axios and
    returns what the answer settles to. *)
Lemma request_with_credential env method endpoint data w :
  has_credential env = true ->
  request env method endpoint data w
  = (settle (axios env (request_config env method endpoint data)),
     record_request (request_config env method endpoint data) w).
Proof.
  unfold has_credential. intros Hkey.
  unfold request, try_catch, bind, getHeaders, axios_call, ret, throw.
  rewrite Hkey. cbn [negb]. rewrite data_default_null.
  fold (request_config env method endpoint data).
  destruct (axios env (request_config env method endpoint data)) as [response | error];
    cbn [settle]; [reflexivity |].
  unfold rejection, classify, api_error, to_string, record_request.
  destruct (truthy (response_message error)).
  { destruct (ToString (response_message error)); reflexivity. }
  destruct (response_status_is error 401); [reflexivity |].
  destruct (response_status_is error 429); reflexivity.
Qed.

(** ** Every operation is one call of [request]

    An operation either raises the TypeError of [Object.keys(null)] on the
    spot, or calls [request] once with the verb and the path of the table and
    a body that holds no key of an omitted optional argument. *)
Lemma invoke_cases env op w :
  exists data,
    invoke env op w
    = (if null_bag op then (Throw keys_of_null, w)
       else request env (verb (class_of op)) (path_of op) data w)
    /\ (forall arg key,
          In (arg, key) (optional_arguments op) -> arg = JUndefined ->
          ~ In key (body_keys data)).
Proof.
  destruct op; cbn [invoke null_bag bag_of class_of verb path_of optional_arguments].
  - unfold upsertUser, bind, keys_of.
    destruct properties; cbn [default_arg Object_keys ret throw];
      [ | exists JUndefined; split; [reflexivity | cbn; tauto] | .. ].
    all: eexists; split; [reflexivity | keys_absent].
  - unfold deleteUser. eexists; split; [reflexivity | keys_absent].
  - unfold upsertAccount, bind, keys_of.
    destruct properties; cbn [default_arg Object_keys ret throw];
      [ | exists JUndefined; split; [reflexivity | cbn; tauto] | .. ].
    all: eexists; split; [reflexivity | keys_absent].
  - unfold deleteAccount. eexists; split; [reflexivity | keys_absent].
  - unfold addUsersToAccount. eexists; split; [reflexivity | keys_absent].
  - unfold removeUsersFromAccount. eexists; split; [reflexivity | keys_absent].
  - unfold trackEvent, bind, keys_of.
    destruct metadata; cbn [default_arg Object_keys ret throw];
      [ | exists JUndefined; split; [reflexivity | cbn; tauto] | .. ].
    all: eexists; split; [reflexivity | keys_absent].
  - exists JUndefined; split; [reflexivity | keys_absent].
  - exists JUndefined; split; [reflexivity | keys_absent].
  - exists JUndefined; split; [reflexivity | keys_absent].
  - exists JUndefined; split; [reflexivity | keys_absent].
  - exists JUndefined; split; [reflexivity | keys_absent].
  - unfold linkUserToAccount. eexists; split; [reflexivity | keys_absent].
  - exists JUndefined; split; [reflexivity | keys_absent].
  - exists JUndefined; split; [reflexivity | keys_absent].
Qed.

Lemma invoke_outcome env op w :
  exists data,
    invoke env op w
    = (if null_bag op then (Throw keys_of_null, w)
       else if has_credential env then
         (settle (axios env (request_config env (verb (class_of op)) (path_of op) data)),
          record_request (request_config env (verb (class_of op)) (path_of op) data) w)
       else (Throw missing_credential, w))
    /\ (forall arg key,
          In (arg, key) (optional_arguments op) -> arg = JUndefined ->
          ~ In key (body_keys data)).
Proof.
  destruct (invoke_cases env op w) as [data [Hrun Hkeys]].
  exists data. split; [| exact Hkeys].
  rewrite Hrun. destruct (null_bag op); [reflexivity |].
  destruct (has_credential env) eqn:Hkey.
  - apply request_with_credential, Hkey.
  - apply request_without_credential, Hkey.
Qed.

Lemma not_extended {A} (l : list A) (x : A) : l <> (l ++ [x])%list.
Proof.
  intros H. apply (f_equal (@List.length A)) in H.
  rewrite length_app in H. cbn in H. lia.
Qed.

Lemma extended_by_same {A} (l : list A) (x y : A) :
  (l ++ [x])%list = (l ++ [y])%list -> x = y.
Proof. intros H. apply app_inv_head in H. congruence. Qed.

(** When an operation hands a request to axios, it is the one of the table. *)
Lemma invoke_dispatched env op w config :
  sent (invoke env op) w = (dispatched w ++ [config])%list ->
  exists data,
    config = request_config env (verb (class_of op)) (path_of op) data
    /\ invoke env op w = (settle (axios env config), record_request config w)
    /\ (forall arg key,
          In (arg, key) (optional_arguments op) -> arg = JUndefined ->
          ~ In key (body_keys data)).
Proof.
  unfold sent. intros Hsent.
  destruct (invoke_outcome env op w) as [data [Hrun Hkeys]].
  rewrite Hrun in Hsent.
  destruct (null_bag op).
  { cbn in Hsent. exfalso. exact (not_extended _ _ Hsent). }
  destruct (has_credential env).
  2:{ cbn in Hsent. exfalso. exact (not_extended _ _ Hsent). }
  cbn in Hsent. apply extended_by_same in Hsent. subst config.
  exists data. repeat split; [exact Hrun | exact Hkeys].
Qed.

(** ** Error classification *)

(** C1, as amended: for every operation whose request axios rejects with a
    response, a truthy [message] in the body decides the result whatever the
    status, 401 and 429 included: the result is the ApiError that wraps the
    string form of the message, and the TypeError of the conversion when the
    message has no string form; status 401 gives UnauthorizedError and status
    429 gives RateLimitedError when the body carries no such message. *)
Theorem message_precedes_status env op w config error response :
  sent (invoke env op) w = (dispatched w ++ [config])%list ->
  axios env config = Rejected error ->
  err_response error = Some response ->
  (truthy (get_opt (resp_data response) "message") = true ->
   (forall text,
      ToString (get_opt (resp_data response) "message") = Some text ->
      result_of (invoke env op) w = Throw (render (ApiError text)))
   /\ (ToString (get_opt (resp_data response) "message") = None ->
       result_of (invoke env op) w = Throw not_primitive))
  /\ (truthy (get_opt (resp_data response) "message") = false ->
      resp_status response = 401%Z ->
      result_of (invoke env op) w = Throw (render UnauthorizedError))
  /\ (truthy (get_opt (resp_data response) "message") = false ->
      resp_status response = 429%Z ->
      result_of (invoke env op) w = Throw (render RateLimitedError)).
Proof.
  intros Hsent Hreject Hresponse.
  destruct (invoke_dispatched env op w config Hsent) as [data [_ [Hrun _]]].
  unfold result_of. rewrite Hrun, Hreject. cbn [fst settle].
  unfold rejection, classify, api_error, response_message, response_status_is.
  rewrite Hresponse.
  split; [| split].
  - intros Hmessage. rewrite Hmessage. split.
    + intros text Htext. rewrite Htext. reflexivity.
    + intros Htext. rewrite Htext. reflexivity.
  - intros Hmessage Hstatus. rewrite Hmessage, Hstatus. reflexivity.
  - intros Hmessage Hstatus. rewrite Hmessage, Hstatus. reflexivity.
Qed.

Lemma message_precedes_status_witness :
  result_of
    (invoke (sample_env (JStr "key")
               (refusing 429 (JObj [("message", JStr "Slow down")])))
       GetEvents) initial
  = Throw (render (ApiError "Slow down"))
  /\ result_of
       (invoke (sample_env (JStr "key") (refusing 401 (JObj []))) GetEvents) initial
     = Throw (render UnauthorizedError)
  /\ result_of
       (invoke (sample_env (JStr "key") (refusing 400 (JObj [("message", no_text)])))
          GetEvents) initial
     = Throw not_primitive.
Proof.
  split; [| split].
  - exact (proj1 (proj1 (message_precedes_status
                    (sample_env (JStr "key")
                       (refusing 429 (JObj [("message", JStr "Slow down")])))
                    GetEvents initial
                    (request_config
                       (sample_env (JStr "key")
                          (refusing 429 (JObj [("message", JStr "Slow down")])))
                       "GET" "/events" JUndefined)
                    {| err_message := "Request failed with status code 429";
                       err_response :=
                         Some {| resp_status := 429;
                                 resp_data := JObj [("message", JStr "Slow down")] |} |}
                    {| resp_status := 429;
                       resp_data := JObj [("message", JStr "Slow down")] |}
                    eq_refl eq_refl eq_refl) eq_refl) "Slow down" eq_refl).
  - exact (proj1 (proj2 (message_precedes_status
                    (sample_env (JStr "key") (refusing 401 (JObj [])))
                    GetEvents initial
                    (request_config (sample_env (JStr "key") (refusing 401 (JObj [])))
                       "GET" "/events" JUndefined)
                    {| err_message := "Request failed with status code 401";
                       err_response :=
                         Some {| resp_status := 401; resp_data := JObj [] |} |}
                    {| resp_status := 401; resp_data := JObj [] |}
                    eq_refl eq_refl eq_refl)) eq_refl eq_refl).
  - exact (proj2 (proj1 (message_precedes_status
                    (sample_env (JStr "key")
                       (refusing 400 (JObj [("message", no_text)])))
                    GetEvents initial
                    (request_config
                       (sample_env (JStr "key")
                          (refusing 400 (JObj [("message", no_text)])))
                       "GET" "/events" JUndefined)
                    {| err_message := "Request failed with status code 400";
                       err_response :=
                         Some {| resp_status := 400;
                                 resp_data := JObj [("message", no_text)] |} |}
                    {| resp_status := 400; resp_data := JObj [("message", no_text)] |}
                    eq_refl eq_refl eq_refl) eq_refl) eq_refl).
Defined.

(** C1 as stated fails: a 401 answer whose body carries a message is
    classified ApiError, where the specified order says UnauthorizedError;
    the same holds for 429 and RateLimitedError. *)
Lemma unauthorized_with_message_counterexample :
  result_of
    (invoke (sample_env (JStr "key")
               (refusing 401 (JObj [("message", JStr "Token expired")])))
       ValidateApiKey) initial
  = Throw (render (ApiError "Token expired"))
  /\ classify_as_specified
       {| err_message := "Request failed with status code 401";
          err_response :=
            Some {| resp_status := 401;
                    resp_data := JObj [("message", JStr "Token expired")] |} |}
     = Some UnauthorizedError
  /\ render (ApiError "Token expired") <> render UnauthorizedError
  /\ result_of
       (invoke (sample_env (JStr "key")
                  (refusing 429 (JObj [("message", JStr "Slow down")])))
          ValidateApiKey) initial
     = Throw (render (ApiError "Slow down"))
  /\ render (ApiError "Slow down") <> render RateLimitedError.
Proof.
  repeat split; try reflexivity; discriminate.
Qed.

(** ** Request construction *)

(** C2: whenever a mutating operation hands a request to axios, an optional
    argument that was omitted (email, domain, userId, accountId, properties or
    metadata left [undefined]) has no key in the body, neither at the top of
    the body nor in its [identification]. *)
Theorem omitted_argument_has_no_key env op w config arg key :
  sent (invoke env op) w = (dispatched w ++ [config])%list ->
  In (arg, key) (optional_arguments op) ->
  arg = JUndefined ->
  ~ In key (body_keys (body_of config)).
Proof.
  intros Hsent Hin Harg.
  destruct (invoke_dispatched env op w config Hsent) as [data [Hconfig [_ Hkeys]]].
  subst config. unfold body_of, request_config. cbn [req_data].
  destruct (truthy data).
  - exact (Hkeys arg key Hin Harg).
  - cbn. tauto.
Qed.

Lemma omitted_argument_has_no_key_witness :
  sent (invoke (sample_env (JStr "key") accepting)
          (UpsertAccount (JStr "acme") JUndefined JUndefined)) initial
  = [request_config (sample_env (JStr "key") accepting) "POST" "/accounts/upsert"
       (JObj [("identification", JObj [("accountId", JStr "acme")])])]
  /\ ~ In "domain"
         (body_keys (JObj [("identification", JObj [("accountId", JStr "acme")])]))
  /\ ~ In "email" (body_keys (JObj [("identification", JObj [("userId", JStr "u1")])])).
Proof.
  split; [reflexivity | split].
  - exact (omitted_argument_has_no_key (sample_env (JStr "key") accepting)
             (UpsertAccount (JStr "acme") JUndefined JUndefined) initial
             (request_config (sample_env (JStr "key") accepting) "POST" "/accounts/upsert"
                (JObj [("identification", JObj [("accountId", JStr "acme")])]))
             JUndefined "domain" eq_refl (or_introl eq_refl) eq_refl).
  - exact (omitted_argument_has_no_key (sample_env (JStr "key") accepting)
             (DeleteUser (JStr "u1") JUndefined) initial
             (request_config (sample_env (JStr "key") accepting) "DELETE" "/users"
                (JObj [("identification", JObj [("userId", JStr "u1")])]))
             JUndefined "email" eq_refl (or_intror (or_introl eq_refl)) eq_refl).
Defined.

(** C8: an operation hands at most one request to axios, and its method and
    URL are those of the static table: GET for the reads, POST for upserts,
    track, link and adding or removing users, DELETE for the deletes.  The
    request is made when the Credential is present and the property bag is
    not [null]. *)
Theorem endpoint_of_the_table env op w :
  exists headers body,
    sent (invoke env op) w
    = (dispatched w
       ++ (if has_credential env && negb (null_bag op) then
             [{| req_method := verb (class_of op);
                 req_url := BASE_URL ++ path_of op;
                 req_headers := headers;
                 req_data := body |}]
           else []))%list.
Proof.
  destruct (invoke_outcome env op w) as [data [Hrun _]].
  exists (req_headers (request_config env (verb (class_of op)) (path_of op) data)).
  exists (req_data (request_config env (verb (class_of op)) (path_of op) data)).
  unfold sent. rewrite Hrun.
  destruct (null_bag op).
  - rewrite andb_false_r. cbn. now rewrite app_nil_r.
  - destruct (has_credential env); cbn; [reflexivity | now rewrite app_nil_r].
Qed.

(** ** Actions without a Credential *)

Create HintDb local_failure.

Lemma quiet_ret {A} (a : A) : quiet (ret a).
Proof. intros w; split; [reflexivity | exact I]. Qed.

Lemma quiet_throw {A} e : quiet (@throw A e).
Proof. intros w; split; [reflexivity | exact I]. Qed.

Lemma quiet_exit_1 {A} : quiet (@exit A 1).
Proof. intros w; split; reflexivity. Qed.

Lemma quiet_emit o : quiet (emit o).
Proof. intros w; split; [reflexivity | exact I]. Qed.

Lemma quiet_bind {A B} (m : M A) (k : A -> M B) :
  quiet m -> (forall a, quiet (k a)) -> quiet (bind m k).
Proof.
  intros Hm Hk w. destruct (Hm w) as [Hsent Hexit]. unfold bind.
  destruct (m w) as [[a | e | c] w']; cbn in *.
  - destruct (Hk a w') as [Hsent' Hexit']. split; [congruence | exact Hexit'].
  - split; [exact Hsent | exact I].
  - split; [exact Hsent | exact Hexit].
Qed.

Lemma quiet_try_catch {A} (m : M A) handler :
  quiet m -> (forall e, quiet (handler e)) -> quiet (try_catch m handler).
Proof.
  intros Hm Hh w. destruct (Hm w) as [Hsent Hexit]. unfold try_catch.
  destruct (m w) as [[a | e | c] w']; cbn in *.
  - split; [exact Hsent | exact I].
  - destruct (Hh e w') as [Hsent' Hexit']. split; [congruence | exact Hexit'].
  - split; [exact Hsent | exact Hexit].
Qed.

Lemma quiet_if {A} (b : bool) (m1 m2 : M A) :
  quiet m1 -> quiet m2 -> quiet (if b then m1 else m2).
Proof. destruct b; auto. Qed.

Lemma never_returns_throw {A} e : never_returns (@throw A e).
Proof. intros w; exact I. Qed.

Lemma never_returns_exit {A} code : never_returns (@exit A code).
Proof. intros w; exact I. Qed.

Lemma never_returns_bind_left {A B} (m : M A) (k : A -> M B) :
  never_returns m -> never_returns (bind m k).
Proof.
  intros Hm w. specialize (Hm w). unfold bind.
  destruct (m w) as [[a | e | c] w']; cbn in *; [destruct Hm | exact I | exact I].
Qed.

Lemma never_returns_bind_right {A B} (m : M A) (k : A -> M B) :
  (forall a, never_returns (k a)) -> never_returns (bind m k).
Proof.
  intros Hk w. unfold bind.
  destruct (m w) as [[a | e | c] w']; cbn; [apply Hk | exact I | exact I].
Qed.

Lemma never_returns_try_catch {A} (m : M A) handler :
  never_returns m -> (forall e, never_returns (handler e)) ->
  never_returns (try_catch m handler).
Proof.
  intros Hm Hh w. specialize (Hm w). unfold try_catch.
  destruct (m w) as [[a | e | c] w']; cbn in *; [destruct Hm | apply Hh | exact I].
Qed.

Lemma never_throws_ret {A} (a : A) : never_throws (ret a).
Proof. intros w; exact I. Qed.

Lemma never_throws_exit {A} code : never_throws (@exit A code).
Proof. intros w; exact I. Qed.

Lemma never_throws_emit o : never_throws (emit o).
Proof. intros w; exact I. Qed.

Lemma never_throws_bind {A B} (m : M A) (k : A -> M B) :
  never_throws m -> (forall a, never_throws (k a)) -> never_throws (bind m k).
Proof.
  intros Hm Hk w. specialize (Hm w). unfold bind.
  destruct (m w) as [[a | e | c] w']; cbn in *; [apply Hk | destruct Hm | exact I].
Qed.

Lemma never_throws_try_catch {A} (m : M A) handler :
  (forall e, never_throws (handler e)) -> never_throws (try_catch m handler).
Proof.
  intros Hh w. unfold try_catch.
  destruct (m w) as [[a | e | c] w']; cbn; [exact I | apply Hh | exact I].
Qed.

Lemma never_throws_if {A} (b : bool) (m1 m2 : M A) :
  never_throws m1 -> never_throws m2 -> never_throws (if b then m1 else m2).
Proof. destruct b; auto. Qed.

Lemma quiet_parseProperties env v : quiet (parseProperties env v).
Proof.
  unfold parseProperties. apply quiet_if; [apply quiet_ret |].
  destruct (ToString v) as [text |]; [| apply quiet_throw].
  destruct (JSON_parse env text); [apply quiet_ret | apply quiet_throw].
Qed.

Lemma quiet_member o k : quiet (member o k).
Proof. unfold member. apply quiet_if; [apply quiet_throw | apply quiet_ret]. Qed.

Lemma quiet_to_string v : quiet (to_string v).
Proof. unfold to_string. destruct (ToString v); [apply quiet_ret | apply quiet_throw]. Qed.

#[export] Hint Resolve quiet_ret quiet_throw quiet_exit_1 quiet_emit quiet_bind
  quiet_try_catch quiet_if quiet_parseProperties quiet_member quiet_to_string
  never_returns_throw never_returns_exit never_returns_bind_left
  never_returns_bind_right never_returns_try_catch
  never_throws_ret never_throws_exit never_throws_emit never_throws_bind
  never_throws_try_catch never_throws_if : local_failure.

#[export] Hint Unfold printError printSuccess printJson printRequestId fail withSpinner
  requireAuth : local_failure.

Section WithoutCredential.

Variable env : Env.
Hypothesis no_key : has_credential env = false.

Lemma invoke_quiet op : quiet (invoke env op).
Proof.
  intros w. destruct (invoke_outcome env op w) as [data [Hrun _]].
  rewrite Hrun, no_key. destruct (null_bag op); (split; [reflexivity | exact I]).
Qed.

Lemma invoke_never_returns op : never_returns (invoke env op).
Proof.
  intros w. destruct (invoke_outcome env op w) as [data [Hrun _]].
  rewrite Hrun, no_key. destruct (null_bag op); exact I.
Qed.

Lemma command_is_local command :
  quiet (run_command env command)
  /\ never_returns (run_command env command)
  /\ never_throws (run_command env command).
Proof.
  pose proof invoke_quiet as Hq. pose proof invoke_never_returns as Hr.
  destruct command; cbn [run_command];
    unfold user_upsert, user_delete, account_upsert, account_delete, account_add_users,
      account_remove_users, event_track, link, validate.
  - change (upsertUser env) with (fun a b c => invoke env (UpsertUser a b c)).
    split; [| split]; autounfold with local_failure; auto 20 with local_failure.
  - change (deleteUser env) with (fun a b => invoke env (DeleteUser a b)).
    split; [| split]; autounfold with local_failure; auto 20 with local_failure.
  - change (upsertAccount env) with (fun a b c => invoke env (UpsertAccount a b c)).
    split; [| split]; autounfold with local_failure; auto 20 with local_failure.
  - change (deleteAccount env) with (fun a b => invoke env (DeleteAccount a b)).
    split; [| split]; autounfold with local_failure; auto 20 with local_failure.
  - change (addUsersToAccount env) with (fun a b => invoke env (AddUsersToAccount a b)).
    split; [| split]; autounfold with local_failure; auto 20 with local_failure.
  - change (removeUsersFromAccount env)
      with (fun a b => invoke env (RemoveUsersFromAccount a b)).
    split; [| split]; autounfold with local_failure; auto 20 with local_failure.
  - change (trackEvent env) with (fun a b c d => invoke env (TrackEvent a b c d)).
    split; [| split]; autounfold with local_failure; auto 20 with local_failure.
  - change (linkUserToAccount env) with (fun a b => invoke env (LinkUserToAccount a b)).
    split; [| split]; autounfold with local_failure; auto 20 with local_failure.
  - change (validateApiKey env) with (invoke env ValidateApiKey).
    split; [| split]; autounfold with local_failure; auto 20 with local_failure.
Qed.

End WithoutCredential.

Lemma command_without_credential env command w :
  has_credential env = false ->
  result_of (run_command env command) w = Exit 1
  /\ sent (run_command env command) w = dispatched w.
Proof.
  intros Hkey.
  destruct (command_is_local env Hkey command) as [Hquiet [Hreturn Hthrow]].
  specialize (Hquiet w). specialize (Hreturn w). specialize (Hthrow w).
  unfold result_of, sent. destruct Hquiet as [Hsent Hexit].
  split; [| exact Hsent].
  destruct (fst (run_command env command w)); [destruct Hreturn | destruct Hthrow |].
  now rewrite Hexit.
Qed.

Lemma not_configured_exits env command w :
  isConfigured env = false ->
  run_command env command w = (Exit 1, after_lines w not_configured_lines).
Proof.
  intros Hconf.
  destruct command; cbn [run_command];
    unfold user_upsert, user_delete, account_upsert, account_delete, account_add_users,
      account_remove_users, event_track, link, validate, requireAuth, after_lines;
    rewrite Hconf; cbn; rewrite <- !app_assoc; reflexivity.
Qed.

(** ** The Credential *)

(** C3: without a Credential every operation fails on the spot and leaves
    the world as it was: no request is handed to axios.  The failure is the
    Error of [getHeaders] as [request] rethrows it (or, for a [null] property
    bag, the TypeError raised before [request] is reached), and an action of
    src/index.js that meets it ends the process with status 1.  When
    [isConfigured()] is false, [requireAuth] ends the process with status 1
    before the action does anything else. *)
Theorem no_credential_no_dispatch env op command w :
  (has_credential env = false ->
   invoke env op w
   = (Throw (if null_bag op then keys_of_null else missing_credential), w)
   /\ result_of (run_command env command) w = Exit 1
   /\ sent (run_command env command) w = dispatched w)
  /\ (isConfigured env = false ->
      requireAuth env w = (Exit 1, after_lines w not_configured_lines)
      /\ run_command env command w = (Exit 1, after_lines w not_configured_lines)).
Proof.
  split.
  - intros Hkey. split.
    + destruct (invoke_outcome env op w) as [data [Hrun _]].
      rewrite Hrun, Hkey. destruct (null_bag op); reflexivity.
    + apply command_without_credential, Hkey.
  - intros Hconf. split.
    + unfold requireAuth, after_lines. rewrite Hconf. cbn.
      rewrite <- !app_assoc. reflexivity.
    + apply not_configured_exits, Hconf.
Qed.

Lemma no_credential_no_dispatch_witness :
  invoke (sample_env JUndefined accepting)
    (TrackEvent (JStr "signed_in") (JStr "u1") JUndefined JUndefined) initial
  = (Throw missing_credential, initial)
  /\ run_command (sample_env JUndefined accepting) (Validate (JObj [])) initial
     = (Exit 1, after_lines initial not_configured_lines).
Proof.
  split.
  - refine (proj1 (proj1 (no_credential_no_dispatch (sample_env JUndefined accepting)
                            (TrackEvent (JStr "signed_in") (JStr "u1") JUndefined JUndefined)
                            (Validate (JObj [])) initial) _)).
    reflexivity.
  - refine (proj2 (proj2 (no_credential_no_dispatch (sample_env JUndefined accepting)
                            GetEvents (Validate (JObj [])) initial) _)).
    reflexivity.
Defined.

(** ** Bodies of particular calls *)

(** C4: [trackEvent("signed_in", "u1")] with no accountId and no metadata
    sends the body [{ name: "signed_in", userId: "u1" }] and nothing else,
    as a POST to /track. *)
Theorem trackEvent_signed_in env w :
  has_credential env = true ->
  sent (trackEvent env (JStr "signed_in") (JStr "u1") JUndefined JUndefined) w
  = (dispatched w
     ++ [{| req_method := "POST";
            req_url := "https://api.journy.io/track";
            req_headers :=
              JObj [("X-Api-Key", getConfig env "apiKey");
                    ("Content-Type", JStr "application/json")];
            req_data := Some (JObj [("name", JStr "signed_in"); ("userId", JStr "u1")])
         |}])%list.
Proof.
  intros Hkey. unfold sent, trackEvent, bind. cbn.
  rewrite (request_with_credential env _ _ _ w Hkey). reflexivity.
Qed.

Lemma trackEvent_signed_in_witness :
  sent (trackEvent (sample_env (JStr "key") accepting)
          (JStr "signed_in") (JStr "u1") JUndefined JUndefined) initial
  = [{| req_method := "POST";
        req_url := "https://api.journy.io/track";
        req_headers :=
          JObj [("X-Api-Key", JStr "key"); ("Content-Type", JStr "application/json")];
        req_data := Some (JObj [("name", JStr "signed_in"); ("userId", JStr "u1")]) |}].
Proof.
  exact (trackEvent_signed_in (sample_env (JStr "key") accepting) initial eq_refl).
Defined.

(** C5: [upsertUser("u1", "a@b.com", {"plan":"Pro"})] sends the body
    [{ identification: { userId: "u1", email: "a@b.com" },
       properties: { plan: "Pro" } }], as a POST to /users/upsert. *)
Theorem upsertUser_with_email_and_plan env w :
  has_credential env = true ->
  sent (upsertUser env (JStr "u1") (JStr "a@b.com") (JObj [("plan", JStr "Pro")])) w
  = (dispatched w
     ++ [{| req_method := "POST";
            req_url := "https://api.journy.io/users/upsert";
            req_headers :=
              JObj [("X-Api-Key", getConfig env "apiKey");
                    ("Content-Type", JStr "application/json")];
            req_data :=
              Some (JObj [("identification",
                           JObj [("userId", JStr "u1"); ("email", JStr "a@b.com")]);
                          ("properties", JObj [("plan", JStr "Pro")])])
         |}])%list.
Proof.
  intros Hkey. unfold sent, upsertUser, bind. cbn.
  rewrite (request_with_credential env _ _ _ w Hkey). reflexivity.
Qed.

Lemma upsertUser_with_email_and_plan_witness :
  sent (upsertUser (sample_env (JStr "key") accepting)
          (JStr "u1") (JStr "a@b.com") (JObj [("plan", JStr "Pro")])) initial
  = [{| req_method := "POST";
        req_url := "https://api.journy.io/users/upsert";
        req_headers :=
          JObj [("X-Api-Key", JStr "key"); ("Content-Type", JStr "application/json")];
        req_data :=
          Some (JObj [("identification",
                       JObj [("userId", JStr "u1"); ("email", JStr "a@b.com")]);
                      ("properties", JObj [("plan", JStr "Pro")])]) |}].
Proof.
  exact (upsertUser_with_email_and_plan (sample_env (JStr "key") accepting) initial
           eq_refl).
Defined.

(** C10: for every accountId and every list of userIds, adding and removing
    users send the same method, the same headers and the same body
    [{ identification: { accountId }, users }], where [users] has the length
    and the order of userIds and each element is wrapped as
    [{ identification: { userId } }]; only the path of the URL differs. *)
Theorem add_and_remove_differ_in_path env accountId userIds w :
  has_credential env = true ->
  exists headers body users,
    sent (addUsersToAccount env accountId userIds) w
    = (dispatched w
       ++ [{| req_method := "POST";
              req_url := "https://api.journy.io/accounts/users/add";
              req_headers := headers;
              req_data := Some body |}])%list
    /\ sent (removeUsersFromAccount env accountId userIds) w
       = (dispatched w
          ++ [{| req_method := "POST";
                 req_url := "https://api.journy.io/accounts/users/remove";
                 req_headers := headers;
                 req_data := Some body |}])%list
    /\ body = JObj [("identification", JObj [("accountId", accountId)]);
                    ("users", JArr users)]
    /\ List.length users = List.length userIds
    /\ (forall i,
          nth_error users i
          = option_map (fun userId => JObj [("identification", JObj [("userId", userId)])])
              (nth_error userIds i)).
Proof.
  intros Hkey.
  exists (JObj [("X-Api-Key", getConfig env "apiKey");
                ("Content-Type", JStr "application/json")]).
  exists (JObj [("identification", JObj [("accountId", accountId)]);
                ("users", JArr (map wrap_user userIds))]).
  exists (map wrap_user userIds).
  unfold sent, addUsersToAccount, removeUsersFromAccount.
  rewrite !(request_with_credential env _ _ _ w Hkey).
  repeat split.
  - apply length_map.
  - intros i. apply nth_error_map.
Qed.

Lemma add_and_remove_differ_in_path_witness :
  exists headers body users,
    sent (addUsersToAccount (sample_env (JStr "key") accepting) (JStr "acme")
            [JStr "u1"; JStr "u2"]) initial
    = ([] ++ [{| req_method := "POST";
                 req_url := "https://api.journy.io/accounts/users/add";
                 req_headers := headers;
                 req_data := Some body |}])%list
    /\ sent (removeUsersFromAccount (sample_env (JStr "key") accepting) (JStr "acme")
               [JStr "u1"; JStr "u2"]) initial
       = ([] ++ [{| req_method := "POST";
                    req_url := "https://api.journy.io/accounts/users/remove";
                    req_headers := headers;
                    req_data := Some body |}])%list
    /\ body = JObj [("identification", JObj [("accountId", JStr "acme")]);
                    ("users", JArr users)]
    /\ List.length users = 2%nat
    /\ (forall i,
          nth_error users i
          = option_map (fun userId => JObj [("identification", JObj [("userId", userId)])])
              (nth_error [JStr "u1"; JStr "u2"] i)).
Proof.
  exact (add_and_remove_differ_in_path (sample_env (JStr "key") accepting) (JStr "acme")
           [JStr "u1"; JStr "u2"] initial eq_refl).
Defined.

(** ** Deleting a user without an identification *)

(** C9 as stated fails: with a Credential, [deleteUser()] with neither
    userId nor email is handed to axios, with an empty identification, and
    returns what the endpoint answers. *)
Lemma deleteUser_unidentified_counterexample :
  deleteUser (sample_env (JStr "key") accepting) JUndefined JUndefined initial
  = (Return (JObj [("meta", JObj [("requestId", JStr "r-1")])]),
     {| dispatched :=
          [{| req_method := "DELETE";
              req_url := "https://api.journy.io/users";
              req_headers :=
                JObj [("X-Api-Key", JStr "key");
                      ("Content-Type", JStr "application/json")];
              req_data := Some (JObj [("identification", JObj [])]) |}];
        console := [] |}).
Proof. reflexivity. Qed.

(** C9, as amended: [deleteUser] makes no check of its arguments.  Called
    with neither userId nor email (each omitted, [null] or empty) and with a
    Credential present, it sends DELETE /users with the body
    [{ identification: {} }] and returns what the endpoint answers. *)
Theorem deleteUser_unidentified_is_dispatched env userId email w :
  has_credential env = true ->
  truthy userId = false ->
  truthy email = false ->
  deleteUser env userId email w
  = (settle (axios env
               {| req_method := "DELETE";
                  req_url := "https://api.journy.io/users";
                  req_headers :=
                    JObj [("X-Api-Key", getConfig env "apiKey");
                          ("Content-Type", JStr "application/json")];
                  req_data := Some (JObj [("identification", JObj [])]) |}),
     record_request
       {| req_method := "DELETE";
          req_url := "https://api.journy.io/users";
          req_headers :=
            JObj [("X-Api-Key", getConfig env "apiKey");
                  ("Content-Type", JStr "application/json")];
          req_data := Some (JObj [("identification", JObj [])]) |} w).
Proof.
  intros Hkey Huser Hemail. unfold deleteUser. rewrite Huser, Hemail.
  rewrite (request_with_credential env _ _ _ w Hkey). reflexivity.
Qed.

Lemma deleteUser_unidentified_is_dispatched_witness :
  sent (deleteUser (sample_env (JStr "key") (refusing 400 (JObj []))) JUndefined JNull)
    initial
  = [{| req_method := "DELETE";
        req_url := "https://api.journy.io/users";
        req_headers :=
          JObj [("X-Api-Key", JStr "key"); ("Content-Type", JStr "application/json")];
        req_data := Some (JObj [("identification", JObj [])]) |}].
Proof.
  exact (f_equal (fun r => dispatched (snd r))
           (deleteUser_unidentified_is_dispatched
              (sample_env (JStr "key") (refusing 400 (JObj []))) JUndefined JNull initial
              eq_refl eq_refl eq_refl)).
Defined.

(** ** The bound of 100 users *)

Lemma add_users_rejected env accountId userIds options w :
  (100 < List.length userIds)%nat ->
  account_add_users env accountId userIds options w
  = (Exit 1,
     after_lines w
       (if isConfigured env then [ErrorLine "✗ Maximum 100 users can be added at once"]
        else not_configured_lines)).
Proof.
  intros Hlen. apply Nat.ltb_lt in Hlen.
  unfold account_add_users, requireAuth, after_lines.
  destruct (isConfigured env); cbn [negb].
  - unfold bind at 1 2. cbn [ret]. rewrite Hlen. reflexivity.
  - cbn. rewrite <- !app_assoc. reflexivity.
Qed.

Lemma remove_users_rejected env accountId userIds options w :
  (100 < List.length userIds)%nat ->
  account_remove_users env accountId userIds options w
  = (Exit 1,
     after_lines w
       (if isConfigured env then [ErrorLine "✗ Maximum 100 users can be removed at once"]
        else not_configured_lines)).
Proof.
  intros Hlen. apply Nat.ltb_lt in Hlen.
  unfold account_remove_users, requireAuth, after_lines.
  destruct (isConfigured env); cbn [negb].
  - unfold bind at 1 2. cbn [ret]. rewrite Hlen. reflexivity.
  - cbn. rewrite <- !app_assoc. reflexivity.
Qed.

(** Up to 100 users: the action reaches the Mediator, which sends them all;
    the action comes back normally when the endpoint accepts. *)
Lemma add_users_run env accountId userIds options w :
  isConfigured env = true ->
  has_credential env = true ->
  (List.length userIds <= 100)%nat ->
  exists outcome lines,
    account_add_users env accountId userIds options w
    = (outcome,
       {| dispatched :=
            dispatched w
            ++ [request_config env "POST" "/accounts/users/add"
                  (users_body (JStr accountId) (map JStr userIds))];
          console := lines |})
    /\ (forall response,
          axios env (request_config env "POST" "/accounts/users/add"
                       (users_body (JStr accountId) (map JStr userIds)))
          = Resolved response ->
          outcome = Return tt).
Proof.
  intros Hconf Hkey Hlen. apply Nat.ltb_ge in Hlen.
  unfold account_add_users, requireAuth.
  rewrite Hconf. cbn [negb].
  unfold bind at 1 2. cbn [ret]. rewrite Hlen.
  unfold bind at 1. cbn [ret].
  unfold try_catch at 1, bind at 1, withSpinner, bind at 1, emit at 1, try_catch at 1,
    bind at 1, addUsersToAccount.
  rewrite request_with_credential by exact Hkey.
  fold (users_body (JStr accountId) (map JStr userIds)).
  destruct (axios env _) as [response | error]; cbn [settle].
  - unfold bind, emit, ret, printJson, printSuccess, emit. cbn.
    destruct (truthy (get options "json"));
      (eexists; eexists; split; [reflexivity | reflexivity]).
  - eexists; eexists; split; [reflexivity | discriminate].
Qed.

Lemma remove_users_run env accountId userIds options w :
  isConfigured env = true ->
  has_credential env = true ->
  (List.length userIds <= 100)%nat ->
  exists outcome lines,
    account_remove_users env accountId userIds options w
    = (outcome,
       {| dispatched :=
            dispatched w
            ++ [request_config env "POST" "/accounts/users/remove"
                  (users_body (JStr accountId) (map JStr userIds))];
          console := lines |})
    /\ (forall response,
          axios env (request_config env "POST" "/accounts/users/remove"
                       (users_body (JStr accountId) (map JStr userIds)))
          = Resolved response ->
          outcome = Return tt).
Proof.
  intros Hconf Hkey Hlen. apply Nat.ltb_ge in Hlen.
  unfold account_remove_users, requireAuth.
  rewrite Hconf. cbn [negb].
  unfold bind at 1 2. cbn [ret]. rewrite Hlen.
  unfold bind at 1. cbn [ret].
  unfold try_catch at 1, bind at 1, withSpinner, bind at 1, emit at 1, try_catch at 1,
    bind at 1, removeUsersFromAccount.
  rewrite request_with_credential by exact Hkey.
  fold (users_body (JStr accountId) (map JStr userIds)).
  destruct (axios env _) as [response | error]; cbn [settle].
  - unfold bind, emit, ret, printJson, printSuccess, emit. cbn.
    destruct (truthy (get options "json"));
      (eexists; eexists; split; [reflexivity | reflexivity]).
  - eexists; eexists; split; [reflexivity | discriminate].
Qed.

(** The Mediator sends the users it is given, however many they are. *)
Lemma addUsersToAccount_any_length env accountId userIds w :
  has_credential env = true ->
  sent (addUsersToAccount env accountId userIds) w
  = (dispatched w
     ++ [request_config env "POST" "/accounts/users/add"
           (users_body accountId userIds)])%list.
Proof.
  intros Hkey. unfold sent, addUsersToAccount.
  rewrite (request_with_credential env _ _ _ w Hkey). reflexivity.
Qed.

Lemma removeUsersFromAccount_any_length env accountId userIds w :
  has_credential env = true ->
  sent (removeUsersFromAccount env accountId userIds) w
  = (dispatched w
     ++ [request_config env "POST" "/accounts/users/remove"
           (users_body accountId userIds)])%list.
Proof.
  intros Hkey. unfold sent, removeUsersFromAccount.
  rewrite (request_with_credential env _ _ _ w Hkey). reflexivity.
Qed.

(** C6: the add-users and remove-users actions hand a list of up to 100
    userIds (100 included) to the Mediator, which sends it, and the action
    comes back normally when the endpoint accepts; with 101 or more they end
    the process with status 1 after one error line, nothing sent and the
    Mediator not reached; the Mediator itself sends any list, whatever its
    length. *)
Theorem users_bound_is_checked_by_the_caller env accountId userIds options ids w :
  (isConfigured env = true ->
   has_credential env = true ->
   (List.length userIds <= 100)%nat ->
   (sent (account_add_users env accountId userIds options) w
    = (dispatched w
       ++ [request_config env "POST" "/accounts/users/add"
             (users_body (JStr accountId) (map JStr userIds))])%list
    /\ (forall response,
          axios env (request_config env "POST" "/accounts/users/add"
                       (users_body (JStr accountId) (map JStr userIds)))
          = Resolved response ->
          result_of (account_add_users env accountId userIds options) w = Return tt))
   /\ (sent (account_remove_users env accountId userIds options) w
       = (dispatched w
          ++ [request_config env "POST" "/accounts/users/remove"
                (users_body (JStr accountId) (map JStr userIds))])%list
       /\ (forall response,
             axios env (request_config env "POST" "/accounts/users/remove"
                          (users_body (JStr accountId) (map JStr userIds)))
             = Resolved response ->
             result_of (account_remove_users env accountId userIds options) w
             = Return tt)))
  /\ ((100 < List.length userIds)%nat ->
      account_add_users env accountId userIds options w
      = (Exit 1,
         after_lines w
           (if isConfigured env
            then [ErrorLine "✗ Maximum 100 users can be added at once"]
            else not_configured_lines))
      /\ account_remove_users env accountId userIds options w
         = (Exit 1,
            after_lines w
              (if isConfigured env
               then [ErrorLine "✗ Maximum 100 users can be removed at once"]
               else not_configured_lines)))
  /\ (has_credential env = true ->
      sent (addUsersToAccount env (JStr accountId) ids) w
      = (dispatched w
         ++ [request_config env "POST" "/accounts/users/add"
               (users_body (JStr accountId) ids)])%list
      /\ sent (removeUsersFromAccount env (JStr accountId) ids) w
         = (dispatched w
            ++ [request_config env "POST" "/accounts/users/remove"
                  (users_body (JStr accountId) ids)])%list).
Proof.
  split; [| split].
  - intros Hconf Hkey Hlen. split.
    + destruct (add_users_run env accountId userIds options w Hconf Hkey Hlen)
        as [outcome [lines [Hrun Hok]]].
      unfold sent, result_of. rewrite Hrun. split; [reflexivity | exact Hok].
    + destruct (remove_users_run env accountId userIds options w Hconf Hkey Hlen)
        as [outcome [lines [Hrun Hok]]].
      unfold sent, result_of. rewrite Hrun. split; [reflexivity | exact Hok].
  - intros Hlen. split.
    + apply add_users_rejected, Hlen.
    + apply remove_users_rejected, Hlen.
  - intros Hkey. split.
    + apply addUsersToAccount_any_length, Hkey.
    + apply removeUsersFromAccount_any_length, Hkey.
Qed.

Lemma users_bound_is_checked_by_the_caller_witness :
  sent (account_add_users (sample_env (JStr "key") accepting) "acme" (users 100) (JObj []))
    initial
  = [request_config (sample_env (JStr "key") accepting) "POST" "/accounts/users/add"
       (users_body (JStr "acme") (map JStr (users 100)))]
  /\ account_remove_users (sample_env (JStr "key") accepting) "acme" (users 101) (JObj [])
       initial
     = (Exit 1,
        after_lines initial [ErrorLine "✗ Maximum 100 users can be removed at once"])
  /\ sent (addUsersToAccount (sample_env (JStr "key") accepting) (JStr "acme")
             (map JStr (users 101))) initial
     = [request_config (sample_env (JStr "key") accepting) "POST" "/accounts/users/add"
          (users_body (JStr "acme") (map JStr (users 101)))].
Proof.
  split; [| split].
  - refine (proj1 (proj1 (proj1 (users_bound_is_checked_by_the_caller
                                   (sample_env (JStr "key") accepting) "acme" (users 100)
                                   (JObj []) [] initial) _ _ _))).
    + reflexivity.
    + reflexivity.
    + apply Nat.leb_le. reflexivity.
  - refine (proj2 (proj1 (proj2 (users_bound_is_checked_by_the_caller
                                   (sample_env (JStr "key") accepting) "acme" (users 101)
                                   (JObj []) [] initial)) _)).
    apply Nat.ltb_lt. reflexivity.
  - refine (proj1 (proj2 (proj2 (users_bound_is_checked_by_the_caller
                                   (sample_env (JStr "key") accepting) "acme" []
                                   (JObj []) (map JStr (users 101)) initial)) _)).
    reflexivity.
Defined.

(** ** Malformed JSON arguments *)

Lemma parseProperties_malformed env s w :
  s <> "" ->
  JSON_parse env s = None ->
  parseProperties env (JStr s) w = (Throw (Error parseProperties_message), w).
Proof.
  intros Hs Hparse. apply String.eqb_neq in Hs.
  unfold parseProperties. cbn [truthy ToString]. rewrite Hs, Hparse. reflexivity.
Qed.

Lemma user_upsert_malformed env userId options s w :
  get options "properties" = JStr s ->
  s <> "" ->
  JSON_parse env s = None ->
  user_upsert env userId options w
  = (Exit 1,
     after_lines w
       (if isConfigured env then [ErrorLine ("✗ " ++ parseProperties_message)]
        else not_configured_lines)).
Proof.
  intros Hopt Hs Hparse.
  unfold user_upsert, requireAuth, after_lines. rewrite Hopt.
  destruct (isConfigured env); cbn [negb].
  - unfold bind at 1. cbn [ret]. unfold try_catch at 1, bind at 1.
    rewrite (parseProperties_malformed env s w Hs Hparse). reflexivity.
  - cbn. rewrite <- !app_assoc. reflexivity.
Qed.

Lemma account_upsert_malformed env accountId options s w :
  get options "properties" = JStr s ->
  s <> "" ->
  JSON_parse env s = None ->
  account_upsert env accountId options w
  = (Exit 1,
     after_lines w
       (if isConfigured env then [ErrorLine ("✗ " ++ parseProperties_message)]
        else not_configured_lines)).
Proof.
  intros Hopt Hs Hparse.
  unfold account_upsert, requireAuth, after_lines. rewrite Hopt.
  destruct (isConfigured env); cbn [negb].
  - unfold bind at 1. cbn [ret]. unfold try_catch at 1, bind at 1.
    rewrite (parseProperties_malformed env s w Hs Hparse). reflexivity.
  - cbn. rewrite <- !app_assoc. reflexivity.
Qed.

Lemma event_track_malformed env eventName options s w :
  get options "metadata" = JStr s ->
  s <> "" ->
  JSON_parse env s = None ->
  event_track env eventName options w
  = (Exit 1,
     after_lines w
       (if negb (isConfigured env) then not_configured_lines
        else if negb (truthy (get options "userId"))
                && negb (truthy (get options "accountId"))
        then [ErrorLine "✗ Either --user-id or --account-id (or both) must be provided"]
        else [ErrorLine ("✗ " ++ parseProperties_message)])).
Proof.
  intros Hopt Hs Hparse.
  unfold event_track, requireAuth, after_lines. rewrite Hopt.
  destruct (isConfigured env); cbn [negb].
  - unfold bind at 1 2. cbn [ret].
    destruct (negb (truthy (get options "userId"))
              && negb (truthy (get options "accountId"))).
    + reflexivity.
    + unfold bind at 1. cbn [ret]. unfold try_catch at 1, bind at 1.
      rewrite (parseProperties_malformed env s _ Hs Hparse). reflexivity.
  - cbn. rewrite <- !app_assoc. reflexivity.
Qed.

(** C7, as amended: for every non-empty string given to --properties (or
    --metadata) that [JSON.parse] rejects, [parseProperties] throws the Error
    whose message shows the expected JSON, and the action ends the process
    with status 1 with nothing sent: the world after it has no new request
    and no spinner line, so the Mediator was not invoked. *)
Theorem malformed_json_is_rejected_locally env s id options w :
  s <> "" ->
  JSON_parse env s = None ->
  parseProperties env (JStr s) w = (Throw (Error parseProperties_message), w)
  /\ (get options "properties" = JStr s ->
      user_upsert env id options w
      = (Exit 1,
         after_lines w
           (if isConfigured env then [ErrorLine ("✗ " ++ parseProperties_message)]
            else not_configured_lines))
      /\ account_upsert env id options w
         = (Exit 1,
            after_lines w
              (if isConfigured env then [ErrorLine ("✗ " ++ parseProperties_message)]
               else not_configured_lines)))
  /\ (get options "metadata" = JStr s ->
      event_track env id options w
      = (Exit 1,
         after_lines w
           (if negb (isConfigured env) then not_configured_lines
            else if negb (truthy (get options "userId"))
                    && negb (truthy (get options "accountId"))
            then [ErrorLine "✗ Either --user-id or --account-id (or both) must be provided"]
            else [ErrorLine ("✗ " ++ parseProperties_message)]))).
Proof.
  intros Hs Hparse. split; [| split].
  - apply parseProperties_malformed; assumption.
  - intros Hopt. split.
    + apply (user_upsert_malformed env id options s w Hopt Hs Hparse).
    + apply (account_upsert_malformed env id options s w Hopt Hs Hparse).
  - intros Hopt. apply (event_track_malformed env id options s w Hopt Hs Hparse).
Qed.

Lemma malformed_json_is_rejected_locally_witness :
  user_upsert (sample_env (JStr "key") accepting) "u1"
    (JObj [("properties", JStr "{plan:Pro}")]) initial
  = (Exit 1, after_lines initial [ErrorLine ("✗ " ++ parseProperties_message)])
  /\ parseProperties (sample_env (JStr "key") accepting) (JStr "{plan:Pro}") initial
     = (Throw (Error parseProperties_message), initial).
Proof.
  split.
  - refine (proj1 (proj1 (proj2 (malformed_json_is_rejected_locally
                                   (sample_env (JStr "key") accepting) "{plan:Pro}" "u1"
                                   (JObj [("properties", JStr "{plan:Pro}")]) initial
                                   _ _)) _)).
    + discriminate.
    + reflexivity.
    + reflexivity.
  - refine (proj1 (malformed_json_is_rejected_locally
                     (sample_env (JStr "key") accepting) "{plan:Pro}" "u1"
                     (JObj []) initial _ _)).
    + discriminate.
    + reflexivity.
Defined.

(** C7 as stated fails at the empty string: [JSON.parse] rejects it, yet
    [parseProperties] returns [{}] for it without parsing, and the action goes
    on to the Mediator, which sends the request. *)
Lemma empty_properties_counterexample :
  JSON_parse (sample_env (JStr "key") accepting) "" = None
  /\ parseProperties (sample_env (JStr "key") accepting) (JStr "") initial
     = (Return (JObj []), initial)
  /\ user_upsert (sample_env (JStr "key") accepting) "u1" (JObj [("properties", JStr "")])
       initial
     = (Return tt,
        {| dispatched :=
             [{| req_method := "POST";
                 req_url := "https://api.journy.io/users/upsert";
                 req_headers :=
                   JObj [("X-Api-Key", JStr "key");
                         ("Content-Type", JStr "application/json")];
                 req_data :=
                   Some (JObj [("identification", JObj [("userId", JStr "u1")])]) |}];
           console :=
             [SpinnerStart "Upserting user u1..."; SpinnerStop;
              Log "✓ User u1 upserted successfully"; Log "Request ID: r-1"; Log ""] |}).
Proof. repeat split. Qed.

(** * Further properties of src/api.js *)

(** ** The request of every operation, in closed form *)

Lemma invoke_body env op w :
  invoke env op w
  = (if null_bag op then (Throw keys_of_null, w)
     else request env (verb (class_of op)) (path_of op) (body op) w).
Proof.
  destruct op; cbn [invoke null_bag bag_of class_of verb path_of body]; try reflexivity.
  all: unfold upsertUser, upsertAccount, trackEvent, bind, keys_of.
  all: match goal with |- context [default_arg ?bag _] => destruct bag end.
  all: cbn [default_arg Object_keys ret throw]; try reflexivity; same_body.
Qed.

Lemma invoke_run env op w :
  invoke env op w
  = (if null_bag op then (Throw keys_of_null, w)
     else if has_credential env then
       (settle (axios env (request_config env (verb (class_of op)) (path_of op) (body op))),
        record_request (request_config env (verb (class_of op)) (path_of op) (body op)) w)
     else (Throw missing_credential, w)).
Proof.
  rewrite invoke_body. destruct (null_bag op); [reflexivity |].
  destruct (has_credential env) eqn:Hkey.
  - apply request_with_credential, Hkey.
  - apply request_without_credential, Hkey.
Qed.

(** What is known of a request that an operation handed to axios. *)
Lemma dispatched_request env op w config :
  sent (invoke env op) w = (dispatched w ++ [config])%list ->
  null_bag op = false
  /\ has_credential env = true
  /\ config = request_config env (verb (class_of op)) (path_of op) (body op)
  /\ invoke env op w = (settle (axios env config), record_request config w).
Proof.
  unfold sent. rewrite invoke_run.
  destruct (null_bag op).
  { cbn. intros H. exfalso. exact (not_extended _ _ H). }
  destruct (has_credential env).
  2:{ cbn. intros H. exfalso. exact (not_extended _ _ H). }
  cbn. intros H. apply extended_by_same in H. subst config. repeat split.
Qed.

Lemma body_is_an_object op :
  class_of op <> Read -> exists props, body op = JObj props.
Proof.
  destruct op; cbn [class_of body]; intros Hclass; try congruence;
    unfold with_bag, with_optional, users_body;
    repeat match goal with
      | |- context [if ?b then _ else _] => destruct b
      end;
    cbn; eexists; reflexivity.
Qed.

(** ** What an operation returns and what it sends *)

(** X1: when axios resolves, every operation returns [response.data] as it
    is, whatever the status and the content of the answer. *)
Theorem resolved_payload_is_returned env op w config response :
  sent (invoke env op) w = (dispatched w ++ [config])%list ->
  axios env config = Resolved response ->
  result_of (invoke env op) w = Return (resp_data response).
Proof.
  intros Hsent Hresolved.
  destruct (dispatched_request env op w config Hsent) as [_ [_ [_ Hrun]]].
  unfold result_of. rewrite Hrun, Hresolved. reflexivity.
Qed.

Lemma resolved_payload_is_returned_witness :
  result_of (invoke (sample_env (JStr "key") accepting) GetAccountSegments) initial
  = Return (JObj [("meta", JObj [("requestId", JStr "r-1")])]).
Proof.
  exact (resolved_payload_is_returned (sample_env (JStr "key") accepting)
           GetAccountSegments initial
           (request_config (sample_env (JStr "key") accepting) "GET" "/segments/accounts"
              JUndefined)
           {| resp_status := 200;
              resp_data := JObj [("meta", JObj [("requestId", JStr "r-1")])] |}
           eq_refl eq_refl).
Defined.

(** X2: a rejection that is neither a message-bearing answer nor a 401 nor
    a 429 is thrown as [Request failed: ] followed by the message of the
    error axios raised: so it is when no answer arrived at all, and when the
    answer has another status and no truthy message. *)
Theorem other_rejections_are_request_failed env op w config error :
  sent (invoke env op) w = (dispatched w ++ [config])%list ->
  axios env config = Rejected error ->
  (err_response error = None ->
   result_of (invoke env op) w = Throw (render (RequestFailedError (err_message error))))
  /\ (forall response,
        err_response error = Some response ->
        truthy (get_opt (resp_data response) "message") = false ->
        resp_status response <> 401%Z ->
        resp_status response <> 429%Z ->
        result_of (invoke env op) w
        = Throw (render (RequestFailedError (err_message error)))).
Proof.
  intros Hsent Hrejected.
  destruct (dispatched_request env op w config Hsent) as [_ [_ [_ Hrun]]].
  unfold result_of. rewrite Hrun, Hrejected. cbn [fst settle].
  unfold rejection, classify, response_message, response_status_is.
  split.
  - intros Hnone. rewrite Hnone. reflexivity.
  - intros response Hsome Hmessage H401 H429. rewrite Hsome, Hmessage.
    apply Z.eqb_neq in H401. apply Z.eqb_neq in H429. rewrite H401, H429. reflexivity.
Qed.

(** A network that cannot be reached. *)
Lemma other_rejections_are_request_failed_witness :
  result_of
    (invoke (sample_env (JStr "key")
               (fun _ =>
                  Rejected {| err_message := "connect ECONNREFUSED";
                              err_response := None |}))
       ValidateApiKey) initial
  = Throw (render (RequestFailedError "connect ECONNREFUSED"))
  /\ result_of
       (invoke (sample_env (JStr "key") (refusing 500 (JStr "Internal Server Error")))
          ValidateApiKey) initial
     = Throw (render (RequestFailedError "Request failed with status code 500")).
Proof.
  split.
  - exact (proj1 (other_rejections_are_request_failed
                    (sample_env (JStr "key")
                       (fun _ =>
                          Rejected {| err_message := "connect ECONNREFUSED";
                                      err_response := None |}))
                    ValidateApiKey initial
                    (request_config (sample_env (JStr "key") accepting) "GET" "/validate"
                       JUndefined)
                    {| err_message := "connect ECONNREFUSED"; err_response := None |}
                    eq_refl eq_refl) eq_refl).
  - refine (proj2 (other_rejections_are_request_failed
                     (sample_env (JStr "key") (refusing 500 (JStr "Internal Server Error")))
                     ValidateApiKey initial
                     (request_config (sample_env (JStr "key") accepting) "GET" "/validate"
                        JUndefined)
                     {| err_message := "Request failed with status code 500";
                        err_response :=
                          Some {| resp_status := 500;
                                  resp_data := JStr "Internal Server Error" |} |}
                     eq_refl eq_refl)
              {| resp_status := 500; resp_data := JStr "Internal Server Error" |}
              eq_refl eq_refl _ _); discriminate.
Defined.

(** X3: every request that leaves carries exactly two headers, the
    Credential under X-Api-Key and the JSON content type, and the Credential
    it carries is never missing or empty. *)
Theorem request_carries_the_credential env op w config :
  sent (invoke env op) w = (dispatched w ++ [config])%list ->
  req_headers config
  = JObj [("X-Api-Key", getConfig env "apiKey");
          ("Content-Type", JStr "application/json")]
  /\ truthy (getConfig env "apiKey") = true.
Proof.
  intros Hsent.
  destruct (dispatched_request env op w config Hsent) as [_ [Hkey [Hconfig _]]].
  subst config. split; [reflexivity | exact Hkey].
Qed.

Lemma request_carries_the_credential_witness :
  req_headers
    (request_config (sample_env (JStr "secret") accepting) "POST" "/link"
       (body (LinkUserToAccount (JStr "u1") (JStr "acme"))))
  = JObj [("X-Api-Key", JStr "secret"); ("Content-Type", JStr "application/json")]
  /\ truthy (JStr "secret") = true.
Proof.
  exact (request_carries_the_credential (sample_env (JStr "secret") accepting)
           (LinkUserToAccount (JStr "u1") (JStr "acme")) initial
           (request_config (sample_env (JStr "secret") accepting) "POST" "/link"
              (body (LinkUserToAccount (JStr "u1") (JStr "acme"))))
           eq_refl).
Defined.

(** X4: a read sends no body at all, and every other operation sends a
    body that is an object. *)
Theorem reads_send_no_body env op w config :
  sent (invoke env op) w = (dispatched w ++ [config])%list ->
  (class_of op = Read -> req_data config = None)
  /\ (class_of op <> Read -> exists props, req_data config = Some (JObj props)).
Proof.
  intros Hsent.
  destruct (dispatched_request env op w config Hsent) as [_ [_ [Hconfig _]]].
  subst config. cbn [request_config req_data]. split.
  - intros Hread. destruct op; cbn in Hread; try discriminate; reflexivity.
  - intros Hclass. destruct (body_is_an_object op Hclass) as [props Hbody].
    rewrite Hbody. exists props. reflexivity.
Qed.

Lemma reads_send_no_body_witness :
  req_data
    (request_config (sample_env (JStr "key") accepting) "GET" "/events" JUndefined)
  = None.
Proof.
  exact (proj1 (reads_send_no_body (sample_env (JStr "key") accepting) GetEvents initial
                  (request_config (sample_env (JStr "key") accepting) "GET" "/events"
                     JUndefined)
                  eq_refl) eq_refl).
Defined.

(** ** Which arguments reach the body *)

(** X5: an optional identifying argument (email, domain, userId, accountId)
    is written into the body exactly when it is truthy, under its own key and
    with the value given; an empty string, [null] or 0 is dropped like an
    omitted argument. *)
Theorem identifying_argument_is_written_iff_truthy env op w config arg key :
  sent (invoke env op) w = (dispatched w ++ [config])%list ->
  In (arg, key) (identity_arguments op) ->
  own key (identity_place op (body_of config)) = if truthy arg then Some arg else None.
Proof.
  intros Hsent Hin.
  destruct (dispatched_request env op w config Hsent) as [_ [_ [Hconfig _]]].
  subst config. unfold body_of. cbn [request_config req_data].
  destruct op; cbn [identity_arguments] in Hin; split_membership;
    cbn [body identity_place].
  all: try (unfold with_bag;
            match goal with
            | |- context [has_own_keys ?b] => destruct (has_own_keys b)
            end).
  all: unfold with_optional;
    repeat match goal with
      | |- context [truthy ?x] =>
          is_var x; destruct (truthy x) eqn:?
      end;
    cbn; reflexivity.
Qed.

Lemma identifying_argument_is_written_iff_truthy_witness :
  own "email"
    (identity_place (DeleteUser (JStr "") (JStr "a@b.com"))
       (body_of
          (request_config (sample_env (JStr "key") accepting) "DELETE" "/users"
             (body (DeleteUser (JStr "") (JStr "a@b.com"))))))
  = Some (JStr "a@b.com")
  /\ own "userId"
       (identity_place (DeleteUser (JStr "") (JStr "a@b.com"))
          (body_of
             (request_config (sample_env (JStr "key") accepting) "DELETE" "/users"
                (body (DeleteUser (JStr "") (JStr "a@b.com"))))))
     = None.
Proof.
  split.
  - exact (identifying_argument_is_written_iff_truthy (sample_env (JStr "key") accepting)
             (DeleteUser (JStr "") (JStr "a@b.com")) initial
             (request_config (sample_env (JStr "key") accepting) "DELETE" "/users"
                (body (DeleteUser (JStr "") (JStr "a@b.com"))))
             (JStr "a@b.com") "email" eq_refl (or_intror (or_introl eq_refl))).
  - exact (identifying_argument_is_written_iff_truthy (sample_env (JStr "key") accepting)
             (DeleteUser (JStr "") (JStr "a@b.com")) initial
             (request_config (sample_env (JStr "key") accepting) "DELETE" "/users"
                (body (DeleteUser (JStr "") (JStr "a@b.com"))))
             (JStr "") "userId" eq_refl (or_introl eq_refl)).
Defined.

(** X6: properties (or metadata) are sent exactly when [Object.keys] of them
    is not empty, and then unchanged.  So an omitted bag, [{}], a number, a
    boolean, an empty string and an empty array leave no key, while a
    non-empty string or array is sent as it is. *)
Theorem bag_is_sent_iff_it_has_keys env op w config bag :
  sent (invoke env op) w = (dispatched w ++ [config])%list ->
  bag_of op = Some bag ->
  own (bag_key op) (body_of config)
  = if has_own_keys (default_arg bag (JObj []))
    then Some (default_arg bag (JObj []))
    else None.
Proof.
  intros Hsent Hbag.
  destruct (dispatched_request env op w config Hsent) as [_ [_ [Hconfig _]]].
  subst config. unfold body_of. cbn [request_config req_data].
  destruct op; cbn [bag_of] in Hbag; try discriminate;
    injection Hbag as <-; cbn [body bag_key]; unfold with_bag;
    destruct (has_own_keys _); unfold with_optional;
    repeat match goal with
      | |- context [truthy ?x] => is_var x; destruct (truthy x) eqn:?
      end;
    cbn; reflexivity.
Qed.

Lemma bag_is_sent_iff_it_has_keys_witness :
  own "properties"
    (body_of
       (request_config (sample_env (JStr "key") accepting) "POST" "/users/upsert"
          (body (UpsertUser (JStr "u1") JUndefined
                   (JNum {| num_mantissa := 5; num_exponent := 0 |})))))
  = None
  /\ own "metadata"
       (body_of
          (request_config (sample_env (JStr "key") accepting) "POST" "/track"
             (body (TrackEvent (JStr "paid") (JStr "u1") JUndefined
                      (JArr [JStr "a"])))))
     = Some (JArr [JStr "a"]).
Proof.
  split.
  - exact (bag_is_sent_iff_it_has_keys (sample_env (JStr "key") accepting)
             (UpsertUser (JStr "u1") JUndefined
                (JNum {| num_mantissa := 5; num_exponent := 0 |}))
             initial
             (request_config (sample_env (JStr "key") accepting) "POST" "/users/upsert"
                (body (UpsertUser (JStr "u1") JUndefined
                         (JNum {| num_mantissa := 5; num_exponent := 0 |}))))
             (JNum {| num_mantissa := 5; num_exponent := 0 |}) eq_refl eq_refl).
  - exact (bag_is_sent_iff_it_has_keys (sample_env (JStr "key") accepting)
             (TrackEvent (JStr "paid") (JStr "u1") JUndefined (JArr [JStr "a"]))
             initial
             (request_config (sample_env (JStr "key") accepting) "POST" "/track"
                (body (TrackEvent (JStr "paid") (JStr "u1") JUndefined
                         (JArr [JStr "a"]))))
             (JArr [JStr "a"]) eq_refl eq_refl).
Defined.

(** X7: the Mediator writes nothing and never ends the process: after any
    operation the console is as it was, and the operation has returned or
    thrown. *)
Theorem operations_neither_write_nor_exit env op w :
  console (snd (invoke env op w)) = console w
  /\ ((exists payload, result_of (invoke env op) w = Return payload)
      \/ (exists error, result_of (invoke env op) w = Throw error)).
Proof.
  unfold result_of. rewrite invoke_run.
  destruct (null_bag op); [split; [reflexivity | right; eexists; reflexivity] |].
  destruct (has_credential env); [| split; [reflexivity | right; eexists; reflexivity]].
  cbn [fst snd]. split; [reflexivity |].
  destruct (axios env _); cbn [settle]; [left | right]; eexists; reflexivity.
Qed.

(** * The table of the listing commands *)

(** ** Lengths in code units *)

Lemma js_length_app a b : js_length (a ++ b) = (js_length a + js_length b)%nat.
Proof. induction a as [| c a IH]; cbn; [reflexivity | rewrite IH; lia]. Qed.

Lemma js_length_spaces n : js_length (spaces n) = n.
Proof.
  unfold spaces. induction n as [| n IH]; [reflexivity |].
  cbn [repeat String.concat]. destruct n as [| n]; [reflexivity |].
  cbn [repeat] in *. rewrite !js_length_app, IH. reflexivity.
Qed.

Lemma js_length_padEnd s n : js_length (padEnd s n) = Nat.max n (js_length s).
Proof. unfold padEnd. rewrite js_length_app, js_length_spaces. lia. Qed.

Lemma js_length_bar n : js_length (js_repeat "─" n) = n.
Proof.
  unfold js_repeat. induction n as [| n IH]; [reflexivity |].
  cbn [repeat String.concat]. destruct n as [| n]; [reflexivity |].
  cbn [repeat] in *. rewrite !js_length_app, IH. reflexivity.
Qed.

Lemma unit_weight_byte z :
  (0 <= z < 256)%Z ->
  unit_weight (JSON.byte z)
  = if (z <? 128)%Z then 1%nat
    else if (z <? 192)%Z then 0%nat
    else if (z <? 240)%Z then 1%nat
    else 2%nat.
Proof.
  intros Hz. unfold unit_weight, JSON.byte.
  rewrite nat_ascii_embedding by lia.
  destruct (Z.ltb_spec z 128), (Z.ltb_spec z 192), (Z.ltb_spec z 240);
    repeat match goal with
      | |- context [(?a <? ?b)%nat] => destruct (Nat.ltb_spec a b)
      end; try reflexivity; lia.
Qed.

Lemma js_length_high_surrogate c rest : js_length (high_surrogate c rest) = 1%nat.
Proof.
  unfold high_surrogate.
  set (cp := (_ + _ + _ + _)%Z).
  assert (Hcp : (0 <= cp <= 2097151)%Z).
  { subst cp.
    pose proof (Z.mod_pos_bound (Z.of_nat (nat_of_ascii c)) 8 ltac:(lia)).
    pose proof (Z.mod_pos_bound (byte_at rest 0) 64 ltac:(lia)).
    pose proof (Z.mod_pos_bound (byte_at rest 1) 64 ltac:(lia)).
    pose proof (Z.mod_pos_bound (byte_at rest 2) 64 ltac:(lia)).
    lia. }
  set (hi := (55296 + (cp - 65536) / 1024)%Z).
  assert (Hhi : (55232 <= hi <= 57279)%Z).
  { subst hi.
    pose proof (Z.div_le_mono (-65536) (cp - 65536) 1024 ltac:(lia) ltac:(lia)).
    pose proof (Z.div_le_mono (cp - 65536) 2031615 1024 ltac:(lia) ltac:(lia)).
    change (-65536 / 1024)%Z with (-64)%Z in *.
    change (2031615 / 1024)%Z with 1983%Z in *. lia. }
  unfold JSON.utf8.
  destruct (Z.ltb_spec hi 128); [lia |].
  destruct (Z.ltb_spec hi 2048); [lia |].
  destruct (Z.ltb_spec hi 65536); [| lia].
  cbn [string_of_list_ascii js_length].
  assert (Hlead : (hi / 4096 = 13)%Z).
  { pose proof (Z.div_le_mono 53248 hi 4096 ltac:(lia) ltac:(lia)).
    pose proof (Z.div_le_mono hi 57343 4096 ltac:(lia) ltac:(lia)).
    change (53248 / 4096)%Z with 13%Z in *. change (57343 / 4096)%Z with 13%Z in *. lia. }
  pose proof (Z.mod_pos_bound (hi / 64) 64 ltac:(lia)).
  pose proof (Z.mod_pos_bound hi 64 ltac:(lia)).
  rewrite !unit_weight_byte by lia. rewrite Hlead.
  change (224 + 13 <? 128)%Z with false. change (224 + 13 <? 192)%Z with false.
  change (224 + 13 <? 240)%Z with true. cbn iota.
  destruct (Z.ltb_spec (128 + (hi / 64) mod 64) 128); [lia |].
  destruct (Z.ltb_spec (128 + (hi / 64) mod 64) 192); [| lia].
  destruct (Z.ltb_spec (128 + hi mod 64) 128); [lia |].
  destruct (Z.ltb_spec (128 + hi mod 64) 192); [| lia].
  reflexivity.
Qed.

Lemma unit_weight_cases c :
  unit_weight c = 0%nat \/ unit_weight c = 1%nat \/ unit_weight c = 2%nat.
Proof.
  unfold unit_weight.
  repeat match goal with
    | |- context [(?a <? ?b)%nat] => destruct (a <? b)%nat
    end; auto.
Qed.

(** [substring(0, n)] has [n] code units, or all of them if there are fewer. *)
Lemma js_length_take n s : js_length (js_take n s) = Nat.min n (js_length s).
Proof.
  revert n. induction s as [| c s IH]; intros n; cbn [js_take js_length].
  - lia.
  - destruct (unit_weight_cases c) as [Hw | [Hw | Hw]]; rewrite Hw.
    + cbn [js_length]. rewrite Hw, IH. lia.
    + destruct n as [| n]; cbn [js_length]; [lia |]. rewrite Hw, IH. lia.
    + destruct n as [| [| n]]; cbn [js_length]; [lia | |].
      * rewrite js_length_high_surrogate. lia.
      * rewrite Hw, IH. lia.
Qed.

Lemma js_length_join cells :
  js_length (String.concat "  " cells)
  = (list_sum (map js_length cells) + 2 * (List.length cells - 1))%nat.
Proof.
  induction cells as [| a cells IH]; [reflexivity |].
  cbn [String.concat]. destruct cells as [| b cells].
  - cbn. lia.
  - rewrite !js_length_app, IH. change (js_length "  ") with 2%nat.
    unfold list_sum. cbn [map fold_right List.length]. lia.
Qed.

(** ** The loops of [printTable] *)

Lemma member_of_value o k w :
  nullish o = false -> member o k w = (Return (get o k), w).
Proof. intros Ho. unfold member. rewrite Ho. reflexivity. Qed.

Lemma to_string_of_text v w :
  has_text v = true -> to_string v w = (Return (text_of v), w).
Proof.
  unfold has_text, text_of, to_string. destruct (ToString v); [reflexivity | discriminate].
Qed.

Lemma to_string_without_text v w :
  has_text v = false -> to_string v w = (Throw not_primitive, w).
Proof.
  unfold has_text, to_string. destruct (ToString v); [discriminate | reflexivity].
Qed.

Lemma cell_of_value col row w :
  nullish row = false ->
  has_text (cell_value col row) = true ->
  cell col row w = (Return (cell_text col row), w).
Proof.
  intros Hrow Htext. unfold cell, bind. rewrite (member_of_value row _ w Hrow).
  apply to_string_of_text, Htext.
Qed.

Lemma plain_object_is_value row : plain_object row = true -> nullish row = false.
Proof. destruct row; (reflexivity || discriminate). Qed.

Lemma printable_cell columns row col :
  printable columns row = true -> In col columns -> has_text (cell_value col row) = true.
Proof.
  unfold printable. rewrite forallb_forall. intros Hall Hin. apply Hall, Hin.
Qed.

Lemma map_m_pure {A B} (f : A -> M B) (g : A -> B) l w :
  (forall x w', In x l -> f x w' = (Return (g x), w')) ->
  map_m f l w = (Return (map g l), w).
Proof.
  induction l as [| x l IH]; intros Hf; [reflexivity |].
  cbn [map_m map]. unfold bind at 1. rewrite (Hf x w (or_introl eq_refl)).
  unfold bind at 1. rewrite IH; [reflexivity |].
  intros y w' Hy. apply Hf. right. exact Hy.
Qed.

Lemma fold_m_pure {A S} (f : S -> A -> M S) (g : S -> A -> S) l s w :
  (forall s' x w', In x l -> f s' x w' = (Return (g s' x), w')) ->
  fold_m f l s w = (Return (fold_left g l s), w).
Proof.
  revert s. induction l as [| x l IH]; intros s Hf; [reflexivity |].
  cbn [fold_m fold_left]. unfold bind at 1. rewrite (Hf s x w (or_introl eq_refl)).
  apply IH. intros s' y w' Hy. apply Hf. right. exact Hy.
Qed.

Lemma for_each_lines {A} (f : A -> M unit) (g : A -> Output) l w :
  (forall x w', In x l -> f x w' = (Return tt, after_lines w' [g x])) ->
  for_each f l w = (Return tt, after_lines w (map g l)).
Proof.
  revert w. induction l as [| x l IH]; intros w Hf.
  - cbn. unfold ret, after_lines. rewrite app_nil_r. destruct w; reflexivity.
  - cbn [for_each map]. unfold bind at 1. rewrite (Hf x w (or_introl eq_refl)).
    rewrite IH.
    + unfold after_lines. cbn. rewrite <- app_assoc. reflexivity.
    + intros y w' Hy. apply Hf. right. exact Hy.
Qed.

(** ** The widths *)

Lemma widths_get_set_same key n widths : widths_get key (widths_set key n widths) = n.
Proof.
  induction widths as [| [k m] widths IH]; cbn.
  - now rewrite String.eqb_refl.
  - destruct (key =? k) eqn:Hk; cbn; rewrite ?String.eqb_refl, ?Hk; auto.
Qed.

Lemma widths_get_set_other key key' n widths :
  key' <> key -> widths_get key' (widths_set key n widths) = widths_get key' widths.
Proof.
  intros Hne. apply String.eqb_neq in Hne.
  induction widths as [| [k m] widths IH]; cbn.
  - now rewrite Hne.
  - destruct (key =? k) eqn:Hk; cbn.
    + apply String.eqb_eq in Hk. subst k. now rewrite Hne.
    + destruct (key' =? k); auto.
Qed.

Lemma widen_all_same col rows widths :
  widths_get (col_key col) (fold_left (widen col) rows widths)
  = fold_left (fun width row => Nat.max width (js_length (cell_text col row))) rows
      (widths_get (col_key col) widths).
Proof.
  revert widths. induction rows as [| row rows IH]; intros widths; [reflexivity |].
  cbn [fold_left]. rewrite IH. f_equal. unfold widen.
  destruct (Nat.ltb_spec (widths_get (col_key col) widths)
              (js_length (cell_text col row))).
  - rewrite widths_get_set_same. lia.
  - lia.
Qed.

Lemma widen_all_other col rows widths key :
  key <> col_key col ->
  widths_get key (fold_left (widen col) rows widths) = widths_get key widths.
Proof.
  intros Hne. revert widths. induction rows as [| row rows IH]; intros widths;
    [reflexivity |].
  cbn [fold_left]. rewrite IH. unfold widen.
  destruct (_ <? _)%nat; [apply widths_get_set_other, Hne | reflexivity].
Qed.

Lemma measure_of_values data widths col w :
  Forall (fun row => nullish row = false) data ->
  Forall (fun row => has_text (cell_value col row) = true) data ->
  measure data widths col w = (Return (measured data widths col), w).
Proof.
  intros Hrows Htexts. unfold measure, measured. unfold bind at 1.
  rewrite (fold_m_pure _ (widen col)); [reflexivity |].
  intros s row w' Hin. unfold bind.
  rewrite Forall_forall in Hrows, Htexts.
  rewrite cell_of_value; [reflexivity | apply Hrows, Hin | apply Htexts, Hin].
Qed.

Lemma measured_same data widths col :
  widths_get (col_key col) (measured data widths col) = width_of data col.
Proof.
  unfold measured, width_of. rewrite widths_get_set_same, widen_all_same,
    widths_get_set_same. reflexivity.
Qed.

Lemma measured_other data widths col key :
  key <> col_key col ->
  widths_get key (measured data widths col) = widths_get key widths.
Proof.
  intros Hne. unfold measured.
  rewrite widths_get_set_other, widen_all_other, widths_get_set_other by exact Hne.
  reflexivity.
Qed.

Lemma measured_all data columns widths col :
  NoDup (map col_key columns) ->
  In col columns ->
  widths_get (col_key col) (fold_left (measured data) columns widths) = width_of data col.
Proof.
  revert widths. induction columns as [| c columns IH]; intros widths Hnodup Hin;
    [destruct Hin |].
  cbn [fold_left]. cbn [map] in Hnodup. inversion Hnodup as [| k ks Hnotin Hnodup']; subst.
  destruct Hin as [-> | Hin].
  - clear IH. revert widths.
    assert (Hkeep : forall cs ws,
               ~ In (col_key col) (map col_key cs) ->
               widths_get (col_key col) (fold_left (measured data) cs ws)
               = widths_get (col_key col) ws).
    { induction cs as [| c' cs IHcs]; intros ws Hno; [reflexivity |].
      cbn [fold_left]. rewrite IHcs.
      - apply measured_other. intros Heq. apply Hno. left. now symmetry.
      - intros Hc. apply Hno. right. exact Hc. }
    intros widths. rewrite Hkeep by exact Hnotin. apply measured_same.
  - apply IH; assumption.
Qed.

(** ** What [printTable] prints *)

Lemma printTable_of_values data columns w :
  data <> [] ->
  Forall (fun row => nullish row = false) data ->
  Forall (fun row => printable columns row = true) data ->
  NoDup (map col_key columns) ->
  printTable data columns w = (Return tt, after_lines w (table_lines data columns)).
Proof.
  intros Hdata Hrows Htexts Hkeys. unfold printTable.
  destruct data as [| row0 data0] eqn:Edata; [congruence |].
  rewrite <- Edata in *. replace (List.length data =? 0)%nat with false
    by (rewrite Edata; reflexivity).
  assert (Htext : forall row col,
             In row data -> In col columns -> has_text (cell_value col row) = true).
  { intros row col Hrow Hcol. rewrite Forall_forall in Htexts.
    exact (printable_cell columns row col (Htexts row Hrow) Hcol). }
  unfold bind at 1.
  rewrite (fold_m_pure _ (measured data)).
  2:{ intros widths' col w' Hcol. apply measure_of_values; [exact Hrows |].
      apply Forall_forall. intros row Hrow. apply Htext; assumption. }
  set (widths := fold_left (measured data) columns []).
  assert (Hwidth : forall col, In col columns ->
                               widths_get (col_key col) widths = width_of data col).
  { intros col Hin. apply measured_all; assumption. }
  replace (String.concat "  "
             (map (fun col => padEnd (col_label col) (widths_get (col_key col) widths))
                columns))
    with (header_line data columns).
  2:{ unfold header_line. f_equal. apply map_ext_in. intros col Hin.
      now rewrite Hwidth. }
  unfold bind at 1. cbn [emit]. unfold bind at 1. cbn [emit]. unfold bind at 1.
  rewrite (for_each_lines _ (fun row => Log (row_line data columns row))).
  - unfold after_lines, table_lines, emit. cbn [dispatched console].
    rewrite <- !app_assoc. reflexivity.
  - intros row w' Hin. unfold bind at 1.
    rewrite (map_m_pure _ (fun col =>
                             padEnd (js_take (width_of data col) (cell_text col row))
                               (width_of data col))).
    + reflexivity.
    + intros col w'' Hcol. unfold bind. rewrite cell_of_value.
      * now rewrite (Hwidth col Hcol).
      * rewrite Forall_forall in Hrows. apply Hrows, Hin.
      * apply Htext; assumption.
Qed.

Lemma fold_max_ge (f : value -> nat) rows start :
  (start <= fold_left (fun width row => Nat.max width (f row)) rows start)%nat.
Proof.
  revert start. induction rows as [| row rows IH]; intros start; cbn; [lia |].
  specialize (IH (Nat.max start (f row))). lia.
Qed.

Lemma width_of_bounds data col :
  (width_of data col <= 50)%nat
  /\ (js_length (col_label col) <= 50 -> js_length (col_label col) <= width_of data col)%nat.
Proof.
  unfold width_of.
  pose proof (fold_max_ge (fun row => js_length (cell_text col row)) data
                (js_length (col_label col))).
  lia.
Qed.

Lemma header_line_width data columns :
  Forall (fun col => js_length (col_label col) <= 50)%nat columns ->
  js_length (header_line data columns) = table_width data columns.
Proof.
  intros Hlabels. unfold header_line, table_width.
  rewrite js_length_join, length_map, map_map. f_equal. f_equal.
  apply map_ext_in. intros col Hin. rewrite js_length_padEnd.
  rewrite Forall_forall in Hlabels. specialize (Hlabels col Hin).
  destruct (width_of_bounds data col) as [_ Hge]. specialize (Hge Hlabels). lia.
Qed.

Lemma row_line_width data columns row :
  js_length (row_line data columns row) = table_width data columns.
Proof.
  unfold row_line, table_width.
  rewrite js_length_join, length_map, map_map. f_equal. f_equal.
  apply map_ext. intros col. rewrite js_length_padEnd, js_length_take. lia.
Qed.

(** The tables of the listing commands meet what [printTable] asks for. *)
Lemma listing_columns_distinct l : NoDup (map col_key (listing_columns l)).
Proof.
  destruct l; cbn; repeat constructor; cbn; intuition discriminate.
Qed.

Lemma listing_columns_are_own l :
  Forall (fun col => inherited (col_key col) = false) (listing_columns l).
Proof. destruct l; repeat constructor. Qed.

Lemma listing_rows_are_objects l items :
  Forall (fun row => plain_object row = true) (map (listing_row l) items).
Proof.
  apply Forall_forall. intros row Hin. apply in_map_iff in Hin.
  destruct Hin as [item [<- _]]. destruct l; reflexivity.
Qed.

Lemma listing_rows_are_values l items :
  Forall (fun row => nullish row = false) (map (listing_row l) items).
Proof.
  apply Forall_forall. intros row Hin. apply in_map_iff in Hin.
  destruct Hin as [item [<- _]]. destruct l; reflexivity.
Qed.

Lemma has_text_or_empty v :
  has_text v = true -> has_text (if nullish v then JStr "" else v) = true.
Proof. intros Hv. destruct (nullish v); [reflexivity | exact Hv]. Qed.

Lemma has_text_or_NA v : has_text v = true -> has_text (or_NA v) = true.
Proof. intros Hv. unfold or_NA. destruct (truthy v); [exact Hv | reflexivity]. Qed.

Lemma listing_row_printable l item :
  listable l item = true -> printable (listing_columns l) (listing_row l item) = true.
Proof.
  unfold listable, printable.
  destruct l; cbn [listing_fields listing_columns listing_row forallb];
    rewrite !andb_true_r; intros Hfields; apply andb_prop in Hfields;
    destruct Hfields as [Hfirst Hsecond];
    unfold cell_value, column; cbn [col_format col_key get lookup String.eqb Ascii.eqb
                                      Bool.eqb];
    apply andb_true_intro; split.
  all: first [apply has_text_or_empty; assumption
             | apply has_text_or_empty, has_text_or_NA; assumption].
Qed.

Lemma listing_rows_printable l items :
  Forall (fun item => listable l item = true) items ->
  Forall (fun row => printable (listing_columns l) row = true) (map (listing_row l) items).
Proof.
  intros Hitems. apply Forall_forall. intros row Hin. apply in_map_iff in Hin.
  destruct Hin as [item [<- Hitem]]. apply listing_row_printable.
  rewrite Forall_forall in Hitems. apply Hitems, Hitem.
Qed.

Lemma two_events_are_listable :
  Forall (fun item => listable Events item = true) two_events.
Proof. repeat constructor. Qed.

Lemma table_width_bound data columns :
  (table_width data columns
   <= 50 * List.length columns + 2 * (List.length columns - 1))%nat.
Proof.
  unfold table_width. apply Nat.add_le_mono_r.
  induction columns as [| col columns IH]; [cbn; lia |].
  destruct (width_of_bounds data col) as [Hle _].
  change (list_sum (map (width_of data) (col :: columns)))
    with (width_of data col + list_sum (map (width_of data) columns))%nat.
  change (List.length (col :: columns)) with (S (List.length columns)). lia.
Qed.

(** X8: given rows that are plain objects, columns with distinct keys none
    of which names a property of [Object.prototype], and cells that all have
    a string form, [printTable] writes the header, a rule, one line for each
    row in the order of the rows, and the count of the rows, and returns: as
    many lines as rows and three more.  Each cell shows the first code units
    of its text, as many as the column is wide. *)
Theorem table_has_a_line_for_each_row data columns w :
  data <> [] ->
  Forall (fun row => plain_object row = true) data ->
  Forall (fun col => inherited (col_key col) = false) columns ->
  NoDup (map col_key columns) ->
  Forall (fun row => printable columns row = true) data ->
  printTable data columns w
  = (Return tt,
     after_lines w
       (Log (header_line data columns)
        :: Log (js_repeat "─" (js_length (header_line data columns)))
        :: map (fun row => Log (row_line data columns row)) data
        ++ [Log (nl ++ string_of_nat (List.length data) ++ " result(s)")]))
  /\ List.length (table_lines data columns) = (List.length data + 3)%nat.
Proof.
  intros Hdata Hrows _ Hkeys Htexts. split.
  - apply printTable_of_values; try assumption.
    apply (Forall_impl _ plain_object_is_value Hrows).
  - unfold table_lines. cbn [List.length]. rewrite length_app, length_map. cbn. lia.
Qed.

Lemma table_has_a_line_for_each_row_witness :
  printTable (map (listing_row Events) two_events) (listing_columns Events) initial
  = (Return tt,
     after_lines initial
       [Log "Event Name  Group";
        Log "─────────────────";
        Log "signed_in   auth ";
        Log "paid        N/A  ";
        Log (nl ++ "2 result(s)")])
  /\ List.length
       (table_lines (map (listing_row Events) two_events) (listing_columns Events))
     = 5%nat.
Proof.
  exact (table_has_a_line_for_each_row (map (listing_row Events) two_events)
           (listing_columns Events) initial
           ltac:(discriminate)
           (listing_rows_are_objects Events two_events)
           (listing_columns_are_own Events)
           (listing_columns_distinct Events)
           (listing_rows_printable Events two_events two_events_are_listable)).
Defined.


(** X9: the lines [printTable] writes are aligned.  Given rows that are
    plain objects, columns with distinct keys none of which names a property
    of [Object.prototype], cells that all have a string form and labels of at
    most 50 code units, [printTable] writes the header, the rule and one line
    for each row, all of the same length in code units, which is at most 50
    for each column and two spaces between columns, and then the count. *)
Theorem table_is_aligned data columns w :
  data <> [] ->
  Forall (fun row => plain_object row = true) data ->
  Forall (fun col => inherited (col_key col) = false) columns ->
  NoDup (map col_key columns) ->
  Forall (fun row => printable columns row = true) data ->
  Forall (fun col => js_length (col_label col) <= 50)%nat columns ->
  exists lines count width,
    printTable data columns w
    = (Return tt, after_lines w (map Log lines ++ [Log count]))
    /\ List.length lines = (List.length data + 2)%nat
    /\ Forall (fun line => js_length line = width) lines
    /\ (width <= 50 * List.length columns + 2 * (List.length columns - 1))%nat.
Proof.
  intros Hdata Hrows _ Hkeys Htexts Hlabels.
  exists (header_line data columns
          :: js_repeat "─" (js_length (header_line data columns))
          :: map (row_line data columns) data),
    (nl ++ string_of_nat (List.length data) ++ " result(s)"),
    (table_width data columns).
  split; [| split; [| split]].
  - rewrite printTable_of_values; try assumption.
    + unfold table_lines. cbn [map]. rewrite map_map. reflexivity.
    + apply (Forall_impl _ plain_object_is_value Hrows).
  - cbn [List.length]. rewrite length_map. lia.
  - repeat constructor.
    + apply header_line_width, Hlabels.
    + rewrite js_length_bar. apply header_line_width, Hlabels.
    + apply Forall_forall. intros line Hin. apply in_map_iff in Hin.
      destruct Hin as [row [<- _]]. apply row_line_width.
  - apply table_width_bound.
Qed.

Lemma table_is_aligned_witness :
  exists lines count width,
    printTable (map (listing_row Events) two_events) (listing_columns Events) initial
    = (Return tt, after_lines initial (map Log lines ++ [Log count]))
    /\ List.length lines = 4%nat
    /\ Forall (fun line => js_length line = width) lines
    /\ (width <= 102)%nat.
Proof.
  refine (table_is_aligned (map (listing_row Events) two_events) (listing_columns Events)
            initial
            ltac:(discriminate)
            (listing_rows_are_objects Events two_events)
            (listing_columns_are_own Events)
            (listing_columns_distinct Events)
            (listing_rows_printable Events two_events two_events_are_listable) _).
  repeat constructor; apply Nat.leb_le; reflexivity.
Defined.


(** ** The listing commands *)

(** A listing whose request was accepted: what is left to do is to show the
    answer. *)
Lemma listing_answered env l options w response :
  isConfigured env = true ->
  has_credential env = true ->
  axios env (listing_request env l) = Resolved response ->
  run_listing env l options w
  = try_catch
      (if truthy (get options "json") then printJson (resp_data response)
       else show_listing l (resp_data response))
      fail (answered env l w).
Proof.
  intros Hconf Hkey Hresolved. unfold listing_request, answered in *.
  destruct l; cbn [run_listing listing_operation path_of listing_spinner] in *;
    unfold event_list, properties_users, properties_accounts, segments_users,
      segments_accounts, requireAuth;
    rewrite Hconf; cbn [negb];
    unfold bind at 1; cbn [ret];
    unfold try_catch at 1, bind at 1, withSpinner, bind at 1, emit at 1, try_catch at 1,
      bind at 1, getEvents, getUserProperties, getAccountProperties, getUserSegments,
      getAccountSegments;
    rewrite request_with_credential by exact Hkey;
    rewrite Hresolved; cbn [settle];
    unfold bind at 1, emit at 1, ret at 1, record_request;
    cbn [dispatched console]; rewrite <- app_assoc; reflexivity.
Qed.

Lemma listing_callback_of_value l item w :
  nullish item = false ->
  listing_callback l item w = (Return (listing_row l item), w).
Proof.
  intros Hitem.
  destruct l; cbn [listing_callback listing_row]; unfold bind;
    rewrite !(member_of_value item _ w Hitem); reflexivity.
Qed.

Lemma show_listing_table l data items w :
  get data "data" = JArr items ->
  items <> [] ->
  Forall (fun item => nullish item = false) items ->
  Forall (fun item => listable l item = true) items ->
  show_listing l data w
  = (Return tt,
     after_lines w
       (Log (listing_title l)
        :: table_lines (map (listing_row l) items) (listing_columns l))).
Proof.
  intros Hdata Hitems Hvalues Htexts.
  assert (Hpayload : nullish data = false).
  { destruct data; try reflexivity; discriminate. }
  unfold show_listing. unfold bind at 1.
  rewrite (member_of_value data _ w Hpayload), Hdata.
  replace (negb (truthy (JArr items)) || is_zero (length_of (JArr items))) with false.
  2:{ destruct items; [congruence | reflexivity]. }
  unfold bind at 1, emit at 1. unfold bind at 1. cbn [data_map].
  rewrite (map_m_pure _ (listing_row l)).
  2:{ intros item w' Hin. apply listing_callback_of_value.
      rewrite Forall_forall in Hvalues. apply Hvalues, Hin. }
  rewrite printTable_of_values.
  - unfold after_lines. cbn [dispatched console]. rewrite <- app_assoc. reflexivity.
  - destruct items; [congruence | discriminate].
  - apply listing_rows_are_values.
  - apply listing_rows_printable, Htexts.
  - apply listing_columns_distinct.
Qed.

(** * The actions as a whole *)

(** ** Every action has the common shape *)

Lemma command_has_the_shape env command :
  exists refusal json spinner op message,
    forall w,
      run_command env command w
      = perform env (command_options command) refusal json spinner op
          (show_success message (prints_request_id command)) w.
Proof.
  destruct command; cbn [run_command command_options prints_request_id].
  - exists None, (Some (get options "properties")),
      ("Upserting user " ++ userId ++ "..."),
      (fun properties => UpsertUser (JStr userId) (get options "email") properties),
      ("User " ++ userId ++ " upserted successfully").
    reflexivity.
  - exists None, None, ("Deleting user " ++ userId ++ "..."),
      (fun _ => DeleteUser (JStr userId) (get options "email")),
      ("User " ++ userId ++ " deleted successfully").
    reflexivity.
  - exists None, (Some (get options "properties")),
      ("Upserting account " ++ accountId ++ "..."),
      (fun properties => UpsertAccount (JStr accountId) (get options "domain") properties),
      ("Account " ++ accountId ++ " upserted successfully").
    reflexivity.
  - exists None, None, ("Deleting account " ++ accountId ++ "..."),
      (fun _ => DeleteAccount (JStr accountId) (get options "domain")),
      ("Account " ++ accountId ++ " deleted successfully").
    reflexivity.
  - exists (if (100 <? List.length userIds)%nat
            then Some "Maximum 100 users can be added at once" else None),
      None,
      ("Adding " ++ string_of_nat (List.length userIds) ++ " user(s) to account "
       ++ accountId ++ "..."),
      (fun _ => AddUsersToAccount (JStr accountId) (map JStr userIds)),
      ("Added " ++ string_of_nat (List.length userIds) ++ " user(s) to account "
       ++ accountId).
    intros w. unfold account_add_users, perform.
    destruct (100 <? List.length userIds)%nat; reflexivity.
  - exists (if (100 <? List.length userIds)%nat
            then Some "Maximum 100 users can be removed at once" else None),
      None,
      ("Removing " ++ string_of_nat (List.length userIds) ++ " user(s) from account "
       ++ accountId ++ "..."),
      (fun _ => RemoveUsersFromAccount (JStr accountId) (map JStr userIds)),
      ("Removed " ++ string_of_nat (List.length userIds) ++ " user(s) from account "
       ++ accountId).
    intros w. unfold account_remove_users, perform.
    destruct (100 <? List.length userIds)%nat; reflexivity.
  - exists (if negb (truthy (get options "userId"))
               && negb (truthy (get options "accountId"))
            then Some "Either --user-id or --account-id (or both) must be provided"
            else None),
      (Some (get options "metadata")),
      ("Tracking event " ++ dq ++ eventName ++ dq ++ "..."),
      (fun metadata =>
         TrackEvent (JStr eventName) (get options "userId") (get options "accountId")
           metadata),
      ("Event " ++ dq ++ eventName ++ dq ++ " tracked successfully").
    intros w. unfold event_track, perform.
    destruct (negb (truthy (get options "userId"))
              && negb (truthy (get options "accountId"))); reflexivity.
  - exists None, None,
      ("Linking user " ++ userId ++ " to account " ++ accountId ++ "..."),
      (fun _ => LinkUserToAccount (JStr userId) (JStr accountId)),
      ("User " ++ userId ++ " linked to account " ++ accountId).
    reflexivity.
  - exists None, None, "Validating API key...", (fun _ => ValidateApiKey),
      "API key is valid".
    reflexivity.
Qed.

Lemma listing_has_the_shape env l options w :
  run_listing env l options w
  = perform env options None None (listing_spinner l) (fun _ => listing_operation l)
      (show_listing l) w.
Proof. destruct l; reflexivity. Qed.

(** ** The common shape, step by step *)

Lemma parse_stage env json w :
  match json with
  | Some text => parseProperties env text
  | None => ret JUndefined
  end w
  = match parsed env json with
    | Some properties => (Return properties, w)
    | None => (Throw (Error parseProperties_message), w)
    end.
Proof.
  destruct json as [text |]; cbn [parsed]; [| reflexivity].
  unfold parseProperties. destruct (negb (truthy text)); [reflexivity |].
  destruct (ToString text) as [s |]; [| reflexivity].
  destruct (JSON_parse env s); reflexivity.
Qed.

Lemma perform_steps env options refusal json spinner op show w :
  perform env options refusal json spinner op show w
  = if isConfigured env then
      match refusal with
      | Some message => (Exit 1, after_lines w [ErrorLine ("✗ " ++ message)])
      | None =>
          match parsed env json with
          | None => (Exit 1, after_lines w [ErrorLine ("✗ " ++ parseProperties_message)])
          | Some properties => finish env options spinner (op properties) show w
          end
      end
    else (Exit 1, after_lines w not_configured_lines).
Proof.
  unfold perform, requireAuth.
  destruct (isConfigured env); cbn [negb].
  2:{ cbn. unfold after_lines. rewrite <- !app_assoc. reflexivity. }
  unfold bind at 1. cbn [ret].
  destruct refusal as [message |]; [reflexivity |].
  unfold bind at 1. cbn [ret]. unfold try_catch at 1, bind at 1.
  rewrite parse_stage. destruct (parsed env json) as [properties |]; reflexivity.
Qed.

Lemma finish_steps env options spinner operation show w :
  finish env options spinner operation show w
  = if null_bag operation then
      (Exit 1,
       after_lines w
         [SpinnerStart spinner; SpinnerStop; ErrorLine ("✗ " ++ err_message keys_of_null)])
    else if has_credential env then
      match axios env (request_of env operation) with
      | Resolved response =>
          try_catch
            (if truthy (get options "json") then printJson (resp_data response)
             else show (resp_data response))
            fail (settled (request_of env operation) spinner w)
      | Rejected error =>
          (Exit 1,
           after_lines (settled (request_of env operation) spinner w)
             [ErrorLine ("✗ " ++ err_message (rejection error))])
      end
    else
      (Exit 1,
       after_lines w
         [SpinnerStart spinner; SpinnerStop;
          ErrorLine ("✗ " ++ err_message missing_credential)]).
Proof.
  unfold finish, try_catch at 1, bind at 1, withSpinner, bind at 1, emit at 1,
    try_catch at 1, bind at 1.
  rewrite invoke_run. fold (request_of env operation).
  destruct (null_bag operation).
  { cbn. unfold after_lines. cbn. rewrite <- !app_assoc. reflexivity. }
  destruct (has_credential env).
  2:{ cbn. unfold after_lines. cbn. rewrite <- !app_assoc. reflexivity. }
  destruct (axios env (request_of env operation)) as [response | error]; cbn [settle].
  - unfold bind at 1, emit at 1, ret at 1, record_request, settled.
    cbn [dispatched console]. rewrite <- !app_assoc. reflexivity.
  - cbn. unfold after_lines, settled. cbn. rewrite <- !app_assoc. reflexivity.
Qed.

(** ** What showing the answer may do *)

Lemma quiet_map_m {A B} (f : A -> M B) l : (forall x, quiet (f x)) -> quiet (map_m f l).
Proof. intros Hf. induction l; cbn [map_m]; auto with local_failure. Qed.

Lemma quiet_fold_m {A S} (f : S -> A -> M S) l s :
  (forall s' x, quiet (f s' x)) -> quiet (fold_m f l s).
Proof. intros Hf. revert s. induction l; intros s; cbn [fold_m]; auto with local_failure. Qed.

Lemma quiet_for_each {A} (f : A -> M unit) l : (forall x, quiet (f x)) -> quiet (for_each f l).
Proof. intros Hf. induction l; cbn [for_each]; auto with local_failure. Qed.

Lemma quiet_cell col row : quiet (cell col row).
Proof. unfold cell. auto with local_failure. Qed.

Lemma quiet_printTable data columns : quiet (printTable data columns).
Proof.
  unfold printTable, measure.
  pose proof quiet_cell.
  auto 10 using quiet_fold_m, quiet_for_each, quiet_map_m with local_failure.
Qed.

Lemma quiet_show_listing l data : quiet (show_listing l data).
Proof.
  unfold show_listing. apply quiet_bind; [apply quiet_member |]. intros items.
  apply quiet_if; [apply quiet_emit |].
  apply quiet_bind; [apply quiet_emit |]. intros _.
  apply quiet_bind; [| intros; apply quiet_printTable].
  destruct items; cbn [data_map]; try apply quiet_throw.
  apply quiet_map_m. intros item.
  destruct l; cbn [listing_callback]; auto with local_failure.
Qed.

Lemma quiet_show_success message request_id data :
  quiet (show_success message request_id data).
Proof.
  unfold show_success. autounfold with local_failure. auto 10 with local_failure.
Qed.

(** An action in the common shape, with the promise that showing the answer
    hands nothing to axios. *)
Lemma run_is_performed env i :
  exists refusal json spinner op show,
    (forall w, run env i w = perform env (options_of i) refusal json spinner op show w)
    /\ (forall data, quiet (show data)).
Proof.
  destruct i as [command | l options]; cbn [run options_of].
  - destruct (command_has_the_shape env command)
      as [refusal [json [spinner [op [message Hshape]]]]].
    exists refusal, json, spinner, op, (show_success message (prints_request_id command)).
    split; [exact Hshape | intros; apply quiet_show_success].
  - exists None, None, (listing_spinner l), (fun _ => listing_operation l), (show_listing l).
    split; [intros; apply listing_has_the_shape | intros; apply quiet_show_listing].
Qed.

(** The answer shown after the request settled: nothing more is sent, and
    the action returns or ends with status 1. *)
Lemma shown options (show : value -> M unit) data w :
  (forall data, quiet (show data)) ->
  dispatched
    (snd (try_catch (if truthy (get options "json") then printJson data else show data)
            fail w))
  = dispatched w
  /\ (fst (try_catch (if truthy (get options "json") then printJson data else show data)
             fail w) = Return tt
      \/ fst (try_catch (if truthy (get options "json") then printJson data else show data)
                fail w) = Exit 1).
Proof.
  intros Hshow.
  assert (Hquiet : quiet (if truthy (get options "json") then printJson data
                          else show data)).
  { apply quiet_if; [apply quiet_emit | apply Hshow]. }
  specialize (Hquiet w). unfold try_catch.
  destruct ((if truthy (get options "json") then printJson data else show data) w)
    as [[[] | e | code] w']; cbn in *; destruct Hquiet as [Hsent Hcode].
  - auto.
  - auto.
  - subst code. auto.
Qed.

(** An action in the common shape that handed a request to axios: it was
    neither stopped by [requireAuth] nor refused, its JSON argument parsed,
    and the request is that of its operation. *)
Lemma performed_request env options refusal json spinner op show w config :
  (forall data, quiet (show data)) ->
  sent (perform env options refusal json spinner op show) w
  = (dispatched w ++ [config])%list ->
  exists properties,
    parsed env json = Some properties
    /\ config = request_of env (op properties)
    /\ perform env options refusal json spinner op show w
       = match axios env config with
         | Resolved response =>
             try_catch
               (if truthy (get options "json") then printJson (resp_data response)
                else show (resp_data response))
               fail (settled config spinner w)
         | Rejected error =>
             (Exit 1,
              after_lines (settled config spinner w)
                [ErrorLine ("✗ " ++ err_message (rejection error))])
         end.
Proof.
  intros Hshow. unfold sent. rewrite perform_steps.
  destruct (isConfigured env);
    [| cbn; intros H; exfalso; exact (not_extended _ _ H)].
  destruct refusal as [message |];
    [cbn; intros H; exfalso; exact (not_extended _ _ H) |].
  destruct (parsed env json) as [properties |];
    [| cbn; intros H; exfalso; exact (not_extended _ _ H)].
  rewrite finish_steps.
  destruct (null_bag (op properties));
    [cbn; intros H; exfalso; exact (not_extended _ _ H) |].
  destruct (has_credential env);
    [| cbn; intros H; exfalso; exact (not_extended _ _ H)].
  intros Hsent. exists properties. split; [reflexivity |].
  assert (Hconfig : config = request_of env (op properties)).
  { destruct (axios env (request_of env (op properties))) as [response | error].
    - destruct (shown options show (resp_data response)
                  (settled (request_of env (op properties)) spinner w) Hshow)
        as [Hsame _].
      rewrite Hsame in Hsent. cbn in Hsent. symmetry. exact (extended_by_same _ _ _ Hsent).
    - cbn in Hsent. symmetry. exact (extended_by_same _ _ _ Hsent). }
  split; [exact Hconfig |]. rewrite <- Hconfig. reflexivity.
Qed.

(** ** Outcomes *)

(** X10: an action ends in one of three ways.  It ends the process with
    status 1 before anything was sent; or it sent exactly one request and
    returns, which it does only when axios resolved that request; or it sent
    exactly one request and ends the process with status 1.  It never lets an
    exception escape, never ends with another status and never sends a second
    request. *)
Theorem action_outcomes env i w :
  (result_of (run env i) w = Exit 1 /\ sent (run env i) w = dispatched w)
  \/ (exists config,
        sent (run env i) w = (dispatched w ++ [config])%list
        /\ ((result_of (run env i) w = Return tt
             /\ exists response, axios env config = Resolved response)
            \/ result_of (run env i) w = Exit 1)).
Proof.
  destruct (run_is_performed env i) as [refusal [json [spinner [op [show [Hrun Hshow]]]]]].
  unfold result_of, sent. rewrite Hrun, perform_steps.
  destruct (isConfigured env); [| left; split; reflexivity].
  destruct refusal as [message |]; [left; split; reflexivity |].
  destruct (parsed env json) as [properties |]; [| left; split; reflexivity].
  rewrite finish_steps.
  destruct (null_bag (op properties)); [left; split; reflexivity |].
  destruct (has_credential env); [| left; split; reflexivity].
  right. exists (request_of env (op properties)).
  destruct (axios env (request_of env (op properties))) as [response | error] eqn:Haxios.
  - destruct (shown (options_of i) show (resp_data response)
                (settled (request_of env (op properties)) spinner w) Hshow)
      as [Hsame Hresult].
    rewrite Hsame. split; [reflexivity |].
    destruct Hresult as [Hreturn | Hexit]; [left | right; exact Hexit].
    split; [exact Hreturn | exists response; reflexivity].
  - split; [reflexivity | right; reflexivity].
Qed.

(** X11: when axios rejects the request of an action, the action stops the
    spinner, writes one error line with the message of what the Mediator
    threw, and ends the process with status 1; nothing else is written.  What
    the Mediator threw is the Error of the class of the rejection, or, when
    the body carries a truthy message that has no string form, the TypeError
    of its conversion. *)
Theorem rejection_is_reported env i w config error :
  sent (run env i) w = (dispatched w ++ [config])%list ->
  axios env config = Rejected error ->
  exists spinner,
    run env i w
    = (Exit 1,
       {| dispatched := dispatched w ++ [config];
          console :=
            console w
            ++ [SpinnerStart spinner; SpinnerStop;
                ErrorLine ("✗ " ++ err_message (rejection error))] |}).
Proof.
  destruct (run_is_performed env i) as [refusal [json [spinner [op [show [Hrun Hshow]]]]]].
  unfold sent. rewrite Hrun. intros Hsent Hrejected.
  destruct (performed_request env _ _ _ _ _ _ w config Hshow Hsent)
    as [properties [_ [_ Hsteps]]].
  exists spinner. rewrite Hsteps, Hrejected.
  unfold after_lines, settled. cbn [dispatched console]. rewrite <- app_assoc.
  reflexivity.
Qed.

Lemma rejection_is_reported_witness :
  exists spinner,
    run (sample_env (JStr "key") (refusing 429 (JObj [])))
      (Act (Link "u1" "acme" (JObj []))) initial
    = (Exit 1,
       {| dispatched :=
            [] ++ [request_of (sample_env (JStr "key") accepting)
                     (LinkUserToAccount (JStr "u1") (JStr "acme"))];
          console :=
            [] ++ [SpinnerStart spinner; SpinnerStop;
                   ErrorLine "✗ Rate limit exceeded (1800 requests/min)"] |}).
Proof.
  exact (rejection_is_reported (sample_env (JStr "key") (refusing 429 (JObj [])))
           (Act (Link "u1" "acme" (JObj []))) initial
           (request_of (sample_env (JStr "key") accepting)
              (LinkUserToAccount (JStr "u1") (JStr "acme")))
           {| err_message := "Request failed with status code 429";
              err_response := Some {| resp_status := 429; resp_data := JObj [] |} |}
           eq_refl eq_refl).
Defined.


(** X12: with --json, an action whose request axios resolved writes the
    payload as JSON, after the spinner and with no other line, and returns. *)
Theorem json_prints_the_payload env i w config response :
  sent (run env i) w = (dispatched w ++ [config])%list ->
  axios env config = Resolved response ->
  truthy (get (options_of i) "json") = true ->
  exists spinner,
    run env i w
    = (Return tt,
       {| dispatched := dispatched w ++ [config];
          console :=
            console w
            ++ [SpinnerStart spinner; SpinnerStop; LogJson (resp_data response)] |}).
Proof.
  destruct (run_is_performed env i) as [refusal [json [spinner [op [show [Hrun Hshow]]]]]].
  unfold sent. rewrite Hrun. intros Hsent Hresolved Hjson.
  destruct (performed_request env _ _ _ _ _ _ w config Hshow Hsent)
    as [properties [_ [_ Hsteps]]].
  exists spinner. rewrite Hsteps, Hresolved, Hjson.
  unfold settled. cbn. rewrite <- app_assoc. reflexivity.
Qed.

Lemma json_prints_the_payload_witness :
  exists spinner,
    run (sample_env (JStr "key") (answering (JObj [("data", JArr two_events)])))
      (List Events (JObj [("json", JBool true)])) initial
    = (Return tt,
       {| dispatched :=
            [] ++ [listing_request (sample_env (JStr "key") accepting) Events];
          console :=
            [] ++ [SpinnerStart spinner; SpinnerStop;
                   LogJson (JObj [("data", JArr two_events)])] |}).
Proof.
  exact (json_prints_the_payload
           (sample_env (JStr "key") (answering (JObj [("data", JArr two_events)])))
           (List Events (JObj [("json", JBool true)])) initial
           (listing_request (sample_env (JStr "key") accepting) Events)
           {| resp_status := 200; resp_data := JObj [("data", JArr two_events)] |}
           eq_refl eq_refl eq_refl).
Defined.


(** ** What a command that changes something writes on success *)

Lemma show_success_steps message request_id data w :
  show_success message request_id data w
  = if request_id then
      if nullish data then
        (Throw (Error ("Cannot read properties of " ++ nullish_name data
                       ++ " (reading 'meta')")),
         after_lines w [Log ("✓ " ++ message)])
      else
        match ToString (get_opt (get data "meta") "requestId") with
        | Some id =>
            (Return tt,
             after_lines w [Log ("✓ " ++ message); Log ("Request ID: " ++ id); Log ""])
        | None => (Throw not_primitive, after_lines w [Log ("✓ " ++ message)])
        end
    else (Return tt, after_lines w [Log ("✓ " ++ message); Log ""]).
Proof.
  unfold show_success, printSuccess, printRequestId, member, to_string, after_lines.
  destruct request_id.
  - destruct (nullish data).
    + unfold bind, emit, ret, throw; cbn [dispatched console];
        rewrite <- ?app_assoc; reflexivity.
    + unfold bind, emit, ret, throw. cbn beta iota.
      destruct (ToString (get_opt (get data "meta") "requestId"));
        cbn [dispatched console]; rewrite <- ?app_assoc; reflexivity.
  - unfold bind, emit, ret. cbn [dispatched console]. rewrite <- ?app_assoc. reflexivity.
Qed.

Lemma command_request env command w config :
  sent (run_command env command) w = (dispatched w ++ [config])%list ->
  exists spinner message,
    run_command env command w
    = match axios env config with
      | Resolved response =>
          try_catch
            (if truthy (get (command_options command) "json")
             then printJson (resp_data response)
             else show_success message (prints_request_id command) (resp_data response))
            fail (settled config spinner w)
      | Rejected error =>
          (Exit 1,
           after_lines (settled config spinner w)
             [ErrorLine ("✗ " ++ err_message (rejection error))])
      end.
Proof.
  destruct (command_has_the_shape env command)
    as [refusal [json [spinner [op [message Hshape]]]]].
  unfold sent. rewrite Hshape. intros Hsent.
  destruct (performed_request env _ _ _ _ _ _ w config
              (quiet_show_success message (prints_request_id command)) Hsent)
    as [properties [_ [_ Hsteps]]].
  exists spinner, message. exact Hsteps.
Qed.

(** X13: without --json, a command that changes something and whose request
    axios resolved writes, after the spinner, a success line, then for user
    upsert, account upsert, event track and validate the request identifier
    of the answer, then an empty line, and returns.  For those four commands
    the payload is neither [null] nor [undefined] and the request identifier
    has a string form [id], which is written: [undefined] when the answer has
    no identifier. *)
Theorem success_is_announced env command w config response id :
  sent (run_command env command) w = (dispatched w ++ [config])%list ->
  axios env config = Resolved response ->
  truthy (get (command_options command) "json") = false ->
  prints_request_id command = false
  \/ (nullish (resp_data response) = false
      /\ ToString (get_opt (get (resp_data response) "meta") "requestId") = Some id) ->
  exists spinner message,
    run_command env command w
    = (Return tt,
       {| dispatched := dispatched w ++ [config];
          console :=
            console w
            ++ [SpinnerStart spinner; SpinnerStop; Log ("✓ " ++ message)]
            ++ (if prints_request_id command then [Log ("Request ID: " ++ id)] else [])
            ++ [Log ""] |}).
Proof.
  intros Hsent Hresolved Hjson Hpayload.
  destruct (command_request env command w config Hsent) as [spinner [message Hsteps]].
  exists spinner, message. rewrite Hsteps, Hresolved, Hjson.
  unfold try_catch. rewrite show_success_steps.
  destruct (prints_request_id command).
  - destruct Hpayload as [Hno | [Hvalue Hid]]; [discriminate |]. rewrite Hvalue, Hid.
    unfold after_lines, settled. cbn. rewrite <- !app_assoc. reflexivity.
  - unfold after_lines, settled. cbn. rewrite <- !app_assoc. reflexivity.
Qed.

Lemma success_is_announced_witness :
  exists spinner message,
    run_command (sample_env (JStr "key") (answering (JStr "")))
      (Validate (JObj [])) initial
    = (Return tt,
       {| dispatched :=
            [] ++ [request_of (sample_env (JStr "key") accepting) ValidateApiKey];
          console :=
            [] ++ [SpinnerStart spinner; SpinnerStop; Log ("✓ " ++ message)]
            ++ [Log "Request ID: undefined"] ++ [Log ""] |}).
Proof.
  exact (success_is_announced (sample_env (JStr "key") (answering (JStr "")))
           (Validate (JObj [])) initial
           (request_of (sample_env (JStr "key") accepting) ValidateApiKey)
           {| resp_status := 200; resp_data := JStr "" |} "undefined"
           eq_refl eq_refl eq_refl (or_intror (conj eq_refl eq_refl))).
Defined.


(** X14: when axios resolves the request of user upsert, account upsert,
    event track or validate with [null] (or nothing) for a payload, the
    command, run without --json, has already written its success line when
    reading the request identifier throws; it then writes the TypeError as an
    error line and ends the process with status 1. *)
Theorem success_then_failure_on_null_payload env command w config response :
  sent (run_command env command) w = (dispatched w ++ [config])%list ->
  axios env config = Resolved response ->
  truthy (get (command_options command) "json") = false ->
  prints_request_id command = true ->
  nullish (resp_data response) = true ->
  exists spinner message,
    run_command env command w
    = (Exit 1,
       {| dispatched := dispatched w ++ [config];
          console :=
            console w
            ++ [SpinnerStart spinner; SpinnerStop; Log ("✓ " ++ message);
                ErrorLine ("✗ Cannot read properties of "
                           ++ nullish_name (resp_data response)
                           ++ " (reading 'meta')")] |}).
Proof.
  intros Hsent Hresolved Hjson Hid Hnull.
  destruct (command_request env command w config Hsent) as [spinner [message Hsteps]].
  exists spinner, message. rewrite Hsteps, Hresolved, Hjson.
  unfold try_catch. rewrite show_success_steps, Hid, Hnull.
  unfold after_lines, settled. cbn. rewrite <- !app_assoc. reflexivity.
Qed.

Lemma success_then_failure_on_null_payload_witness :
  exists spinner message,
    run_command (sample_env (JStr "key") (answering JNull))
      (UserUpsert "u1" (JObj [])) initial
    = (Exit 1,
       {| dispatched :=
            [] ++ [request_of (sample_env (JStr "key") accepting)
                     (UpsertUser (JStr "u1") JUndefined (JObj []))];
          console :=
            [] ++ [SpinnerStart spinner; SpinnerStop; Log ("✓ " ++ message);
                   ErrorLine "✗ Cannot read properties of null (reading 'meta')"] |}).
Proof.
  exact (success_then_failure_on_null_payload
           (sample_env (JStr "key") (answering JNull))
           (UserUpsert "u1" (JObj [])) initial
           (request_of (sample_env (JStr "key") accepting)
              (UpsertUser (JStr "u1") JUndefined (JObj [])))
           {| resp_status := 200; resp_data := JNull |}
           eq_refl eq_refl eq_refl eq_refl eq_refl).
Defined.


(** X24: when the answer to user upsert, account upsert, event track or
    validate carries a request identifier that has no string form, the
    command, run without --json, has already written its success line when
    the conversion throws; it then writes the TypeError as an error line and
    ends the process with status 1. *)
Theorem success_then_failure_on_request_id env command w config response :
  sent (run_command env command) w = (dispatched w ++ [config])%list ->
  axios env config = Resolved response ->
  truthy (get (command_options command) "json") = false ->
  prints_request_id command = true ->
  nullish (resp_data response) = false ->
  ToString (get_opt (get (resp_data response) "meta") "requestId") = None ->
  exists spinner message,
    run_command env command w
    = (Exit 1,
       {| dispatched := dispatched w ++ [config];
          console :=
            console w
            ++ [SpinnerStart spinner; SpinnerStop; Log ("✓ " ++ message);
                ErrorLine "✗ Cannot convert object to primitive value"] |}).
Proof.
  intros Hsent Hresolved Hjson Hid Hvalue Htext.
  destruct (command_request env command w config Hsent) as [spinner [message Hsteps]].
  exists spinner, message. rewrite Hsteps, Hresolved, Hjson.
  unfold try_catch. rewrite show_success_steps, Hid, Hvalue, Htext.
  unfold after_lines, settled. cbn. rewrite <- !app_assoc. reflexivity.
Qed.

Lemma success_then_failure_on_request_id_witness :
  exists spinner message,
    run_command
      (sample_env (JStr "key")
         (answering (JObj [("meta", JObj [("requestId", no_text)])])))
      (Validate (JObj [])) initial
    = (Exit 1,
       {| dispatched :=
            [] ++ [request_of (sample_env (JStr "key") accepting) ValidateApiKey];
          console :=
            [] ++ [SpinnerStart spinner; SpinnerStop; Log ("✓ " ++ message);
                   ErrorLine "✗ Cannot convert object to primitive value"] |}).
Proof.
  exact (success_then_failure_on_request_id
           (sample_env (JStr "key")
              (answering (JObj [("meta", JObj [("requestId", no_text)])])))
           (Validate (JObj [])) initial
           (request_of (sample_env (JStr "key") accepting) ValidateApiKey)
           {| resp_status := 200;
              resp_data := JObj [("meta", JObj [("requestId", no_text)])] |}
           eq_refl eq_refl eq_refl eq_refl eq_refl eq_refl).
Defined.


(** ** Arguments that stop a command *)

(** X15: event track with neither a user id nor an account id writes one
    error line and ends the process with status 1; the metadata is not
    parsed and nothing is sent. *)
Theorem event_track_needs_an_id env eventName options w :
  truthy (get options "userId") = false ->
  truthy (get options "accountId") = false ->
  event_track env eventName options w
  = (Exit 1,
     after_lines w
       (if isConfigured env
        then [ErrorLine "✗ Either --user-id or --account-id (or both) must be provided"]
        else not_configured_lines)).
Proof.
  intros Huser Haccount. unfold event_track, requireAuth, after_lines.
  rewrite Huser, Haccount.
  destruct (isConfigured env); cbn; rewrite <- ?app_assoc; reflexivity.
Qed.

Lemma event_track_needs_an_id_witness :
  event_track (sample_env (JStr "key") accepting) "signed_in"
    (JObj [("userId", JStr ""); ("metadata", JStr "{oops")]) initial
  = (Exit 1,
     after_lines initial
       [ErrorLine "✗ Either --user-id or --account-id (or both) must be provided"]).
Proof.
  exact (event_track_needs_an_id (sample_env (JStr "key") accepting) "signed_in"
           (JObj [("userId", JStr ""); ("metadata", JStr "{oops")]) initial
           eq_refl eq_refl).
Defined.


(** X16: the JSON text [null] passes [parseProperties], and the Mediator
    then throws the TypeError of [Object.keys(null)]: the command stops its
    spinner, writes that error and ends the process with status 1, and
    nothing is sent, with or without a Credential.  The argument [text] is
    any truthy value whose string form [json] parses to [null]. *)
Theorem null_properties_stop_the_command env text json id options w :
  isConfigured env = true ->
  truthy text = true ->
  ToString text = Some json ->
  JSON_parse env json = Some JNull ->
  (get options "properties" = text ->
   (exists spinner,
      user_upsert env id options w
      = (Exit 1,
         after_lines w
           [SpinnerStart spinner; SpinnerStop;
            ErrorLine "✗ Cannot convert undefined or null to object"]))
   /\ (exists spinner,
         account_upsert env id options w
         = (Exit 1,
            after_lines w
              [SpinnerStart spinner; SpinnerStop;
               ErrorLine "✗ Cannot convert undefined or null to object"])))
  /\ (get options "metadata" = text ->
      truthy (get options "userId") || truthy (get options "accountId") = true ->
      exists spinner,
        event_track env id options w
        = (Exit 1,
           after_lines w
             [SpinnerStart spinner; SpinnerStop;
              ErrorLine "✗ Cannot convert undefined or null to object"])).
Proof.
  intros Hconf Htext Hjson Hparse. split.
  - intros Hopt. split; eexists.
    + change (user_upsert env id options w)
        with (perform env options None (Some (get options "properties"))
                ("Upserting user " ++ id ++ "...")
                (fun properties => UpsertUser (JStr id) (get options "email") properties)
                (show_success ("User " ++ id ++ " upserted successfully") true) w).
      rewrite perform_steps, Hconf. cbn [parsed]. rewrite Hopt, Htext, Hjson, Hparse.
      cbn [negb]. rewrite finish_steps. reflexivity.
    + change (account_upsert env id options w)
        with (perform env options None (Some (get options "properties"))
                ("Upserting account " ++ id ++ "...")
                (fun properties => UpsertAccount (JStr id) (get options "domain") properties)
                (show_success ("Account " ++ id ++ " upserted successfully") true) w).
      rewrite perform_steps, Hconf. cbn [parsed]. rewrite Hopt, Htext, Hjson, Hparse.
      cbn [negb]. rewrite finish_steps. reflexivity.
  - intros Hopt Hids. eexists.
    assert (Hshape :
             event_track env id options w
             = perform env options
                 (if negb (truthy (get options "userId"))
                     && negb (truthy (get options "accountId"))
                  then Some "Either --user-id or --account-id (or both) must be provided"
                  else None)
                 (Some (get options "metadata"))
                 ("Tracking event " ++ dq ++ id ++ dq ++ "...")
                 (fun metadata =>
                    TrackEvent (JStr id) (get options "userId") (get options "accountId")
                      metadata)
                 (show_success ("Event " ++ dq ++ id ++ dq ++ " tracked successfully")
                    true) w).
    { unfold event_track, perform.
      destruct (negb (truthy (get options "userId"))
                && negb (truthy (get options "accountId"))); reflexivity. }
    rewrite Hshape, perform_steps, Hconf.
    replace (negb (truthy (get options "userId"))
             && negb (truthy (get options "accountId"))) with false
      by (destruct (truthy (get options "userId")), (truthy (get options "accountId"));
          cbn in *; congruence).
    cbn [parsed]. rewrite Hopt, Htext, Hjson, Hparse. cbn [negb].
    rewrite finish_steps. reflexivity.
Qed.

Lemma null_properties_stop_the_command_witness :
  exists spinner,
    user_upsert (sample_env (JStr "key") accepting) "u1"
      (JObj [("properties", JStr "null")]) initial
    = (Exit 1,
       after_lines initial
         [SpinnerStart spinner; SpinnerStop;
          ErrorLine "✗ Cannot convert undefined or null to object"]).
Proof.
  exact (proj1 (proj1 (null_properties_stop_the_command
                         (sample_env (JStr "key") accepting) (JStr "null") "null" "u1"
                         (JObj [("properties", JStr "null")]) initial
                         eq_refl eq_refl eq_refl eq_refl) eq_refl)).
Defined.


(** ** What a listing writes *)

(** X17: without --json, a listing whose answer holds a non-empty array
    under [data], no item of it [null] and every field shown of every item
    with a string form, writes its title and a table with one row for each
    item, in the order of the answer, and returns. *)
Theorem listing_shows_every_item env l options w response items :
  isConfigured env = true ->
  has_credential env = true ->
  axios env (listing_request env l) = Resolved response ->
  truthy (get options "json") = false ->
  get (resp_data response) "data" = JArr items ->
  items <> [] ->
  Forall (fun item => nullish item = false) items ->
  Forall (fun item => listable l item = true) items ->
  run_listing env l options w
  = (Return tt,
     after_lines (answered env l w)
       (Log (listing_title l)
        :: Log (header_line (map (listing_row l) items) (listing_columns l))
        :: Log (js_repeat "─"
                  (js_length (header_line (map (listing_row l) items)
                                (listing_columns l))))
        :: map (fun item =>
                  Log (row_line (map (listing_row l) items) (listing_columns l)
                         (listing_row l item)))
             items
        ++ [Log (nl ++ string_of_nat (List.length items) ++ " result(s)")])).
Proof.
  intros Hconf Hkey Hresolved Hjson Hdata Hitems Hvalues Htexts.
  rewrite (listing_answered env l options w response Hconf Hkey Hresolved), Hjson.
  unfold try_catch.
  rewrite (show_listing_table l (resp_data response) items _ Hdata Hitems Hvalues Htexts).
  unfold table_lines. rewrite map_map, length_map. reflexivity.
Qed.

Lemma two_events_are_values : Forall (fun item => nullish item = false) two_events.
Proof. repeat constructor. Qed.

Lemma listing_shows_every_item_witness :
  run_listing (sample_env (JStr "key") (answering (JObj [("data", JArr two_events)])))
    Events (JObj []) initial
  = (Return tt,
     after_lines
       (answered (sample_env (JStr "key") accepting) Events initial)
       [Log (nl ++ "Available Events" ++ nl);
        Log "Event Name  Group";
        Log "─────────────────";
        Log "signed_in   auth ";
        Log "paid        N/A  ";
        Log (nl ++ "2 result(s)")]).
Proof.
  exact (listing_shows_every_item
           (sample_env (JStr "key") (answering (JObj [("data", JArr two_events)])))
           Events (JObj []) initial
           {| resp_status := 200; resp_data := JObj [("data", JArr two_events)] |}
           two_events eq_refl eq_refl eq_refl eq_refl eq_refl
           ltac:(discriminate)
           two_events_are_values two_events_are_listable).
Defined.


Lemma text_or_empty v :
  text_of (if nullish v then JStr "" else v) = if nullish v then "" else text_of v.
Proof. destruct (nullish v); reflexivity. Qed.

Lemma text_or_NA v :
  text_of (if nullish (or_NA v) then JStr "" else or_NA v)
  = if truthy v then text_of v else "N/A".
Proof.
  unfold or_NA. destruct (truthy v) eqn:Hv; [| reflexivity].
  destruct v; try discriminate; reflexivity.
Qed.

(** X18: what the cells of a listing show.  In the line of an item the
    first cell is the first field of the item (name, or id for a segment),
    empty when the item has none, and the second cell is the second field
    (group, type, or name for a segment), or N/A when that field is missing,
    empty, [null], [false] or 0.  Each cell is cut to the width of its column
    and padded to it, and two spaces part the cells. *)
Theorem listing_cells env l options w response items :
  let first_field :=
    match l with
    | Events | UserProperties | AccountProperties => "name"
    | UserSegments | AccountSegments => "id"
    end in
  let second_field :=
    match l with
    | Events => "group"
    | UserProperties | AccountProperties => "type"
    | UserSegments | AccountSegments => "name"
    end in
  isConfigured env = true ->
  has_credential env = true ->
  axios env (listing_request env l) = Resolved response ->
  truthy (get options "json") = false ->
  get (resp_data response) "data" = JArr items ->
  items <> [] ->
  Forall (fun item => nullish item = false) items ->
  Forall (fun item =>
            has_text (get item first_field) = true
            /\ has_text (get item second_field) = true) items ->
  exists header rule count first second,
    run_listing env l options w
    = (Return tt,
       after_lines (answered env l w)
         (Log (listing_title l) :: Log header :: Log rule
          :: map (fun item =>
                    Log (padEnd
                           (js_take first
                              (if nullish (get item first_field) then ""
                               else text_of (get item first_field)))
                           first
                         ++ "  "
                         ++ padEnd
                              (js_take second
                                 (if truthy (get item second_field)
                                  then text_of (get item second_field)
                                  else "N/A"))
                              second))
               items
          ++ [Log count])).
Proof.
  intros first_field second_field Hconf Hkey Hresolved Hjson Hdata Hitems Hvalues Htexts.
  assert (Hlistable : Forall (fun item => listable l item = true) items).
  { apply Forall_forall. intros item Hin. rewrite Forall_forall in Htexts.
    destruct (Htexts item Hin) as [Hfirst Hsecond]. unfold listable.
    subst first_field second_field.
    destruct l; cbn [listing_fields forallb]; rewrite Hfirst, Hsecond; reflexivity. }
  rewrite (listing_answered env l options w response Hconf Hkey Hresolved), Hjson.
  unfold try_catch.
  rewrite (show_listing_table l (resp_data response) items _ Hdata Hitems Hvalues
             Hlistable).
  set (data := map (listing_row l) items).
  exists (header_line data (listing_columns l)),
    (js_repeat "─" (js_length (header_line data (listing_columns l)))),
    (nl ++ string_of_nat (List.length data) ++ " result(s)"),
    (width_of data (nth 0 (listing_columns l) (column "" ""))),
    (width_of data (nth 1 (listing_columns l) (column "" ""))).
  unfold table_lines. subst data. rewrite map_map.
  rewrite (map_ext
             (fun item =>
                Log (row_line (map (listing_row l) items) (listing_columns l)
                       (listing_row l item)))
             (fun item =>
                Log (padEnd
                       (js_take
                          (width_of (map (listing_row l) items)
                             (nth 0 (listing_columns l) (column "" "")))
                          (if nullish (get item first_field) then ""
                           else text_of (get item first_field)))
                       (width_of (map (listing_row l) items)
                          (nth 0 (listing_columns l) (column "" "")))
                     ++ "  "
                     ++ padEnd
                          (js_take
                             (width_of (map (listing_row l) items)
                                (nth 1 (listing_columns l) (column "" "")))
                             (if truthy (get item second_field)
                              then text_of (get item second_field)
                              else "N/A"))
                          (width_of (map (listing_row l) items)
                             (nth 1 (listing_columns l) (column "" "")))))).
  - reflexivity.
  - intros item. f_equal. subst first_field second_field.
    destruct l; cbn [listing_columns listing_row nth];
      unfold row_line, cell_text, cell_value, column;
      cbn [map String.concat col_format col_key get lookup String.eqb Ascii.eqb Bool.eqb];
      rewrite text_or_empty, text_or_NA; reflexivity.
Qed.

Lemma listing_cells_witness :
  exists header rule count first second,
    run_listing (sample_env (JStr "key") (answering (JObj [("data", JArr two_events)])))
      Events (JObj []) initial
    = (Return tt,
       after_lines (answered (sample_env (JStr "key") accepting) Events initial)
         (Log (nl ++ "Available Events" ++ nl) :: Log header :: Log rule
          :: [Log (padEnd (js_take first "signed_in") first
                   ++ "  " ++ padEnd (js_take second "auth") second);
              Log (padEnd (js_take first "paid") first
                   ++ "  " ++ padEnd (js_take second "N/A") second)]
          ++ [Log count])).
Proof.
  exact (listing_cells
           (sample_env (JStr "key") (answering (JObj [("data", JArr two_events)])))
           Events (JObj []) initial
           {| resp_status := 200; resp_data := JObj [("data", JArr two_events)] |}
           two_events eq_refl eq_refl eq_refl eq_refl eq_refl
           ltac:(discriminate)
           two_events_are_values
           ltac:(repeat constructor)).
Defined.

(** X19: without --json, a listing whose answer has nothing to list (no
    [data], a falsy one, an empty array, or a [length] of 0) writes that
    nothing was found, prints no table, and returns. *)
Theorem empty_listing_says_so env l options w response :
  isConfigured env = true ->
  has_credential env = true ->
  axios env (listing_request env l) = Resolved response ->
  truthy (get options "json") = false ->
  nullish (resp_data response) = false ->
  truthy (get (resp_data response) "data") = false
  \/ is_zero (length_of (get (resp_data response) "data")) = true ->
  run_listing env l options w
  = (Return tt, after_lines (answered env l w) [Log (listing_empty l)]).
Proof.
  intros Hconf Hkey Hresolved Hjson Hpayload Hempty.
  rewrite (listing_answered env l options w response Hconf Hkey Hresolved), Hjson.
  unfold try_catch, show_listing. unfold bind at 1.
  rewrite (member_of_value _ _ _ Hpayload).
  replace (negb (truthy (get (resp_data response) "data"))
           || is_zero (length_of (get (resp_data response) "data"))) with true.
  - reflexivity.
  - destruct Hempty as [-> | ->]; [reflexivity | now rewrite orb_true_r].
Qed.

Lemma empty_listing_says_so_witness :
  run_listing (sample_env (JStr "key") (answering (JObj [("data", JArr [])])))
    UserSegments (JObj []) initial
  = (Return tt,
     after_lines (answered (sample_env (JStr "key") accepting) UserSegments initial)
       [Log "No user segments found."])
  /\ run_listing (sample_env (JStr "key") (answering (JObj [])))
       AccountProperties (JObj []) initial
     = (Return tt,
        after_lines
          (answered (sample_env (JStr "key") accepting) AccountProperties initial)
          [Log "No account properties found."]).
Proof.
  split.
  - exact (empty_listing_says_so
             (sample_env (JStr "key") (answering (JObj [("data", JArr [])])))
             UserSegments (JObj []) initial
             {| resp_status := 200; resp_data := JObj [("data", JArr [])] |}
             eq_refl eq_refl eq_refl eq_refl eq_refl (or_intror eq_refl)).
  - exact (empty_listing_says_so (sample_env (JStr "key") (answering (JObj [])))
             AccountProperties (JObj []) initial
             {| resp_status := 200; resp_data := JObj [] |}
             eq_refl eq_refl eq_refl eq_refl eq_refl (or_introl eq_refl)).
Defined.


(** X20: a listing fails on an answer that is not a list.  When the payload
    is [null] (or missing), reading [data] throws; when [data] is truthy, not
    of length 0 and not an array, the title is written and then mapping over
    it throws.  Either way the error is written and the process ends with
    status 1. *)
Theorem listing_of_no_array_fails env l options w response :
  isConfigured env = true ->
  has_credential env = true ->
  axios env (listing_request env l) = Resolved response ->
  truthy (get options "json") = false ->
  (nullish (resp_data response) = true ->
   run_listing env l options w
   = (Exit 1,
      after_lines (answered env l w)
        [ErrorLine ("✗ Cannot read properties of " ++ nullish_name (resp_data response)
                    ++ " (reading 'data')")]))
  /\ (nullish (resp_data response) = false ->
      truthy (get (resp_data response) "data") = true ->
      is_zero (length_of (get (resp_data response) "data")) = false ->
      (forall items, get (resp_data response) "data" <> JArr items) ->
      run_listing env l options w
      = (Exit 1,
         after_lines (answered env l w)
           [Log (listing_title l); ErrorLine "✗ data.data.map is not a function"])).
Proof.
  intros Hconf Hkey Hresolved Hjson.
  rewrite (listing_answered env l options w response Hconf Hkey Hresolved), Hjson.
  split.
  - intros Hnull. unfold try_catch, show_listing, member. unfold bind at 1.
    rewrite Hnull. reflexivity.
  - intros Hpayload Htruthy Hlength Harray.
    unfold try_catch, show_listing. unfold bind at 1.
    rewrite (member_of_value _ _ _ Hpayload), Htruthy, Hlength. cbn [negb orb].
    unfold bind at 1, emit at 1. unfold bind at 1.
    destruct (get (resp_data response) "data") eqn:Hdata;
      try (cbn; unfold after_lines; cbn; rewrite <- !app_assoc; reflexivity).
    exfalso. exact (Harray items eq_refl).
Qed.

Lemma listing_of_no_array_fails_witness :
  run_listing (sample_env (JStr "key") (answering JNull)) Events (JObj []) initial
  = (Exit 1,
     after_lines (answered (sample_env (JStr "key") accepting) Events initial)
       [ErrorLine "✗ Cannot read properties of null (reading 'data')"])
  /\ run_listing
       (sample_env (JStr "key") (answering (JObj [("data", JStr "maintenance")])))
       Events (JObj []) initial
     = (Exit 1,
        after_lines (answered (sample_env (JStr "key") accepting) Events initial)
          [Log (nl ++ "Available Events" ++ nl);
           ErrorLine "✗ data.data.map is not a function"]).
Proof.
  split.
  - exact (proj1 (listing_of_no_array_fails
                    (sample_env (JStr "key") (answering JNull)) Events (JObj []) initial
                    {| resp_status := 200; resp_data := JNull |}
                    eq_refl eq_refl eq_refl eq_refl) eq_refl).
  - exact (proj2 (listing_of_no_array_fails
                    (sample_env (JStr "key")
                       (answering (JObj [("data", JStr "maintenance")])))
                    Events (JObj []) initial
                    {| resp_status := 200;
                       resp_data := JObj [("data", JStr "maintenance")] |}
                    eq_refl eq_refl eq_refl eq_refl)
             eq_refl eq_refl eq_refl ltac:(discriminate)).
Defined.


(** ** A field that has no string form *)

Lemma cell_steps col row w :
  nullish row = false ->
  cell col row w
  = (if has_text (cell_value col row) then Return (cell_text col row)
     else Throw not_primitive, w).
Proof.
  intros Hrow. destruct (has_text (cell_value col row)) eqn:Htext.
  - apply cell_of_value; assumption.
  - unfold cell, bind. rewrite (member_of_value row _ w Hrow).
    apply to_string_without_text, Htext.
Qed.

Lemma measure_steps data widths col w :
  Forall (fun row => nullish row = false) data ->
  measure data widths col w
  = (if forallb (fun row => has_text (cell_value col row)) data
     then Return (measured data widths col)
     else Throw not_primitive, w).
Proof.
  intros Hrows. unfold measure, measured.
  generalize (widths_set (col_key col) (js_length (col_label col)) widths) as start.
  assert (Hloop : forall rows start,
             Forall (fun row => nullish row = false) rows ->
             fold_m
               (fun widths row =>
                  val <- cell col row ;;
                  ret (if (widths_get (col_key col) widths <? js_length val)%nat
                       then widths_set (col_key col) (js_length val) widths
                       else widths))
               rows start w
             = (if forallb (fun row => has_text (cell_value col row)) rows
                then Return (fold_left (widen col) rows start)
                else Throw not_primitive, w)).
  { induction rows as [| row rows IH]; intros start Hvalues; [reflexivity |].
    inversion Hvalues as [| ? ? Hrow Hrest]; subst.
    cbn [fold_m forallb fold_left]. unfold bind at 1. unfold bind at 1.
    rewrite (cell_steps col row w Hrow).
    destruct (has_text (cell_value col row)); cbn [andb]; [| reflexivity].
    cbn [ret]. apply IH, Hrest. }
  intros start. unfold bind at 1. rewrite (Hloop data start Hrows).
  destruct (forallb _ data); reflexivity.
Qed.

(** With a cell that has no string form [printTable] throws while it
    measures the columns, before it has written anything. *)
Lemma printTable_without_text data columns w :
  Forall (fun row => nullish row = false) data ->
  Exists (fun row => printable columns row = false) data ->
  printTable data columns w = (Throw not_primitive, w).
Proof.
  intros Hrows Hbad. unfold printTable.
  destruct data as [| row0 data0] eqn:Edata; [inversion Hbad |].
  rewrite <- Edata in *. replace (List.length data =? 0)%nat with false
    by (rewrite Edata; reflexivity).
  assert (Hloop : forall cols widths,
             fold_m (measure data) cols widths w
             = (if forallb (fun col => forallb (fun row => has_text (cell_value col row)) data)
                     cols
                then Return (fold_left (measured data) cols widths)
                else Throw not_primitive, w)).
  { induction cols as [| col cols IH]; intros widths; [reflexivity |].
    cbn [fold_m forallb fold_left]. unfold bind at 1.
    rewrite (measure_steps data widths col w Hrows).
    destruct (forallb _ data); cbn [andb]; [apply IH | reflexivity]. }
  unfold bind at 1. rewrite Hloop.
  destruct (forallb _ columns) eqn:Hall; [| reflexivity].
  exfalso. apply Exists_exists in Hbad. destruct Hbad as [row [Hin Hrow]].
  unfold printable in Hrow. apply Bool.not_true_iff_false in Hrow. apply Hrow.
  apply forallb_forall. intros col Hcol.
  rewrite forallb_forall in Hall. specialize (Hall col Hcol).
  rewrite forallb_forall in Hall. apply Hall, Hin.
Qed.

Lemma has_text_of_cell v :
  has_text (if nullish v then JStr "" else v) = true -> has_text v = true.
Proof. destruct v as [| | [] | | | |]; intros H; first [reflexivity | exact H]. Qed.

Lemma has_text_of_cell_or_NA v :
  has_text (if nullish (or_NA v) then JStr "" else or_NA v) = true -> has_text v = true.
Proof.
  unfold or_NA. destruct v as [| | [] | | | |]; intros H; first [reflexivity | exact H].
Qed.

Lemma listing_row_unprintable l item :
  listable l item = false -> printable (listing_columns l) (listing_row l item) = false.
Proof.
  intros Hitem. apply Bool.not_true_iff_false. intros Hrow.
  apply Bool.not_true_iff_false in Hitem. apply Hitem. clear Hitem.
  unfold listable, printable in *.
  destruct l; cbn [listing_fields listing_columns listing_row forallb] in *;
    rewrite !andb_true_r in *; apply andb_prop in Hrow; destruct Hrow as [Hfirst Hsecond];
    unfold cell_value, column in Hfirst, Hsecond;
    cbn [col_format col_key get lookup String.eqb Ascii.eqb Bool.eqb] in Hfirst, Hsecond;
    apply andb_true_intro; split;
    first [exact (has_text_of_cell _ Hfirst) | exact (has_text_of_cell_or_NA _ Hsecond)].
Qed.

(** X25: a field that has no string form stops a listing before its table.
    Without --json, when the answer holds an array of items, none of them
    [null], and a field shown of one item has no string form, the listing
    writes its title, then the TypeError of the conversion as an error line,
    and ends the process with status 1: no line of the table is written. *)
Theorem listing_stops_at_a_field_without_text env l options w response items :
  isConfigured env = true ->
  has_credential env = true ->
  axios env (listing_request env l) = Resolved response ->
  truthy (get options "json") = false ->
  get (resp_data response) "data" = JArr items ->
  Forall (fun item => nullish item = false) items ->
  Exists (fun item => listable l item = false) items ->
  run_listing env l options w
  = (Exit 1,
     after_lines (answered env l w)
       [Log (listing_title l); ErrorLine "✗ Cannot convert object to primitive value"]).
Proof.
  intros Hconf Hkey Hresolved Hjson Hdata Hvalues Hbad.
  rewrite (listing_answered env l options w response Hconf Hkey Hresolved), Hjson.
  assert (Hpayload : nullish (resp_data response) = false).
  { destruct (resp_data response); try reflexivity; discriminate. }
  unfold try_catch, show_listing. unfold bind at 1.
  rewrite (member_of_value _ _ _ Hpayload), Hdata.
  replace (negb (truthy (JArr items)) || is_zero (length_of (JArr items))) with false.
  2:{ destruct items; [inversion Hbad | reflexivity]. }
  unfold bind at 1, emit at 1. unfold bind at 1. cbn [data_map].
  rewrite (map_m_pure _ (listing_row l)).
  2:{ intros item w' Hin. apply listing_callback_of_value.
      rewrite Forall_forall in Hvalues. apply Hvalues, Hin. }
  rewrite printTable_without_text.
  - unfold fail, printError, after_lines, bind, emit, exit. cbn [dispatched console].
    rewrite <- !app_assoc. reflexivity.
  - apply listing_rows_are_values.
  - apply Exists_exists in Hbad. destruct Hbad as [item [Hin Hitem]].
    apply Exists_exists. exists (listing_row l item). split.
    + apply in_map, Hin.
    + apply listing_row_unprintable, Hitem.
Qed.

Lemma listing_stops_at_a_field_without_text_witness :
  run_listing
    (sample_env (JStr "key")
       (answering (JObj [("data", JArr [JObj [("id", JStr "s-1"); ("name", no_text)]])])))
    UserSegments (JObj []) initial
  = (Exit 1,
     after_lines (answered (sample_env (JStr "key") accepting) UserSegments initial)
       [Log (nl ++ "User Segments" ++ nl);
        ErrorLine "✗ Cannot convert object to primitive value"]).
Proof.
  exact (listing_stops_at_a_field_without_text
           (sample_env (JStr "key")
              (answering
                 (JObj [("data", JArr [JObj [("id", JStr "s-1"); ("name", no_text)]])])))
           UserSegments (JObj []) initial
           {| resp_status := 200;
              resp_data :=
                JObj [("data", JArr [JObj [("id", JStr "s-1"); ("name", no_text)]])] |}
           [JObj [("id", JStr "s-1"); ("name", no_text)]]
           eq_refl eq_refl eq_refl eq_refl eq_refl
           ltac:(repeat constructor)
           ltac:(left; reflexivity)).
Defined.


(** * config show *)

Lemma js_take_all n s : (js_length s <= n)%nat -> js_take n s = s.
Proof.
  revert n. induction s as [| c s IH]; intros n Hn; cbn [js_take js_length] in *;
    [reflexivity |].
  destruct (unit_weight_cases c) as [Hw | [Hw | Hw]]; rewrite Hw in *.
  - rewrite IH by lia. reflexivity.
  - destruct n as [| n]; [lia |]. rewrite IH by lia. reflexivity.
  - destruct n as [| [| n]]; [lia | lia |]. rewrite IH by lia. reflexivity.
Qed.

Lemma js_length_low_surrogate c rest : js_length (low_surrogate c rest) = 1%nat.
Proof.
  unfold low_surrogate.
  set (cp := (_ + _ + _ + _)%Z).
  set (lo := (56320 + (cp - 65536) mod 1024)%Z).
  assert (Hlo : (56320 <= lo <= 57343)%Z).
  { subst lo. pose proof (Z.mod_pos_bound (cp - 65536) 1024 ltac:(lia)). lia. }
  unfold JSON.utf8.
  destruct (Z.ltb_spec lo 128); [lia |].
  destruct (Z.ltb_spec lo 2048); [lia |].
  destruct (Z.ltb_spec lo 65536); [| lia].
  cbn [string_of_list_ascii js_length].
  assert (Hlead : (lo / 4096 = 13)%Z).
  { pose proof (Z.div_le_mono 53248 lo 4096 ltac:(lia) ltac:(lia)).
    pose proof (Z.div_le_mono lo 57343 4096 ltac:(lia) ltac:(lia)).
    change (53248 / 4096)%Z with 13%Z in *. change (57343 / 4096)%Z with 13%Z in *. lia. }
  pose proof (Z.mod_pos_bound (lo / 64) 64 ltac:(lia)).
  pose proof (Z.mod_pos_bound lo 64 ltac:(lia)).
  rewrite !unit_weight_byte by lia. rewrite Hlead.
  change (224 + 13 <? 128)%Z with false. change (224 + 13 <? 192)%Z with false.
  change (224 + 13 <? 240)%Z with true. cbn iota.
  destruct (Z.ltb_spec (128 + (lo / 64) mod 64) 128); [lia |].
  destruct (Z.ltb_spec (128 + (lo / 64) mod 64) 192); [| lia].
  destruct (Z.ltb_spec (128 + lo mod 64) 128); [lia |].
  destruct (Z.ltb_spec (128 + lo mod 64) 192); [| lia].
  reflexivity.
Qed.

Lemma js_length_drop k s : js_length (js_drop k s) = (js_length s - k)%nat.
Proof.
  revert k. induction s as [| c s IH]; intros k; cbn [js_drop js_length];
    [reflexivity |].
  destruct (unit_weight_cases c) as [Hw | [Hw | Hw]]; rewrite Hw.
  - rewrite IH. lia.
  - destruct k as [| k]; cbn [js_length]; [rewrite Hw; lia | rewrite IH; lia].
  - destruct k as [| [| k]]; cbn [js_length].
    + rewrite Hw. lia.
    + rewrite js_length_app, js_length_low_surrogate, IH. lia.
    + rewrite IH. lia.
Qed.

Lemma js_length_last n s : js_length (js_last n s) = Nat.min n (js_length s).
Proof.
  unfold js_last. destruct (Nat.leb_spec (js_length s) n); [lia |].
  rewrite js_length_drop. lia.
Qed.

Lemma config_show_steps env w :
  (truthy (getConfig env "apiKey") = false ->
   config_show env w
   = (Return tt,
      after_lines w
        [Log (nl ++ "Journy.io CLI Configuration" ++ nl);
         Log "API Key:  not set";
         Log ""]))
  /\ (forall key,
        getConfig env "apiKey" = JStr key ->
        key <> "" ->
        config_show env w
        = (Return tt,
           after_lines w
             [Log (nl ++ "Journy.io CLI Configuration" ++ nl);
              Log ("API Key:  " ++ js_take 8 key ++ "..." ++ js_last 4 key);
              Log ""])
        /\ (js_length (js_take 8 key ++ "..." ++ js_last 4 key) <= 15)%nat).
Proof.
  split.
  - intros Hkey. unfold config_show. rewrite Hkey.
    unfold bind, emit, ret, after_lines. cbn [dispatched console].
    rewrite <- !app_assoc. reflexivity.
  - intros key Hkey Hne. split.
    + unfold config_show. rewrite Hkey. cbn [truthy].
      apply String.eqb_neq in Hne. rewrite Hne. cbn [negb].
      unfold bind, emit, ret, after_lines. cbn [dispatched console].
      rewrite <- !app_assoc. reflexivity.
    + rewrite !js_length_app, js_length_take, js_length_last.
      change (js_length "...") with 3%nat. lia.
Qed.

(** X21: config show writes a heading, the key and an empty line, sends
    nothing and returns.  Without a key it writes [not set].  Of a key that
    is a string it writes the first 8 code units, three dots and the last 4:
    never more than 15 code units, whatever the length of the key. *)
Theorem config_show_abridges_the_key env w :
  (truthy (getConfig env "apiKey") = false ->
   config_show env w
   = (Return tt,
      after_lines w
        [Log (nl ++ "Journy.io CLI Configuration" ++ nl);
         Log "API Key:  not set";
         Log ""]))
  /\ (forall key,
        getConfig env "apiKey" = JStr key ->
        key <> "" ->
        config_show env w
        = (Return tt,
           after_lines w
             [Log (nl ++ "Journy.io CLI Configuration" ++ nl);
              Log ("API Key:  " ++ js_take 8 key ++ "..." ++ js_last 4 key);
              Log ""])
        /\ (js_length (js_take 8 key ++ "..." ++ js_last 4 key) <= 15)%nat).
Proof. exact (config_show_steps env w). Qed.

Lemma config_show_abridges_the_key_witness :
  config_show (sample_env (JStr "sk_live_0123456789abcdef") accepting) initial
  = (Return tt,
     after_lines initial
       [Log (nl ++ "Journy.io CLI Configuration" ++ nl);
        Log "API Key:  sk_live_...cdef";
        Log ""])
  /\ config_show (sample_env JUndefined accepting) initial
     = (Return tt,
        after_lines initial
          [Log (nl ++ "Journy.io CLI Configuration" ++ nl);
           Log "API Key:  not set";
           Log ""]).
Proof.
  split.
  - refine (proj1 (proj2 (config_show_abridges_the_key
                            (sample_env (JStr "sk_live_0123456789abcdef") accepting)
                            initial)
                     "sk_live_0123456789abcdef" eq_refl _)).
    discriminate.
  - exact (proj1 (config_show_abridges_the_key (sample_env JUndefined accepting) initial)
             eq_refl).
Defined.

(** X22: config show does not hide a short key.  A key of at most 8 code
    units is written in full before the dots, and a key of at most 4 is
    written in full on both sides of them. *)
Theorem config_show_reveals_a_short_key env key w :
  getConfig env "apiKey" = JStr key ->
  key <> "" ->
  ((js_length key <= 8)%nat ->
   config_show env w
   = (Return tt,
      after_lines w
        [Log (nl ++ "Journy.io CLI Configuration" ++ nl);
         Log ("API Key:  " ++ key ++ "..." ++ js_last 4 key);
         Log ""]))
  /\ ((js_length key <= 4)%nat ->
      config_show env w
      = (Return tt,
         after_lines w
           [Log (nl ++ "Journy.io CLI Configuration" ++ nl);
            Log ("API Key:  " ++ key ++ "..." ++ key);
            Log ""])).
Proof.
  intros Hkey Hne.
  destruct (proj2 (config_show_steps env w) key Hkey Hne) as [Hrun _].
  split; intros Hshort; rewrite Hrun, js_take_all by lia; [reflexivity |].
  unfold js_last. destruct (Nat.leb_spec (js_length key) 4); [reflexivity | lia].
Qed.

Lemma config_show_reveals_a_short_key_witness :
  config_show (sample_env (JStr "abcd") accepting) initial
  = (Return tt,
     after_lines initial
       [Log (nl ++ "Journy.io CLI Configuration" ++ nl);
        Log "API Key:  abcd...abcd";
        Log ""]).
Proof.
  refine (proj2 (config_show_reveals_a_short_key (sample_env (JStr "abcd") accepting)
                   "abcd" initial eq_refl _) (proj1 (Nat.leb_le 4 4) eq_refl)).
  discriminate.
Defined.


(** * From the command line to the wire *)

Lemma command_operation env command :
  exists refusal spinner message,
    forall w,
      run_command env command w
      = perform env (command_options command) refusal (json_argument command) spinner
          (operation_of command)
          (show_success message (prints_request_id command)) w.
Proof.
  destruct command;
    cbn [run_command command_options prints_request_id json_argument operation_of].
  - exists None, ("Upserting user " ++ userId ++ "..."),
      ("User " ++ userId ++ " upserted successfully").
    reflexivity.
  - exists None, ("Deleting user " ++ userId ++ "..."),
      ("User " ++ userId ++ " deleted successfully").
    reflexivity.
  - exists None, ("Upserting account " ++ accountId ++ "..."),
      ("Account " ++ accountId ++ " upserted successfully").
    reflexivity.
  - exists None, ("Deleting account " ++ accountId ++ "..."),
      ("Account " ++ accountId ++ " deleted successfully").
    reflexivity.
  - exists (if (100 <? List.length userIds)%nat
            then Some "Maximum 100 users can be added at once" else None),
      ("Adding " ++ string_of_nat (List.length userIds) ++ " user(s) to account "
       ++ accountId ++ "..."),
      ("Added " ++ string_of_nat (List.length userIds) ++ " user(s) to account "
       ++ accountId).
    intros w. unfold account_add_users, perform.
    destruct (100 <? List.length userIds)%nat; reflexivity.
  - exists (if (100 <? List.length userIds)%nat
            then Some "Maximum 100 users can be removed at once" else None),
      ("Removing " ++ string_of_nat (List.length userIds) ++ " user(s) from account "
       ++ accountId ++ "..."),
      ("Removed " ++ string_of_nat (List.length userIds) ++ " user(s) from account "
       ++ accountId).
    intros w. unfold account_remove_users, perform.
    destruct (100 <? List.length userIds)%nat; reflexivity.
  - exists (if negb (truthy (get options "userId"))
               && negb (truthy (get options "accountId"))
            then Some "Either --user-id or --account-id (or both) must be provided"
            else None),
      ("Tracking event " ++ dq ++ eventName ++ dq ++ "..."),
      ("Event " ++ dq ++ eventName ++ dq ++ " tracked successfully").
    intros w. unfold event_track, perform.
    destruct (negb (truthy (get options "userId"))
              && negb (truthy (get options "accountId"))); reflexivity.
  - exists None, ("Linking user " ++ userId ++ " to account " ++ accountId ++ "..."),
      ("User " ++ userId ++ " linked to account " ++ accountId).
    reflexivity.
  - exists None, "Validating API key...", "API key is valid".
    reflexivity.
Qed.

(** X23: the request a command sends is the request of the operation its
    name says, made of its own arguments: the positional arguments as
    strings, the options as they were given, and for properties and metadata
    the value their JSON text parsed to ([{}] when the option is omitted or
    empty). *)
Theorem command_sends_its_operation env command w config :
  sent (run_command env command) w = (dispatched w ++ [config])%list ->
  exists properties,
    parsed env (json_argument command) = Some properties
    /\ config = request_of env (operation_of command properties).
Proof.
  destruct (command_operation env command) as [refusal [spinner [message Hshape]]].
  unfold sent. rewrite Hshape. intros Hsent.
  destruct (performed_request env _ _ _ _ _ _ w config
              (quiet_show_success message (prints_request_id command)) Hsent)
    as [properties [Hparsed [Hconfig _]]].
  exists properties. split; assumption.
Qed.

Lemma command_sends_its_operation_witness :
  exists properties,
    parsed (sample_env (JStr "key") accepting)
      (json_argument
         (EventTrack "paid"
            (JObj [("accountId", JStr "acme"); ("metadata", JStr "{ }")])))
    = Some properties
    /\ request_of (sample_env (JStr "key") accepting)
         (TrackEvent (JStr "paid") JUndefined (JStr "acme") (JObj []))
       = request_of (sample_env (JStr "key") accepting)
           (operation_of
              (EventTrack "paid"
                 (JObj [("accountId", JStr "acme"); ("metadata", JStr "{ }")]))
              properties).
Proof.
  exact (command_sends_its_operation (sample_env (JStr "key") accepting)
           (EventTrack "paid" (JObj [("accountId", JStr "acme"); ("metadata", JStr "{ }")]))
           initial
           (request_of (sample_env (JStr "key") accepting)
              (TrackEvent (JStr "paid") JUndefined (JStr "acme") (JObj [])))
           eq_refl).
Defined.
